(** * ASICS store crawler: a shallow embedding of [asics_scraper.py]

    The development follows the Python source function by function.
    A Python [str] is represented by its UTF-8 encoding, held in a Rocq
    [string]; every string operation the crawler uses ([startswith], [in],
    [replace], [strip], concatenation, equality) gives the same answer on the
    encoding as on the code points, because UTF-8 is self-synchronising.
    Effects (sleeping, fetching, the clock, the random generator, writing the
    CSV) go through an explicit world that is threaded through the code.
    The delays are rational numbers: the rounding of the [float] arithmetic
    in [random.uniform] is left out, the limits of [time.sleep] are kept.
    The percentages of the tally are binary64 numbers, computed as Python
    computes them. *)

From Stdlib Require Import String Ascii List ZArith QArith Lia Lqa Bool DecimalString.
From Stdlib Require Import Floats.
From Stdlib Require Uint63.
Import ListNotations.

Open Scope string_scope.
Open Scope Z_scope.

(* ================================================================== *)
(** ** Python strings *)

Module PyStr.

(** [p] is a prefix of [s] *)
Fixpoint is_prefix (p s : string) : bool :=
  match p with
  | EmptyString => true
  | String a p' =>
      match s with
      | EmptyString => false
      | String b s' => Ascii.eqb a b && is_prefix p' s'
      end
  end.

(** [s.startswith(p)] *)
Definition startswith (s p : string) : bool := is_prefix p s.

(** [s[n:]] *)
Fixpoint drop (n : nat) (s : string) : string :=
  match n, s with
  | O, _ => s
  | S n', String _ s' => drop n' s'
  | S _, EmptyString => EmptyString
  end.

(** [s[:n]] *)
Fixpoint take (n : nat) (s : string) : string :=
  match n, s with
  | O, _ => EmptyString
  | S n', String c s' => String c (take n' s')
  | S _, EmptyString => EmptyString
  end.

(** [s.endswith(p)] *)
Definition endswith (s p : string) : bool :=
  Nat.leb (String.length p) (String.length s)
  && String.eqb (drop (String.length s - String.length p) s) p.

(** [sub in s] *)
Fixpoint contains (sub s : string) : bool :=
  is_prefix sub s ||
  match s with
  | EmptyString => false
  | String _ s' => contains sub s'
  end.

(** [s.replace(old, new)] for a non-empty [old]: the occurrences are found
    from the left and do not overlap.  [skip] counts the characters of an
    occurrence that are still to be dropped. *)
Fixpoint replace_from (old new : string) (skip : nat) (s : string) : string :=
  match s with
  | EmptyString => EmptyString
  | String c s' =>
      match skip with
      | S k => replace_from old new k s'
      | O =>
          if is_prefix old s
          then new ++ replace_from old new (Nat.pred (String.length old)) s'
          else String c (replace_from old new O s')
      end
  end.

(** [s.replace("", new)] puts [new] before every character and at the end. *)
Fixpoint intersperse (new s : string) : string :=
  match s with
  | EmptyString => new
  | String c s' => new ++ String c (intersperse new s')
  end.

Definition replace (s old new : string) : string :=
  match old with
  | EmptyString => intersperse new s
  | String _ _ => replace_from old new O s
  end.

Definition of_bytes (l : list nat) : string :=
  fold_right (fun b acc => String (ascii_of_nat b) acc) EmptyString l.

(** The characters [str.strip()] removes ([str.isspace]), as UTF-8. *)
Definition whitespace : list string :=
  map of_bytes
    [ [9]; [10]; [11]; [12]; [13]; [28]; [29]; [30]; [31]; [32];
      [194; 133]; [194; 160]; [225; 154; 128];
      [226; 128; 128]; [226; 128; 129]; [226; 128; 130]; [226; 128; 131];
      [226; 128; 132]; [226; 128; 133]; [226; 128; 134]; [226; 128; 135];
      [226; 128; 136]; [226; 128; 137]; [226; 128; 138];
      [226; 128; 168]; [226; 128; 169]; [226; 128; 175];
      [226; 129; 159]; [227; 128; 128] ]%nat.

(** Length of the whitespace character [s] starts with, [0] if there is none. *)
Definition ws_len (s : string) : nat :=
  match find (fun w => is_prefix w s) whitespace with
  | Some w => String.length w
  | None => O
  end.

Fixpoint lstrip_from (skip : nat) (s : string) : string :=
  match s with
  | EmptyString => EmptyString
  | String _ s' =>
      match skip with
      | S k => lstrip_from k s'
      | O =>
          match ws_len s with
          | O => s
          | S k => lstrip_from k s'
          end
      end
  end.

Fixpoint all_ws_from (skip : nat) (s : string) : bool :=
  match s with
  | EmptyString => Nat.eqb skip O
  | String _ s' =>
      match skip with
      | S k => all_ws_from k s'
      | O =>
          match ws_len s with
          | O => false
          | S k => all_ws_from k s'
          end
      end
  end.

Fixpoint rstrip (s : string) : string :=
  match s with
  | EmptyString => EmptyString
  | String c s' => if all_ws_from O s then EmptyString else String c (rstrip s')
  end.

(** [s.strip()] *)
Definition strip (s : string) : string := rstrip (lstrip_from O s).

Definition LF : ascii := ascii_of_nat 10.
Definition CR : ascii := ascii_of_nat 13.

(** The lines a text file yields when it is iterated over: a line ends
    after a line feed, a carriage return or the pair of them, which all
    read as one line feed; the last line may lack it.  [cur] is the line
    read so far, [after_cr] says the last character was a carriage
    return. *)
Fixpoint lines_from (cur : string) (after_cr : bool) (s : string) : list string :=
  match s with
  | EmptyString => if String.eqb cur "" then [] else [cur]
  | String c s' =>
      if Ascii.eqb c LF then
        if after_cr then lines_from "" false s'
        else (cur ++ String LF "") :: lines_from "" false s'
      else if Ascii.eqb c CR then (cur ++ String LF "") :: lines_from "" true s'
      else lines_from (cur ++ String c "") false s'
  end.

Definition lines (text : string) : list string := lines_from "" false text.

(** [str(n)] for an [int] *)
Definition of_int (n : Z) : string := NilZero.string_of_int (Z.to_int n).

(** Truth value of a [str] *)
Definition truthy (s : string) : bool := negb (String.eqb s "").

Definition all_chars (f : ascii -> bool) (s : string) : bool :=
  forallb f (list_ascii_of_string s).

End PyStr.

(* ================================================================== *)
(** ** The fragment of [re] the crawler uses

    The three URL patterns are sequences of literals and capturing groups
    around one quantified character class.  [re.search] tries the start
    positions from the left; a greedy quantifier takes the longest run first
    and gives characters back one at a time. *)

Module Re.

(** A character class [[...]] or [[^...]], by its ranges. *)
Record charset := CharSet { negated : bool; ranges : list (ascii * ascii) }.

Definition in_range (c : ascii) (r : ascii * ascii) : bool :=
  (N_of_ascii (fst r) <=? N_of_ascii c)%N && (N_of_ascii c <=? N_of_ascii (snd r))%N.

Definition accepts (cs : charset) (c : ascii) : bool :=
  xorb (negated cs) (existsb (in_range c) (ranges cs)).

Inductive quantified :=
| Plus (cs : charset)               (* [cs+] *)
| Exactly (n : nat) (cs : charset). (* [cs{n}] *)

Inductive item :=
| Lit (s : string)
| Group (q : quantified).

Definition pattern := list item.

(** Length of the longest prefix of [s] made of characters of [cs]. *)
Fixpoint run (cs : charset) (s : string) : nat :=
  match s with
  | EmptyString => O
  | String c s' => if accepts cs c then S (run cs s') else O
  end.

(** Match [p] at the start of [s]; the captured groups, in order. *)
Fixpoint match_here (p : pattern) (s : string) : option (list string) :=
  match p with
  | [] => Some []
  | Lit l :: p' =>
      if PyStr.is_prefix l s then match_here p' (PyStr.drop (String.length l) s) else None
  | Group (Exactly n cs) :: p' =>
      if Nat.leb n (run cs s)
      then option_map (cons (PyStr.take n s)) (match_here p' (PyStr.drop n s))
      else None
  | Group (Plus cs) :: p' =>
      (fix give_back (n : nat) : option (list string) :=
         match n with
         | O => None
         | S n' =>
             match match_here p' (PyStr.drop n s) with
             | Some gs => Some (PyStr.take n s :: gs)
             | None => give_back n'
             end
         end) (run cs s)
  end.

(** [re.search(p, s)]: the groups of the leftmost match. *)
Fixpoint search (p : pattern) (s : string) : option (list string) :=
  match match_here p s with
  | Some gs => Some gs
  | None =>
      match s with
      | EmptyString => None
      | String _ s' => search p s'
      end
  end.

(** [m.group(i)] for [i >= 1] *)
Definition group (gs : list string) (i : nat) : string := nth (Nat.pred i) gs "".

End Re.

(* ================================================================== *)
(** ** Python values and exceptions *)

Module Py.

#[local] Set Warnings "-register-all".

(** A value as [json.loads] produces it.  A [float] is kept by whether it is
    zero (its truth value) and by its text. *)
Inductive value :=
| VNone
| VBool (b : bool)
| VInt (n : Z)
| VFloat (is_zero : bool) (repr : string)
| VStr (s : string)
| VList (l : list value)
| VDict (items : list (string * value)).

Definition truthy (v : value) : bool :=
  match v with
  | VNone => false
  | VBool b => b
  | VInt n => negb (n =? 0)
  | VFloat z _ => negb z
  | VStr s => PyStr.truthy s
  | VList l => match l with [] => false | _ => true end
  | VDict d => match d with [] => false | _ => true end
  end.

(** [v == s] for a string literal [s] *)
Definition eq_str (v : value) (s : string) : bool :=
  match v with
  | VStr t => String.eqb t s
  | _ => false
  end.

(** The exception classes the crawler distinguishes.  [Timeout],
    [ConnectTimeout], [ConnectionError], [HTTPError] and [RequestException]
    are those of [requests.exceptions]; [TimeoutException],
    [NoSuchElementException] and [WebDriverException] those of
    [selenium.common.exceptions]; the others are built in. *)
Inductive exn_class :=
| Timeout | ConnectTimeout | ConnectionError | HTTPError | RequestException
| TimeoutException | NoSuchElementException | WebDriverException
| JSONDecodeError | AttributeError | TypeError | ValueError | KeyError
| ZeroDivisionError | OverflowError | OSError | OtherException.

(** The object an exception carries as [e.response], by what the code asks
    of it: its truth value and its [status_code] attribute, if it has one. *)
Record response_obj := ResponseObj {
  resp_truthy : bool;
  resp_status_code : option Z
}.

(** A [requests.Response]: [Response.__bool__] is [Response.ok], which is
    false exactly when [raise_for_status] would raise. *)
Definition Response (status_code : Z) : response_obj :=
  {| resp_truthy := negb ((400 <=? status_code) && (status_code <? 600));
     resp_status_code := Some status_code |}.

Record exn := Exn {
  cls : exn_class;
  msg : string;               (* [str(e)] *)
  response : option response_obj  (* [getattr(e, 'response', None)] *)
}.

(** [isinstance(e, C)] for the classes named in [except] clauses. *)
Definition is_Timeout (e : exn) : bool :=
  match cls e with Timeout | ConnectTimeout => true | _ => false end.
Definition is_ConnectionError (e : exn) : bool :=
  match cls e with ConnectionError | ConnectTimeout => true | _ => false end.
Definition is_HTTPError (e : exn) : bool :=
  match cls e with HTTPError => true | _ => false end.
Definition is_RequestException (e : exn) : bool :=
  match cls e with
  | Timeout | ConnectTimeout | ConnectionError | HTTPError | RequestException => true
  | _ => false
  end.
Definition is_TimeoutException (e : exn) : bool :=
  match cls e with TimeoutException => true | _ => false end.
Definition is_WebDriverException (e : exn) : bool :=
  match cls e with
  | TimeoutException | NoSuchElementException | WebDriverException => true
  | _ => false
  end.
Definition is_JSONDecodeError (e : exn) : bool :=
  match cls e with JSONDecodeError => true | _ => false end.

Definition attribute_error (what attr : string) : exn :=
  Exn AttributeError ("'" ++ what ++ "' object has no attribute '" ++ attr ++ "'") None.

Definition type_name (v : value) : string :=
  match v with
  | VNone => "NoneType" | VBool _ => "bool" | VInt _ => "int" | VFloat _ _ => "float"
  | VStr _ => "str" | VList _ => "list" | VDict _ => "dict"
  end.

(** Result of a computation that may raise. *)
Inductive outcome (A : Type) :=
| Ok (a : A)
| Raise (e : exn).
Arguments Ok {A} a.
Arguments Raise {A} e.

Fixpoint assoc (k : string) (d : list (string * value)) : option value :=
  match d with
  | [] => None
  | (k', v) :: d' => if String.eqb k k' then Some v else assoc k d'
  end.

(** [v.get(k, default)] *)
Definition get (v : value) (k : string) (default : value) : outcome value :=
  match v with
  | VDict d => Ok (match assoc k d with Some x => x | None => default end)
  | _ => Raise (attribute_error (type_name v) "get")
  end.

(** [k in v] for a dict [v] *)
Definition contains_key (k : string) (v : value) : bool :=
  match v with
  | VDict d => match assoc k d with Some _ => true | None => false end
  | _ => false
  end.

(** [v[k]] for a dict [v] *)
Definition getitem (v : value) (k : string) : outcome value :=
  match v with
  | VDict d =>
      match assoc k d with
      | Some x => Ok x
      | None => Raise (Exn KeyError ("'" ++ k ++ "'") None)
      end
  | _ => Raise (Exn TypeError ("'" ++ type_name v ++ "' object is not subscriptable") None)
  end.

(** [v.replace(old, new)] *)
Definition replace (v : value) (old new : string) : outcome value :=
  match v with
  | VStr s => Ok (VStr (PyStr.replace s old new))
  | _ => Raise (attribute_error (type_name v) "replace")
  end.

(** Code that updates a state of type [S] in place and may raise: the state
    reached is kept when it raises. *)
Definition M (S A : Type) : Type := S -> S * outcome A.

Definition ret {S A} (a : A) : M S A := fun s => (s, Ok a).
Definition raise {S A} (e : exn) : M S A := fun s => (s, Raise e).
Definition bind {S A B} (c : M S A) (k : A -> M S B) : M S B :=
  fun s => match c s with
           | (s', Ok a) => k a s'
           | (s', Raise e) => (s', Raise e)
           end.
Definition lift {S A} (o : outcome A) : M S A := fun s => (s, o).
Definition read {S} : M S S := fun s => (s, Ok s).
Definition modify {S} (f : S -> S) : M S unit := fun s => (f s, Ok tt).

(** [try: body  except E as e: handler e] where [catches] decides
    [isinstance(e, E)]; an exception the handler raises goes on. *)
Definition try_except {S A} (body : M S A) (catches : exn -> bool)
    (handler : exn -> M S A) : M S A :=
  fun s => match body s with
           | (s', Ok a) => (s', Ok a)
           | (s', Raise e) => if catches e then handler e s' else (s', Raise e)
           end.

(** Run [c] on a component of a larger state. *)
Definition zoom {S T A} (proj : T -> S) (inj : S -> T -> T) (c : M S A) : M T A :=
  fun t => let '(s', o) := c (proj t) in (inj s' t, o).

End Py.

Declare Scope py_scope.
Delimit Scope py_scope with py.
Notation "x <- c ;; k" := (Py.bind c (fun x => k))
  (at level 61, c at next level, right associativity) : py_scope.
Notation "c ;;; k" := (Py.bind c (fun _ => k))
  (at level 61, right associativity) : py_scope.

(* ================================================================== *)
(** ** The record of one URL: the [result] dict of [scrape_urls] *)

Module Result.

Record t := Make {
  url : string;
  status : string;
  title : string;
  product_id : string;
  price : Py.value;        (* a [str], or whatever JSON-LD holds as [offers.price] *)
  availability : string;
  color : string;
  category : string;
  timestamp : string
}.

Definition set_status (v : string) (r : t) : t :=
  Make (url r) v (title r) (product_id r) (price r) (availability r) (color r)
       (category r) (timestamp r).
Definition set_title (v : string) (r : t) : t :=
  Make (url r) (status r) v (product_id r) (price r) (availability r) (color r)
       (category r) (timestamp r).
Definition set_product_id (v : string) (r : t) : t :=
  Make (url r) (status r) (title r) v (price r) (availability r) (color r)
       (category r) (timestamp r).
Definition set_price (v : Py.value) (r : t) : t :=
  Make (url r) (status r) (title r) (product_id r) v (availability r) (color r)
       (category r) (timestamp r).
Definition set_availability (v : string) (r : t) : t :=
  Make (url r) (status r) (title r) (product_id r) (price r) v (color r)
       (category r) (timestamp r).
Definition set_color (v : string) (r : t) : t :=
  Make (url r) (status r) (title r) (product_id r) (price r) (availability r) v
       (category r) (timestamp r).
Definition set_category (v : string) (r : t) : t :=
  Make (url r) (status r) (title r) (product_id r) (price r) (availability r) (color r)
       v (timestamp r).

(** [result[k] = v] for the keys [_extract_product_info_from_url] sets *)
Definition setitem (k v : string) (r : t) : t :=
  if String.eqb k "category" then set_category v r
  else if String.eqb k "product_id" then set_product_id v r
  else if String.eqb k "color" then set_color v r
  else r.

(** [result.update(info)] *)
Definition update (info : list (string * string)) (r : t) : t :=
  fold_left (fun acc kv => setitem (fst kv) (snd kv) acc) info r.

End Result.

(* ================================================================== *)
(** ** The world the crawler runs in *)

(** The document a response parses to, by what the extractor asks of
    [BeautifulSoup]: the text of its elements, before [strip]. *)
Inductive ld_script :=
| LdNoString                 (* the script's text is [None]: [json.loads] raises [TypeError] *)
| LdMalformed                (* [json.loads] raises [JSONDecodeError] *)
| LdValue (v : Py.value).    (* [json.loads] returns [v] *)

Record Soup := {
  soup_title : option string;          (* [soup.title.text] *)
  soup_price : option string;          (* [select_one('.product-price, ...').text] *)
  soup_availability : option string;   (* [select_one('.stock-status, ...').text] *)
  soup_json_ld : option ld_script      (* [soup.find('script', type='application/ld+json')] *)
}.

(** The page a browser has loaded, by what the extractor asks of the driver. *)
Record Dom := {
  dom_title : string;                  (* [driver.title] *)
  dom_price : option string;           (* [find_element(...)] raises when there is none *)
  dom_availability : option string;
  dom_json_ld : list ld_script         (* [find_elements(...)] *)
}.

Inductive get_outcome :=
| GetRaises (e : Py.exn)
| GetResponse (status_code : Z) (soup : Soup).

Inductive load_outcome :=
| LoadRaises (e : Py.exn)
| Loaded (dom : Dom).

Inductive event :=
| Uniform (a b d : Q)                        (* [random.uniform(a, b)] returned [d] *)
| Sleep (d : Q)                              (* [time.sleep(d)] *)
| SessionGet (url : string) (timeout : Z)    (* [session.get(url, timeout=timeout)] *)
| DriverGet (url : string) (timeout : Z)     (* [driver.get(url)] and the wait for the title *)
| ToCsv (output_file : string) (rows : list Result.t)
| Summary (total success_count : Z) (success_pct failure_pct : PrimFloat.float)
| DriverQuit
| SessionClose.

(** [clock] counts the questions asked of the environment, [trace] lists the
    effects in the order they happened. *)
Record world := World { clock : nat; trace : list event }.

(** What the environment answers: every answer may depend on the moment
    ([clock]) it is asked at. *)
Record Env := {
  now : nat -> string;                               (* [datetime.now().strftime(...)] *)
  random_random : nat -> nat * nat;                  (* [random.random()] is [a / (a + b + 1)] *)
  random_below : nat -> nat -> nat;                  (* an index drawn for [n] choices *)
  session_get : nat -> string -> Z -> get_outcome;
  driver_load : nat -> string -> Z -> load_outcome;
  chrome_starts : nat -> option string -> option Py.exn;  (* [webdriver.Chrome(...)] fails *)
  files : string -> option string;                   (* the text files there are *)
  read_error : string -> option (nat * Py.exn)       (* reading a file raises after so many lines *)
}.

Definition tick (w : world) : world := World (S (clock w)) (trace w).
Definition emit (e : event) (w : world) : world := World (clock w) (trace w ++ [e]).

(** The URLs fetched, in order: one entry per attempt that reached the fetch. *)
Definition fetched (tr : list event) : list string :=
  flat_map (fun e => match e with
                     | SessionGet u _ | DriverGet u _ => [u]
                     | _ => []
                     end) tr.

(** The windows [random.uniform] was asked to draw from, in order. *)
Definition windows (tr : list event) : list (Q * Q) :=
  flat_map (fun e => match e with
                     | Uniform a b _ => [(a, b)]
                     | _ => []
                     end) tr.

(* ================================================================== *)
(** ** The crawler *)

Record AsicsScraper := {
  method : string;
  headless : bool;
  chromedriver_path : option string;
  driver : bool;      (* [self.driver] is not [None] *)
  session : bool;     (* [self.session] is not [None] *)
  results : list Result.t
}.

Definition set_results (rs : list Result.t) (self : AsicsScraper) : AsicsScraper :=
  {| method := method self; headless := headless self;
     chromedriver_path := chromedriver_path self; driver := driver self;
     session := session self; results := rs |}.

(** The table [pd.DataFrame(self.results)] holds: the records, in order. *)
Definition DataFrame := list Result.t.

Section Crawler.

Local Open Scope py_scope.
Import Py.

(** [str.lower]: the crawler lower-cases the method name and the page title;
    the Unicode case mapping is left open. *)
Variable lower : string -> string.
Variable env : Env.

(** *** Primitive effects *)

(** [random.uniform(a, b)], that is [a + (b - a) * random.random()] *)
Definition random_uniform (a b : Q) : M world Q := fun w =>
  let '(x, y) := random_random env (clock w) in
  let d := (a + (b - a) * (Z.of_nat x # Pos.of_succ_nat (x + y)))%Q in
  (emit (Uniform a b d) (tick w), Ok d).

(** [time.sleep] (CPython 3.11) first turns the length into a count of
    nanoseconds held in a signed 64-bit integer: the binary64 product of the
    length and [1e9] has to lie from [-2^63] up to, but not including, [2^63].
    Next to [2^63] the floats are 1024 apart below it and 2048 apart beyond
    it, so the products that round into that range are those from
    [-(2^63 + 1024)] up to, but not including, [2^63 - 512]. *)
Definition sleep_floor : Q := (-9223372036854776832 # 1000000000).
Definition sleep_limit : Q := (9223372036854775296 # 1000000000).

(** [time.sleep(d)]: a length that does not fit is refused with
    [OverflowError], one that fits and is negative with [ValueError]. *)
Definition time_sleep (d : Q) : M world unit := fun w =>
  if negb (Qle_bool sleep_floor d && negb (Qle_bool sleep_limit d)) then
    (w, Raise (Exn OverflowError "timestamp too large to convert to C _PyTime_t" None))
  else if Qle_bool 0 d then (emit (Sleep d) w, Ok tt)
  else (w, Raise (Exn ValueError "sleep length must be non-negative" None)).

(** *** [_extract_product_info_from_url] *)

Definition not_slash : Re.charset := Re.CharSet true [("/"%char, "/"%char)].
Definition upper_or_digit : Re.charset :=
  Re.CharSet false [("A"%char, "Z"%char); ("0"%char, "9"%char)].
Definition digit : Re.charset := Re.CharSet false [("0"%char, "9"%char)].

Definition patterns : list Re.pattern :=
  [ (* /jp/ja-jp/([^/]+)/p/([A-Z0-9]+)-([0-9]{3})\.html *)
    [ Re.Lit "/jp/ja-jp/"; Re.Group (Re.Plus not_slash); Re.Lit "/p/";
      Re.Group (Re.Plus upper_or_digit); Re.Lit "-"; Re.Group (Re.Exactly 3 digit);
      Re.Lit ".html" ];
    (* /jp/ja-jp/([^/]+)/products/([A-Z0-9]+)-([0-9]{3})\.html *)
    [ Re.Lit "/jp/ja-jp/"; Re.Group (Re.Plus not_slash); Re.Lit "/products/";
      Re.Group (Re.Plus upper_or_digit); Re.Lit "-"; Re.Group (Re.Exactly 3 digit);
      Re.Lit ".html" ];
    (* /jp/ja-jp/sale/([^/]+)/p/([A-Z0-9]+)-([0-9]{3})\.html *)
    [ Re.Lit "/jp/ja-jp/sale/"; Re.Group (Re.Plus not_slash); Re.Lit "/p/";
      Re.Group (Re.Plus upper_or_digit); Re.Lit "-"; Re.Group (Re.Exactly 3 digit);
      Re.Lit ".html" ] ].

(** The [for pattern in patterns] loop: the first pattern that matches fills
    [info] and ends the loop. *)
Fixpoint first_match (ps : list Re.pattern) (url : string) : list (string * string) :=
  match ps with
  | [] => []
  | pattern :: ps' =>
      match Re.search pattern url with
      | Some product_match =>
          [ ("category", Re.group product_match 1);
            ("product_id", Re.group product_match 2);
            ("color", Re.group product_match 3) ]
      | None => first_match ps' url
      end
  end.

Definition _extract_product_info_from_url (url : string) : list (string * string) :=
  first_match patterns url.

(** *** JSON-LD, as both extractors read it (lines 250-265 and 365-380) *)

Definition json_loads (s : ld_script) : outcome value :=
  match s with
  | LdNoString =>
      Raise (Exn TypeError "the JSON object must be str, bytes or bytearray, not NoneType" None)
  | LdMalformed => Raise (Exn JSONDecodeError "Expecting value" None)
  | LdValue v => Ok v
  end.

(** [next((item for item in ld_data if item.get('@type') == 'Product'), {})] *)
Fixpoint first_product (l : list value) : outcome value :=
  match l with
  | [] => Ok (VDict [])
  | item :: l' =>
      match get item "@type" VNone with
      | Raise e => Raise e
      | Ok ty => if eq_str ty "Product" then Ok item else first_product l'
      end
  end.

Definition availability_label (availability : value) : outcome value :=
  match replace availability "http://schema.org/InStock" "在庫あり" with
  | Raise e => Raise e
  | Ok a1 =>
      match replace a1 "http://schema.org/OutOfStock" "在庫切れ" with
      | Raise e => Raise e
      | Ok a2 => replace a2 "http://schema.org/LimitedAvailability" "在庫残りわずか"
      end
  end.

Definition read_json_ld (script : ld_script) : M Result.t unit :=
  try_except
    (ld <- lift (json_loads script) ;;
     ld_data <- lift (match ld with VList l => first_product l | _ => Ok ld end) ;;
     ty <- lift (get ld_data "@type" VNone) ;;
     if eq_str ty "Product" then
       (result <- read ;;
        if negb (truthy (Result.price result)) && contains_key "offers" ld_data then
          offers <- lift (getitem ld_data "offers") ;;
          p <- lift (get offers "price" (VStr "")) ;;
          modify (Result.set_price p)
        else ret tt) ;;;
       (result <- read ;;
        if negb (PyStr.truthy (Result.availability result))
           && contains_key "offers" ld_data then
          offers <- lift (getitem ld_data "offers") ;;
          availability <- lift (get offers "availability" (VStr "")) ;;
          if truthy availability then
            label <- lift (availability_label availability) ;;
            match label with
            | VStr s => modify (Result.set_availability s)
            | _ => ret tt
            end
          else ret tt
        else ret tt)
     else ret tt)
    is_JSONDecodeError
    (fun _ => ret tt).

(** *** [_extract_product_details] *)

Definition _extract_product_details (soup : Soup) : M Result.t unit :=
  try_except
    (match soup_price soup with
     | Some text => modify (Result.set_price (VStr (PyStr.strip text)))
     | None => ret tt
     end ;;;
     match soup_availability soup with
     | Some text => modify (Result.set_availability (PyStr.strip text))
     | None => ret tt
     end ;;;
     match soup_json_ld soup with
     | Some json_ld => read_json_ld json_ld
     | None => ret tt
     end)
    (fun _ => true)
    (fun _ => ret tt).

(** *** [_scrape_with_requests] *)

(** State of the code that works on one URL: the world and the [result]
    dict, which the callee updates in place. *)
Definition in_world {A} (c : M world A) : M (world * Result.t) A :=
  zoom fst (fun w s => (w, snd s)) c.
Definition in_result {A} (c : M Result.t A) : M (world * Result.t) A :=
  zoom snd (fun r s => (fst s, r)) c.

(** [self.session.get(url, timeout=timeout)] *)
Definition session_get_call (self : AsicsScraper) (url : string) (timeout : Z)
    : M world (Z * Soup) := fun w =>
  if session self then
    match session_get env (clock w) url timeout with
    | GetRaises e => (emit (SessionGet url timeout) (tick w), Raise e)
    | GetResponse status_code soup =>
        (emit (SessionGet url timeout) (tick w), Ok (status_code, soup))
    end
  else (w, Raise (attribute_error "NoneType" "get")).

(** [response.raise_for_status()] *)
Definition raise_for_status (status_code : Z) : outcome unit :=
  if (400 <=? status_code) && (status_code <? 600)
  then Raise (Exn HTTPError (PyStr.of_int status_code ++ " Error") (Some (Response status_code)))
  else Ok tt.

(** The test of line 301 *)
Definition not_found_title (title : string) : bool :=
  PyStr.contains "404" (lower title) || PyStr.contains "ページが見つかりません" title.

(** [e.response.status_code] *)
Definition response_status_code (e : exn) : outcome Z :=
  match response e with
  | None => Raise (attribute_error "NoneType" "status_code")
  | Some r =>
      match resp_status_code r with
      | None => Raise (attribute_error "object" "status_code")
      | Some c => Ok c
      end
  end.

(** Lines 291-308: what is read from the page of a response *)
Definition read_page (soup : Soup) : M Result.t unit :=
  modify (Result.set_title
    match soup_title soup with
    | Some text => PyStr.strip text
    | None => "タイトルが見つかりません"
    end) ;;;
  modify (Result.set_status "成功") ;;;
  _extract_product_details soup ;;;
  (result <- read ;;
   if not_found_title (Result.title result) then
     modify (Result.set_status "ページなし") ;;;
     modify (Result.set_title "ページが見つかりません")
   else ret tt) ;;;
  (result <- read ;;
   if negb (truthy (Result.price result))
      && negb (PyStr.truthy (Result.availability result)) then
     modify (Result.set_status "商品情報なし") ;;;
     modify (Result.set_title "商品情報が見つかりません")
   else ret tt).

(** The [except] clauses of lines 310-322 *)
Definition requests_except (e : exn) : M Result.t unit :=
  if is_HTTPError e then
    status_code <- lift (response_status_code e) ;;
    if status_code =? 404 then
      modify (Result.set_status "ページなし") ;;;
      modify (Result.set_title "ページが見つかりません（404）")
    else if status_code =? 403 then
      modify (Result.set_status "アクセス拒否") ;;;
      modify (Result.set_title "アクセスが拒否されました（403）")
    else
      modify (Result.set_status "エラー") ;;;
      modify (Result.set_title ("HTTPエラー: " ++ PyStr.of_int status_code))
  else
    modify (Result.set_status "エラー") ;;;
    modify (Result.set_title ("予期しないエラー: " ++ msg e)).

Definition _scrape_with_requests (self : AsicsScraper) (url : string) (timeout : Z)
    : M (world * Result.t) unit :=
  try_except
    (response <- in_world (session_get_call self url timeout) ;;
     lift (raise_for_status (fst response)) ;;;
     in_result (read_page (snd response)))
    (fun _ => true)
    (fun e => in_result (requests_except e)).

(** *** [_scrape_with_selenium] *)

(** [self.driver.get(url)], [set_page_load_timeout] and the wait for the
    title element: what raises there, or the page once it is loaded. *)
Definition driver_load_call (self : AsicsScraper) (url : string) (timeout : Z)
    : M world Dom := fun w =>
  if driver self then
    match driver_load env (clock w) url timeout with
    | LoadRaises e => (emit (DriverGet url timeout) (tick w), Raise e)
    | Loaded dom => (emit (DriverGet url timeout) (tick w), Ok dom)
    end
  else (w, Raise (attribute_error "NoneType" "get")).

(** [driver.find_element(By.CSS_SELECTOR, ...)] *)
Definition find_element (found : option string) : outcome string :=
  match found with
  | Some text => Ok text
  | None => Raise (Exn NoSuchElementException "no such element" None)
  end.

(** The [for script in json_ld_scripts] loop *)
Fixpoint for_scripts (scripts : list ld_script) : M Result.t unit :=
  match scripts with
  | [] => ret tt
  | script :: scripts' => read_json_ld script ;;; for_scripts scripts'
  end.

(** Lines 231-269: what is read from the page the browser has loaded *)
Definition read_dom (dom : Dom) : M Result.t unit :=
  modify (Result.set_title (dom_title dom)) ;;;
  modify (Result.set_status "SUCCESS") ;;;
  try_except
    (price_text <- lift (find_element (dom_price dom)) ;;
     modify (Result.set_price (VStr (PyStr.strip price_text))) ;;;
     availability_text <- lift (find_element (dom_availability dom)) ;;
     modify (Result.set_availability (PyStr.strip availability_text)) ;;;
     for_scripts (dom_json_ld dom))
    (fun _ => true)
    (fun _ => ret tt).

Definition _scrape_with_selenium (self : AsicsScraper) (url : string) (timeout : Z)
    : M (world * Result.t) unit :=
  try_except
    (dom <- in_world (driver_load_call self url timeout) ;;
     in_result (read_dom dom))
    is_WebDriverException
    (fun e =>
       if is_TimeoutException e
       then raise (Exn Timeout "ページの読み込みがタイムアウトしました" None)
       else raise e).

(** *** [scrape_urls] *)

Section ScrapeUrls.

Variable output_file : option string.
Variable delay_range : Q * Q.
Variable timeout : Z.
Variable max_retries : Z.

(** The [try] block of the retry loop (lines 141-150) *)
Definition attempt (self : AsicsScraper) (url : string) : M (world * Result.t) unit :=
  d <- in_world (random_uniform (fst delay_range) (snd delay_range)) ;;
  in_world (time_sleep d) ;;;
  if String.eqb (method self) "selenium"
  then _scrape_with_selenium self url timeout
  else _scrape_with_requests self url timeout.

Definition retry_suffix (retry_count : Z) : string :=
  " - 再試行 " ++ PyStr.of_int retry_count ++ "/" ++ PyStr.of_int max_retries.

(** The [except] clauses of the retry loop (lines 152-185).  The answer is
    whether the loop is left by [break], and the new [retry_count]. *)
Definition on_exception (retry_count : Z) (e : exn) : M (world * Result.t) (bool * Z) :=
  if is_Timeout e then
    let retry_count := retry_count + 1 in
    in_result (modify (Result.set_title ("タイムアウト" ++ retry_suffix retry_count))) ;;;
    ret (false, retry_count)
  else if is_ConnectionError e then
    let retry_count := retry_count + 1 in
    in_result (modify (Result.set_title ("接続エラー" ++ retry_suffix retry_count))) ;;;
    ret (false, retry_count)
  else if is_HTTPError e || is_WebDriverException e then
    match response e with
    | Some {| resp_truthy := true; resp_status_code := Some status_code |} =>
        if status_code =? 404 then
          in_result (modify (Result.set_title "ページが見つかりません（404）")) ;;;
          ret (true, retry_count)
        else if status_code =? 403 then
          in_result (modify (Result.set_title "アクセスが拒否されました（403）")) ;;;
          d <- in_world (random_uniform 5 10) ;;
          in_world (time_sleep d) ;;;
          ret (false, retry_count + 1)
        else
          let retry_count := retry_count + 1 in
          in_result (modify (Result.set_title
            ("HTTPエラー: " ++ PyStr.of_int status_code ++ retry_suffix retry_count))) ;;;
          ret (false, retry_count)
    | _ =>
        let retry_count := retry_count + 1 in
        in_result (modify (Result.set_title
          ("ブラウザエラー: " ++ msg e ++ retry_suffix retry_count))) ;;;
        ret (false, retry_count)
    end
  else if is_RequestException e || is_TimeoutException e then
    let retry_count := retry_count + 1 in
    in_result (modify (Result.set_title
      ("リクエストエラー: " ++ msg e ++ retry_suffix retry_count))) ;;;
    ret (false, retry_count)
  else
    let retry_count := retry_count + 1 in
    in_result (modify (Result.set_title
      ("予期しないエラー: " ++ msg e ++ retry_suffix retry_count))) ;;;
    ret (false, retry_count).

(** [while not success and retry_count < max_retries].  [fuel] bounds the
    number of times the body runs; [None] means it was too small. *)
Fixpoint retry_loop (fuel : nat) (self : AsicsScraper) (url : string)
    (success : bool) (retry_count : Z) (s : world * Result.t)
    : option ((world * Result.t) * outcome unit) :=
  if negb success && (retry_count <? max_retries) then
    match fuel with
    | O => None
    | S fuel' =>
        match attempt self url s with
        | (s1, Ok _) => retry_loop fuel' self url true retry_count s1
        | (s1, Raise e) =>
            match on_exception retry_count e s1 with
            | (s2, Ok (true, _)) => Some (s2, Ok tt)
            | (s2, Ok (false, retry_count')) =>
                retry_loop fuel' self url false retry_count' s2
            | (s2, Raise e') => Some (s2, Raise e')
            end
        end
    end
  else Some (s, Ok tt).

(** [self._save_results(output_file)]: whatever goes wrong is printed. *)
Definition _save_results (path : string) : M (world * AsicsScraper) unit := fun s =>
  ((emit (ToCsv path (results (snd s))) (fst s), snd s), Ok tt).

(** Truth value of [output_file] *)
Definition output_path : option string :=
  match output_file with
  | Some path => if PyStr.truthy path then Some path else None
  | None => None
  end.

(** The dict literal of lines 114-124 *)
Definition new_result (self : AsicsScraper) (url timestamp : string) : Result.t :=
  {| Result.url := url;
     Result.status := if String.eqb (method self) "requests" then "エラー" else "ERROR";
     Result.title := "";
     Result.product_id := "";
     Result.price := VStr "";
     Result.availability := "";
     Result.color := "";
     Result.category := "";
     Result.timestamp := timestamp |}.

(** Lines 127-128 *)
Definition absolute_url (url : string) : string :=
  if negb (PyStr.startswith url "http://" || PyStr.startswith url "https://")
  then "https://www.asics.com" ++ (if PyStr.startswith url "/" then "" else "/") ++ url
  else url.

(** Lines 114-133: the record before the first attempt *)
Definition prepared_result (self : AsicsScraper) (url timestamp : string) : Result.t :=
  let result := new_result self url timestamp in
  let url := absolute_url url in
  let product_info := _extract_product_info_from_url url in
  match product_info with
  | [] => result
  | _ => Result.update product_info result
  end.

(** The body of [for url in urls] (lines 114-192) *)
Definition scrape_url (url : string) (s : world * AsicsScraper)
    : option ((world * AsicsScraper) * outcome unit) :=
  let '(w, self) := s in
  let result := prepared_result self url (now env (clock w)) in
  let w := tick w in
  let url := absolute_url url in
  match retry_loop (Z.to_nat max_retries) self url false 0 (w, result) with
  | None => None
  | Some ((w, result), Raise e) => Some ((w, self), Raise e)
  | Some ((w, result), Ok _) =>
      let self := set_results (results self ++ [result]) self in
      match output_path with
      | Some path =>
          if (Z.of_nat (length (results self)) mod 10 =? 0)
          then Some (_save_results path (w, self))
          else Some ((w, self), Ok tt)
      | None => Some ((w, self), Ok tt)
      end
  end.

Fixpoint for_urls (urls : list string) (s : world * AsicsScraper)
    : option ((world * AsicsScraper) * outcome unit) :=
  match urls with
  | [] => Some (s, Ok tt)
  | url :: urls' =>
      match scrape_url url s with
      | None => None
      | Some (s', Ok _) => for_urls urls' s'
      | Some (s', Raise e) => Some (s', Raise e)
      end
  end.

(** [sum(results_df['status'] == success_value)] *)
Definition count_status (v : string) (df : DataFrame) : Z :=
  Z.of_nat (length (filter (fun r => String.eqb (Result.status r) v) df)).

(** [float(n)] for an integer [n]: exact for the integers below [2^53] in
    size, which the counts of a run are. *)
Definition float_of_int (n : Z) : PrimFloat.float :=
  if n <? 0 then PrimFloat.opp (PrimFloat.of_uint63 (Uint63.of_Z (- n)))
  else PrimFloat.of_uint63 (Uint63.of_Z n).

(** [n / total * 100] for integers [n] and [total], in the binary64
    arithmetic of Python's [float]: the quotient is rounded, then the
    product. *)
Definition percent (n total : Z) : PrimFloat.float :=
  PrimFloat.mul (PrimFloat.div (float_of_int n) (float_of_int total)) (float_of_int 100).

(** Lines 195-209: the table, the last save and the tally.  An empty table
    has no [status] column, and an empty [urls] makes the tally divide by
    zero. *)
Definition summarise (urls : list string) : M (world * AsicsScraper) DataFrame :=
  self <- zoom snd (fun a s => (fst s, a)) read ;;
  let results_df : DataFrame := results self in
  match output_path with
  | Some path => _save_results path
  | None => ret tt
  end ;;;
  let success_value := if String.eqb (method self) "requests" then "成功" else "SUCCESS" in
  match results_df with
  | [] => raise (Exn KeyError "'status'" None)
  | _ =>
      let success_count := count_status success_value results_df in
      let total := Z.of_nat (length urls) in
      if total =? 0 then raise (Exn ZeroDivisionError "division by zero" None)
      else
        zoom fst (fun w s => (w, snd s))
          (modify (emit (Summary total success_count
                           (percent success_count total)
                           (percent (total - success_count) total)))) ;;;
        ret results_df
  end.

Definition scrape_urls (urls : list string) (s : world * AsicsScraper)
    : option ((world * AsicsScraper) * outcome DataFrame) :=
  match for_urls urls s with
  | None => None
  | Some (s', Raise e) => Some (s', Raise e)
  | Some (s', Ok _) => Some (summarise urls s')
  end.

End ScrapeUrls.

(** *** [AsicsScraper.__init__] and [close] *)

Definition _setup_requests (self : AsicsScraper) : AsicsScraper :=
  {| method := method self; headless := headless self;
     chromedriver_path := chromedriver_path self; driver := driver self;
     session := true; results := results self |}.

Definition path_exists (path : string) : bool :=
  match files env path with Some _ => true | None => false end.

(** When Chrome does not start the instance falls back to [requests]. *)
Definition _setup_selenium (self : AsicsScraper) : M world AsicsScraper := fun w =>
  let service :=
    match chromedriver_path self with
    | Some path => if PyStr.truthy path && path_exists path then Some path else None
    | None => None
    end in
  match chrome_starts env (clock w) service with
  | Some _ =>
      (tick w,
       Ok (_setup_requests
             {| method := "requests"; headless := headless self;
                chromedriver_path := chromedriver_path self; driver := false;
                session := session self; results := results self |}))
  | None =>
      (tick w,
       Ok {| method := method self; headless := headless self;
             chromedriver_path := chromedriver_path self; driver := true;
             session := session self; results := results self |})
  end.

Definition __init__ (method : string) (headless : bool) (chromedriver_path : option string)
    : M world AsicsScraper :=
  let self :=
    {| method := lower method; headless := headless;
       chromedriver_path := chromedriver_path; driver := false; session := false;
       results := [] |} in
  if String.eqb (lower method) "selenium" then _setup_selenium self
  else if String.eqb (lower method) "requests" then ret (_setup_requests self)
  else raise (Exn ValueError
    "指定された方法は 'selenium' または 'requests' でなければなりません" None).

Definition close (self : AsicsScraper) : M world unit :=
  if String.eqb (method self) "selenium" && driver self then modify (emit DriverQuit)
  else if String.eqb (method self) "requests" && session self then modify (emit SessionClose)
  else ret tt.

(** *** [generate_test_urls] *)

Definition categories : list string :=
  [ "running"; "training"; "tennis"; "sportsstyle";
    "volleyball"; "track-and-field"; "walking";
    "basketball"; "football"; "golf" ].

Definition jp_product_ids : list string :=
  [ "1011A"; "1011B"; "1012A"; "1012B"; "1013A";
    "1071A"; "1071B"; "1072A"; "1072B"; "1073A";
    "1081A"; "1081B"; "1082A"; "1082B"; "1083A";
    "1091A"; "1091B"; "1092A"; "1092B"; "1093A" ].

(** An index below [n], for a non-empty choice *)
Definition randbelow (n : nat) : M world nat := fun w =>
  (tick w, Ok (Nat.modulo (random_below env (clock w) n) n)).

(** [random.choice(seq)] for a non-empty [seq] *)
Definition random_choice (seq : list string) : M world string :=
  i <- randbelow (length seq) ;; ret (nth i seq "").

(** [random.randint(a, b)] *)
Definition random_randint (a b : Z) : M world Z :=
  i <- randbelow (Z.to_nat (b - a + 1)) ;; ret (a + Z.of_nat i).

Fixpoint generate_loop (base_url : string) (count : nat) (urls : list string)
    : M world (list string) :=
  match count with
  | O => ret urls
  | S count' =>
      category <- random_choice categories ;;
      prefix <- random_choice jp_product_ids ;;
      number <- random_randint 100 999 ;;
      let product_id := prefix ++ PyStr.of_int number in
      color <- random_randint 100 999 ;;
      let color_code := PyStr.of_int color in
      let url_patterns :=
        [ base_url ++ "/jp/ja-jp/" ++ category ++ "/p/" ++ product_id ++ "-" ++ color_code ++ ".html";
          base_url ++ "/jp/ja-jp/" ++ category ++ "/products/" ++ product_id ++ "-" ++ color_code ++ ".html";
          base_url ++ "/jp/ja-jp/sale/" ++ category ++ "/p/" ++ product_id ++ "-" ++ color_code ++ ".html" ] in
      url <- random_choice url_patterns ;;
      generate_loop base_url count' (urls ++ [url])
  end.

Definition generate_test_urls (base_url : string) (count : Z) : M world (list string) :=
  let base_url :=
    if PyStr.endswith base_url "/"
    then PyStr.take (String.length base_url - 1) base_url
    else base_url in
  generate_loop base_url (Z.to_nat count) [].

(** *** [load_urls_from_file] *)

(** The [for line in f] loop *)
Fixpoint keep_urls (file_lines : list string) (urls : list string) : list string :=
  match file_lines with
  | [] => urls
  | line :: file_lines' =>
      let url := PyStr.strip line in
      if PyStr.truthy url && negb (PyStr.startswith url "#")
      then keep_urls file_lines' (urls ++ [url])
      else keep_urls file_lines' urls
  end.

(** [with open(file_path, 'r', encoding='utf-8') as f: for line in f: ...]
    on the list [urls]: a file that is not there cannot be opened, and
    reading may raise (an I/O or decoding error) after some of the lines:
    the URLs of the lines read before stay in the list. *)
Definition read_urls (file_path : string) : M (list string) unit :=
  match files env file_path with
  | None =>
      raise (Exn OSError
        ("[Errno 2] No such file or directory: '" ++ file_path ++ "'") None)
  | Some text =>
      match read_error env file_path with
      | None => modify (keep_urls (PyStr.lines text))
      | Some (n, e) => modify (keep_urls (firstn n (PyStr.lines text))) ;;; raise e
      end
  end.

(** Whatever is raised is printed, and the list is returned as it is then. *)
Definition load_urls_from_file (file_path : string) : list string :=
  fst (try_except (read_urls file_path) (fun _ => true) (fun _ => ret tt) []).

(** *** [main] *)

(** [--method]: [argparse] admits its two choices only, and ends the program
    (exit status 2) for any other word before [main] goes on. *)
Inductive method_choice :=
| choose_selenium
| choose_requests.

Definition method_name (m : method_choice) : string :=
  match m with
  | choose_selenium => "selenium"
  | choose_requests => "requests"
  end.

Record Args := {
  arg_method : method_choice;
  arg_headless : bool;
  arg_input : option string;
  arg_output : string;
  arg_count : Z;
  arg_base_url : string;
  arg_chromedriver : option string;
  arg_min_delay : Q;
  arg_max_delay : Q;
  arg_timeout : Z;
  arg_retries : Z
}.

(** [main] after the arguments are parsed.  The answer is the scraper as
    [main] leaves it, or [None] when there was no URL to visit. *)
Definition main (args : Args) (w : world)
    : option (world * outcome (option AsicsScraper)) :=
  let '(w, urls) :=
    match arg_input args with
    | Some input =>
        if PyStr.truthy input && path_exists input
        then (w, Ok (load_urls_from_file input))
        else generate_test_urls (arg_base_url args) (arg_count args) w
    | None => generate_test_urls (arg_base_url args) (arg_count args) w
    end in
  match urls with
  | Raise e => Some (w, Raise e)
  | Ok [] => Some (w, Ok None)
  | Ok urls =>
      match __init__ (method_name (arg_method args)) (arg_headless args)
              (arg_chromedriver args) w with
      | (w, Raise e) => Some (w, Raise e)
      | (w, Ok scraper) =>
          match scrape_urls (Some (arg_output args))
                  (arg_min_delay args, arg_max_delay args)
                  (arg_timeout args) (arg_retries args) urls (w, scraper) with
          | None => None
          | Some ((w, scraper), Raise e) =>
              let '(w, _) := close scraper w in Some (w, Raise e)
          | Some ((w, scraper), Ok _) =>
              match close scraper w with
              | (w, Raise e) => Some (w, Raise e)
              | (w, Ok _) => Some (w, Ok (Some scraper))
              end
          end
      end
  end.

End Crawler.

(* ================================================================== *)
(** ** The window ([asics_scraper_ui.py]) *)

(** The thread a run of the window works in. *)
Module ScraperThread.

(** The signal [run] ends with: [finished.emit()] or [error.emit(str(e))]. *)
Inductive signal :=
| finished
| error (error_message : string).

(** The [settings] dict, by the keys [run] reads; [chromedriver] is read
    with [get], so it may be missing. *)
Record Settings := {
  method : string;
  chromedriver : option string;
  output_file : string;
  min_delay : Q;
  max_delay : Q;
  timeout : Z;
  retries : Z
}.

(** [run] (lines 24-42): a scraper is made, the URLs are visited, and
    whatever is raised on the way becomes the [error] signal. *)
Definition run (lower : string -> string) (env : Env) (urls : list string)
    (settings : Settings) (w : world) : option (world * signal) :=
  match __init__ lower env (method settings) true (chromedriver settings) w with
  | (w, Py.Raise e) => Some (w, error (Py.msg e))
  | (w, Py.Ok scraper) =>
      match scrape_urls lower env (Some (output_file settings))
              (min_delay settings, max_delay settings)
              (timeout settings) (retries settings) urls (w, scraper) with
      | None => None
      | Some ((w, _), Py.Raise e) => Some (w, error (Py.msg e))
      | Some ((w, _), Py.Ok _) => Some (w, finished)
      end
  end.

End ScraperThread.

Module MainWindow.

(** The widgets [start_scraping] reads, by their values. *)
Record t := {
  method_combo : string;
  min_delay : Q;
  max_delay : Q;
  timeout : Z;
  retries : Z;
  url_count : Z;
  input_file : string;
  output_file : string
}.

(** What the widgets let their values be: the items of the combo box
    (line 63) and the ranges of the spin boxes (lines 71, 77, 87, 96, 105). *)
Definition in_range (window : t) : Prop :=
  In (method_combo window) ["requests"; "selenium"]
  /\ (1 <= min_delay window)%Q /\ (min_delay window <= 10)%Q
  /\ (1 <= max_delay window)%Q /\ (max_delay window <= 20)%Q
  /\ 10 <= timeout window <= 120
  /\ 1 <= retries window <= 10
  /\ 1 <= url_count window <= 1000.

(** The dict literal of lines 176-183 *)
Definition settings (window : t) : ScraperThread.Settings :=
  {| ScraperThread.method := method_combo window;
     ScraperThread.chromedriver := None;
     ScraperThread.output_file := output_file window;
     ScraperThread.min_delay := min_delay window;
     ScraperThread.max_delay := max_delay window;
     ScraperThread.timeout := timeout window;
     ScraperThread.retries := retries window |}.

(** [start_scraping] (lines 174-207) with the thread it starts, up to the
    signal the thread ends with.  The answer is [None] when the window warns
    that there is no URL and starts no thread. *)
Definition start_scraping (lower : string -> string) (env : Env) (window : t) (w : world)
    : option (world * Py.outcome (option ScraperThread.signal)) :=
  let '(w, urls) :=
    if PyStr.truthy (input_file window) && path_exists env (input_file window)
    then (w, Py.Ok (load_urls_from_file env (input_file window)))
    else generate_test_urls env "https://www.asics.com" (url_count window) w in
  match urls with
  | Py.Raise e => Some (w, Py.Raise e)
  | Py.Ok [] => Some (w, Py.Ok None)
  | Py.Ok urls =>
      match ScraperThread.run lower env urls (settings window) w with
      | None => None
      | Some (w, s) => Some (w, Py.Ok (Some s))
      end
  end.

End MainWindow.

(* ================================================================== *)
(** ** Concrete runs *)

Module Scenario.

(** [str.lower] on text that has no capital letters outside ASCII. *)
Definition lower_char (c : ascii) : ascii :=
  let n := nat_of_ascii c in
  if (Nat.leb 65 n && Nat.leb n 90)%bool then ascii_of_nat (n + 32) else c.

Fixpoint lower (s : string) : string :=
  match s with
  | EmptyString => EmptyString
  | String c s' => String (lower_char c) (lower s')
  end.

(** The input file of the scenario: an absolute URL, a comment, a blank
    line and a site-relative path. *)
Definition urls_txt : string :=
  "https://store.example/x/p/1011A100-200.html" ++ String PyStr.LF "" ++
  "# comment" ++ String PyStr.LF "" ++
  String PyStr.LF "" ++
  "/relative/path" ++ String PyStr.LF "".

(** An environment in which every request gets the answer [get], every page
    load the answer [load], Chrome starts, and [urls.txt] is the only file. *)
Definition env (get : get_outcome) (load : load_outcome) : Env :=
  {| now := fun _ => "2024-01-01 00:00:00";
     random_random := fun _ => (0%nat, 0%nat);
     random_below := fun _ _ => 0%nat;
     session_get := fun _ _ _ => get;
     driver_load := fun _ _ _ => load;
     chrome_starts := fun _ _ => None;
     files := fun path => if String.eqb path "urls.txt" then Some urls_txt else None;
     read_error := fun _ => None |}.

(** An environment in which [product_url] is the one page there is: every
    other request times out. *)
Definition product_url : string :=
  "https://www.asics.com/jp/ja-jp/running/p/1011A100-200.html".

(** A product page with a price and a stock label. *)
Definition product_soup : Soup :=
  {| soup_title := Some "GEL-KAYANO 30 | ASICS";
     soup_price := Some "17600";
     soup_availability := Some "在庫あり";
     soup_json_ld := None |}.

Definition one_product_env : Env :=
  {| now := fun _ => "2024-01-01 00:00:00";
     random_random := fun _ => (0%nat, 0%nat);
     random_below := fun _ _ => 0%nat;
     session_get := fun _ url _ =>
       if String.eqb url product_url then GetResponse 200 product_soup
       else GetRaises (Py.Exn Py.Timeout "Read timed out." None);
     driver_load := fun _ _ _ =>
       LoadRaises (Py.Exn Py.TimeoutException "timeout" None);
     chrome_starts := fun _ _ => None;
     files := fun _ => None;
     read_error := fun _ => None |}.

(** An environment whose draws go through the choices in turn: the draw
    made at moment [n] is [n]. *)
Definition turning_env : Env :=
  {| now := fun _ => "2024-01-01 00:00:00";
     random_random := fun _ => (0%nat, 0%nat);
     random_below := fun n _ => n;
     session_get := fun _ _ _ => GetRaises (Py.Exn Py.Timeout "Read timed out." None);
     driver_load := fun _ _ _ =>
       LoadRaises (Py.Exn Py.TimeoutException "timeout" None);
     chrome_starts := fun _ _ => None;
     files := fun _ => None;
     read_error := fun _ => None |}.

(** A page that says it is missing, answered with status 200. *)
Definition missing_soup : Soup :=
  {| soup_title := Some "404 Not Found";
     soup_price := None;
     soup_availability := None;
     soup_json_ld := None |}.

(** The same page in the browser. *)
Definition missing_dom : Dom :=
  {| dom_title := "404 Not Found";
     dom_price := None;
     dom_availability := None;
     dom_json_ld := [] |}.

Definition timed_out : Py.exn := Py.Exn Py.Timeout "Read timed out." None.
Definition page_load_timed_out : Py.exn :=
  Py.Exn Py.TimeoutException "timeout: Timed out receiving message from renderer" None.

(** A page the browser has loaded that has no price element. *)
Definition price_missing_dom : Dom :=
  {| dom_title := "GEL-KAYANO 30 | ASICS";
     dom_price := None;
     dom_availability := Some "在庫あり";
     dom_json_ld := [] |}.

(** The [HTTPError] that [raise_for_status] raises for a response with the
    status code 403. *)
Definition forbidden : Py.exn :=
  Py.Exn Py.HTTPError "403 Client Error: Forbidden" (Some (Py.Response 403)).

(** [--input urls.txt --base-url https://store.example], the rest as the
    command line defaults it. *)
Definition args : Args :=
  {| arg_method := choose_requests; arg_headless := false; arg_input := Some "urls.txt";
     arg_output := "asics_results.csv"; arg_count := 100;
     arg_base_url := "https://store.example"; arg_chromedriver := None;
     arg_min_delay := 2; arg_max_delay := 5; arg_timeout := 30; arg_retries := 3 |}.

Definition world0 : world := World 0 [].

(** A new instance as [AsicsScraper(method)] leaves it when Chrome starts. *)
Definition scraper (method : string) : AsicsScraper :=
  {| method := method; headless := true; chromedriver_path := None;
     driver := String.eqb method "selenium";
     session := String.eqb method "requests";
     results := [] |}.

(** [AsicsScraper(method).scrape_urls(urls, None, (1.5, 4.0), 30, max_retries)] *)
Definition run (e : Env) (method : string) (max_retries : Z) (urls : list string)
    : option ((world * AsicsScraper) * Py.outcome DataFrame) :=
  match __init__ lower e method true None world0 with
  | (w, Py.Ok self) =>
      scrape_urls lower e None (3 # 2, 4 # 1)%Q 30 max_retries urls (w, self)
  | (_, Py.Raise _) => None
  end.

End Scenario.

(* ================================================================== *)
(** ** Notions the statements below are written in *)

(** Whatever [c] does to the state, and whether it raises or not, the state
    it leaves is related by [I] to the one it started from. *)
Definition preserves {S A : Type} (I : S -> S -> Prop) (c : Py.M S A) : Prop :=
  forall s s' o, c s = (s', o) -> I s s'.

(** Code that never raises. *)
Definition never_raises {S A} (c : Py.M S A) : Prop :=
  forall s, exists s' a, c s = (s', Py.Ok a).

(** How the texts start that the crawler writes into [title] for an error. *)
Definition error_labels : list string :=
  [ "タイムアウト"; "接続エラー"; "ページが見つかりません（404）";
    "アクセスが拒否されました（403）"; "HTTPエラー: "; "ブラウザエラー: ";
    "リクエストエラー: "; "予期しないエラー: " ].

Definition is_error_text (title : string) : bool :=
  existsb (fun label => PyStr.is_prefix label title) error_labels.

(** The record is still the record of the same URL. *)
Definition same_url (r r' : Result.t) : Prop := Result.url r' = Result.url r.

(** The events an attempt on [url] may add to the trace. *)
Definition attempt_event (url : string) (timeout : Z) (e : event) : Prop :=
  match e with
  | Uniform _ _ _ | Sleep _ => True
  | SessionGet u t | DriverGet u t => u = url /\ t = timeout
  | _ => False
  end.

(** The trace has grown by events of attempts on [url]. *)
Definition extends (url : string) (timeout : Z) (w w' : world) : Prop :=
  exists evs, trace w' = (trace w ++ evs)%list /\ Forall (attempt_event url timeout) evs.

(** The relation between the states before and after the work on one URL. *)
Definition step_ok (url : string) (timeout : Z) (s s' : world * Result.t) : Prop :=
  extends url timeout (fst s) (fst s') /\ same_url (snd s) (snd s').

(** The events the work on a list of URLs may add to the trace. *)
Definition run_event (timeout : Z) (urls : list string) (e : event) : Prop :=
  match e with
  | Uniform _ _ _ | Sleep _ | ToCsv _ _ => True
  | SessionGet u t | DriverGet u t => In u (map absolute_url urls) /\ t = timeout
  | _ => False
  end.

(** The save the loop makes after a record when the instance then holds a
    multiple of ten of them (lines 191-192). *)
Definition periodic_save (output_file : option string) (rows : list Result.t)
    : list event :=
  match output_path output_file with
  | Some path => if Z.of_nat (length rows) mod 10 =? 0 then [ToCsv path rows] else []
  | None => []
  end.


(** The value a successful record's status has in the instance's mode. *)
Definition success_value (self : AsicsScraper) : string :=
  if String.eqb (method self) "requests" then "成功" else "SUCCESS".

(** What [scrape_urls] does after the loop: the last save, when there is an
    output file, then the tally. *)
Definition closing_events (output_file : option string) (self : AsicsScraper)
    (urls : list string) (df : DataFrame) : list event :=
  (match output_path output_file with
   | Some path => [ToCsv path df]
   | None => []
   end ++
   [Summary (Z.of_nat (length urls)) (count_status (success_value self) df)
      (percent (count_status (success_value self) df) (Z.of_nat (length urls)))
      (percent (Z.of_nat (length urls) - count_status (success_value self) df)
               (Z.of_nat (length urls)))])%list.

(** The record after the title, the status and the details are read from a
    page (lines 294-298), before the page is classified. *)
Definition page_record (soup : Soup) (r : Result.t) : Result.t :=
  fst (_extract_product_details soup
         (Result.set_status "成功"
            (Result.set_title
               match soup_title soup with
               | Some text => PyStr.strip text
               | None => "タイトルが見つかりません"
               end r))).

(** Neither a price nor an availability was extracted (line 306). *)
Definition no_product_info (r : Result.t) : bool :=
  negb (Py.truthy (Result.price r)) && negb (PyStr.truthy (Result.availability r)).


(** The request fails: it raises, or it is answered with an error status.
    An [HTTPError] carries the status code of its response, as
    [raise_for_status] makes it. *)
Definition fetch_fails (answer : get_outcome) : Prop :=
  match answer with
  | GetRaises e => Py.is_HTTPError e = true -> exists c, response_status_code e = Py.Ok c
  | GetResponse status_code _ => 400 <= status_code < 600
  end.

(** The URL matches one of the three path templates. *)
Definition matches_template (url : string) : Prop :=
  exists pattern, In pattern patterns /\ Re.search pattern url <> None.

(** What a capturing group can hold. *)
Definition group_ok (q : Re.quantified) (g : string) : Prop :=
  match q with
  | Re.Plus cs => g <> "" /\ PyStr.all_chars (Re.accepts cs) g = true
  | Re.Exactly n cs => String.length g = n /\ PyStr.all_chars (Re.accepts cs) g = true
  end.

(** The capturing groups of a pattern, in order. *)
Fixpoint groups_of (p : Re.pattern) : list Re.quantified :=
  match p with
  | [] => []
  | Re.Lit _ :: p' => groups_of p'
  | Re.Group q :: p' => q :: groups_of p'
  end.

Definition InStock : string := "http://schema.org/InStock".
Definition OutOfStock : string := "http://schema.org/OutOfStock".
Definition LimitedAvailability : string := "http://schema.org/LimitedAvailability".

(** The mapping as the specification states it: the three URIs become the
    three labels, any other string is kept. *)
Definition availability_as_specified (a : string) : string :=
  if String.eqb a InStock then "在庫あり"
  else if String.eqb a OutOfStock then "在庫切れ"
  else if String.eqb a LimitedAvailability then "在庫残りわずか"
  else a.

(** The three [replace] calls of lines 377-379 *)
Definition availability_as_coded (a : string) : string :=
  PyStr.replace
    (PyStr.replace (PyStr.replace a InStock "在庫あり") OutOfStock "在庫切れ")
    LimitedAvailability "在庫残りわずか".

(** An availability string seen as a row of pieces: schema.org URIs, and
    plain text in which the letter h does not occur, so that the URIs of the
    string are those of the row. *)
Inductive piece :=
| plain (text : string)
| in_stock
| out_of_stock
| limited_availability.

Definition no_h (text : string) : bool :=
  PyStr.all_chars (fun c => negb (Ascii.eqb c "h")) text.

Definition piece_ok (p : piece) : Prop :=
  match p with
  | plain text => no_h text = true
  | _ => True
  end.

Definition as_written (p : piece) : string :=
  match p with
  | plain text => text
  | in_stock => "http://schema.org/InStock"
  | out_of_stock => "http://schema.org/OutOfStock"
  | limited_availability => "http://schema.org/LimitedAvailability"
  end.

Definition as_stored (p : piece) : string :=
  match p with
  | plain text => text
  | in_stock => "在庫あり"
  | out_of_stock => "在庫切れ"
  | limited_availability => "在庫残りわずか"
  end.

(** The pieces put together *)
Definition joined (strings : list string) : string := fold_right append "" strings.

(** A JSON-LD value in which the product [items] is the one that is read:
    the product itself, or a list in which it is the first product, after
    objects of other types. *)
Definition other_type (item : Py.value) : Prop :=
  exists d, item = Py.VDict d
            /\ Py.eq_str (match Py.assoc "@type" d with Some ty => ty | None => Py.VNone end)
                 "Product" = false.

Definition holds_product (ld : Py.value) (items : list (string * Py.value)) : Prop :=
  ld = Py.VDict items
  \/ exists before after,
       ld = Py.VList (before ++ Py.VDict items :: after) /\ Forall other_type before.

(** A JSON-LD product whose offer has the availability [a] *)
Definition product_ld (a : string) : ld_script :=
  LdValue (Py.VDict [("@type", Py.VStr "Product");
                     ("offers", Py.VDict [("availability", Py.VStr a)])]).

(** The fields of a record that say which URL it is the record of: they are
    set before the first attempt (lines 114-133). *)
Definition identity (r : Result.t) : string * string * string * string * string :=
  (Result.url r, Result.timestamp r, Result.category r, Result.product_id r,
   Result.color r).

Definition same_identity (r r' : Result.t) : Prop := identity r' = identity r.

(** The world is the same. *)
Definition same_world (s s' : world * Result.t) : Prop := fst s' = fst s.

(** No fetch was added to the trace. *)
Definition same_fetches (s s' : world * Result.t) : Prop :=
  fetched (trace (fst s')) = fetched (trace (fst s)).

(** A relation between records, seen on the state of the work on one URL. *)
Definition on_result (IR : Result.t -> Result.t -> Prop) (s s' : world * Result.t) : Prop :=
  IR (snd s) (snd s').

(** The statuses [_scrape_with_requests] writes. *)
Definition requests_statuses : list string :=
  ["成功"; "ページなし"; "商品情報なし"; "アクセス拒否"; "エラー"].

(** The status vocabulary of an instance: what [status] can hold at the end. *)
Definition status_vocabulary (self : AsicsScraper) : list string :=
  if String.eqb (method self) "selenium" then ["ERROR"; "SUCCESS"]
  else (if String.eqb (method self) "requests" then "エラー" else "ERROR")
       :: requests_statuses.

(** A status of the list stays in the list. *)
Definition status_within (V : list string) (r r' : Result.t) : Prop :=
  In (Result.status r) V -> In (Result.status r') V.

(** An attempt fetches the URL once, or not at all. *)
Definition fetches_at_most_once (url : string) (s s' : world * Result.t) : Prop :=
  fetched (trace (fst s')) = fetched (trace (fst s))
  \/ fetched (trace (fst s')) = (fetched (trace (fst s)) ++ [url])%list.

(** The statuses the two fetchers write are allowed by the relation [IR]. *)
Definition requests_statuses_kept (IR : Result.t -> Result.t -> Prop) : Prop :=
  forall v r, In v requests_statuses -> IR r (Result.set_status v r).

Definition success_kept (IR : Result.t -> Result.t -> Prop) : Prop :=
  forall r, IR r (Result.set_status "SUCCESS" r).

(** A price or an availability the record already has is still there. *)
Definition filled_kept (r r' : Result.t) : Prop :=
  (Py.truthy (Result.price r) = true -> Result.price r' = Result.price r)
  /\ (PyStr.truthy (Result.availability r) = true ->
      Result.availability r' = Result.availability r).

(** The title and the status are as they were. *)
Definition same_heading (r r' : Result.t) : Prop :=
  Result.title r' = Result.title r /\ Result.status r' = Result.status r.

(** The event that gives the fetcher back: [driver.quit()] or
    [session.close()]. *)
Definition is_release (e : event) : bool :=
  match e with
  | DriverQuit | SessionClose => true
  | _ => false
  end.

(** What [close] does for an instance in the mode [method]. *)
Definition release_of (method : string) : event :=
  if String.eqb method "selenium" then DriverQuit else SessionClose.

(** The test of line 127: the URL names its scheme. *)
Definition has_scheme (url : string) : bool :=
  PyStr.startswith url "http://" || PyStr.startswith url "https://".

(** The test of line 460: the stripped line is a URL, not a blank or a
    comment. *)
Definition is_url_line (url : string) : bool :=
  PyStr.truthy url && negb (PyStr.startswith url "#").


(** The tables written, in order: the file and the rows of every
    [to_csv]. *)
Definition saved (tr : list event) : list (string * list Result.t) :=
  flat_map (fun e => match e with
                     | ToCsv output_file rows => [(output_file, rows)]
                     | _ => []
                     end) tr.

(** The lengths at which the loop saves while [count] records are added to
    [n] that are there: the multiples of ten on the way (line 191). *)
Definition flush_points (n count : nat) : list nat :=
  filter (fun k => Z.of_nat k mod 10 =? 0) (seq (S n) count).

(** What comes after a greedy run of [cs]: nothing, or a character that
    [cs] refuses. *)
Definition stops (cs : Re.charset) (rest : string) : Prop :=
  match rest with
  | EmptyString => True
  | String c _ => Re.accepts cs c = false
  end.

(** The three URLs one round of [generate_test_urls] chooses from
    (lines 442-446). *)
Definition url_patterns (base_url category product_id color_code : string) : list string :=
  [ base_url ++ "/jp/ja-jp/" ++ category ++ "/p/" ++ product_id ++ "-" ++ color_code ++ ".html";
    base_url ++ "/jp/ja-jp/" ++ category ++ "/products/" ++ product_id ++ "-" ++ color_code ++ ".html";
    base_url ++ "/jp/ja-jp/sale/" ++ category ++ "/p/" ++ product_id ++ "-" ++ color_code ++ ".html" ].

(** A string of three decimal digits *)
Definition three_digits (s : string) : Prop :=
  String.length s = 3%nat
  /\ Forall (fun c => In c (list_ascii_of_string "0123456789")) (list_ascii_of_string s).

(** A URL made, in one of the three shapes and under [base_url], of a
    category of the generator's list, a product id that is one of its
    prefixes followed by three digits, and a colour code of three digits, in
    which the extractor finds just that category, product id and colour
    code. *)
Definition recognised (base_url url : string) : Prop :=
  exists category prefix number color,
    In category categories
    /\ In prefix jp_product_ids
    /\ three_digits number
    /\ three_digits color
    /\ In url (url_patterns base_url category (prefix ++ number) color)
    /\ _extract_product_info_from_url url
       = [("category", category); ("product_id", prefix ++ number); ("color", color)].

(** What is left of [l] to be matched after [a], when [l] is matched
    against a string that starts with [a]; [None] when [a] differs from
    it. *)
Fixpoint residual (l a : string) : option string :=
  match l with
  | EmptyString => Some EmptyString
  | String c l' =>
      match a with
      | EmptyString => Some l
      | String d a' => if Ascii.eqb c d then residual l' a' else None
      end
  end.

(** [l] starts at a position of [a] in a string that starts with [a] and
    goes on with a string for whose start [test] decides. *)
Fixpoint occurs_in (l a : string) (test : string -> bool) : bool :=
  match a with
  | EmptyString => false
  | String _ a' =>
      match residual l a with
      | Some l' => test l'
      | None => false
      end || occurs_in l a' test
  end.

(** The event is a fetch: a request or a page load. *)
Definition is_fetch (e : event) : bool :=
  match e with
  | SessionGet _ _ | DriverGet _ _ => true
  | _ => false
  end.

(** Every fetch in [tr] comes directly after a pause of between [lo] and
    [hi] seconds; [prev] is the event before [tr]. *)
Fixpoint polite (lo hi : Q) (prev : option event) (tr : list event) : Prop :=
  match tr with
  | [] => True
  | e :: tr' =>
      (is_fetch e = true ->
       exists d, prev = Some (Sleep d) /\ (lo <= d)%Q /\ (d <= hi)%Q)
      /\ polite lo hi (Some e) tr'
  end.

(** The world has gone on by events among which every fetch follows its
    pause. *)
Definition paused (lo hi : Q) (w w' : world) : Prop :=
  exists evs, trace w' = (trace w ++ evs)%list /\ polite lo hi None evs.

(** The world is as it was, or it has gone on by one fetch of [url]. *)
Definition one_fetch_at_most (url : string) (s s' : world * Result.t) : Prop :=
  fst s' = fst s
  \/ exists e, is_fetch e = true /\ fetched [e] = [url] /\ fst s' = emit e (tick (fst s)).




(** The tally the run prints last: the [Summary] at the end of the
    trace. *)
Definition tally (tr : list event) : option (Z * Z * PrimFloat.float * PrimFloat.float) :=
  match last tr DriverQuit with
  | Summary total success_count success_pct failure_pct =>
      Some (total, success_count, success_pct, failure_pct)
  | _ => None
  end.


(* ================================================================== *)
(** * Properties *)

(** ** The regular expressions *)

Module ReFacts.
Import Re.

Lemma take_run cs : forall n s,
  (n <= run cs s)%nat ->
  String.length (PyStr.take n s) = n /\ PyStr.all_chars (accepts cs) (PyStr.take n s) = true.
Proof.
  induction n as [|n IH]; intros s Hn.
  - now destruct s.
  - destruct s as [|c s]; simpl in Hn; [lia|].
    destruct (accepts cs c) eqn:Hc; [|lia].
    destruct (IH s) as [Hl Ha]; [lia|].
    simpl. unfold PyStr.all_chars in *. simpl. now rewrite Hl, Hc, Ha.
Qed.

Lemma take_nonempty n s : String.length (PyStr.take (S n) s) = S n -> PyStr.take (S n) s <> "".
Proof. destruct s; simpl; congruence. Qed.

Lemma match_here_groups : forall p s gs,
  match_here p s = Some gs -> Forall2 group_ok (groups_of p) gs.
Proof.
  induction p as [|it p IH]; intros s gs H; simpl in H.
  - injection H as <-. constructor.
  - destruct it as [l|[cs|n cs]]; simpl.
    + destruct (PyStr.is_prefix l s); [eauto | discriminate].
    + assert (Hgb : forall k, (k <= run cs s)%nat ->
        (fix give_back (n : nat) : option (list string) :=
           match n with
           | O => None
           | S n' =>
               match match_here p (PyStr.drop n s) with
               | Some gs => Some (PyStr.take n s :: gs)
               | None => give_back n'
               end
           end) k = Some gs ->
        Forall2 group_ok (Plus cs :: groups_of p) gs).
      { induction k as [|k IHk]; intros Hk Hm; [discriminate|].
        destruct (match_here p (PyStr.drop (S k) s)) as [gs'|] eqn:Hrest.
        - injection Hm as <-. constructor; [|eauto].
          destruct (take_run cs (S k) s Hk) as [Hl Ha].
          split; [now apply take_nonempty | exact Ha].
        - apply IHk; [lia | exact Hm]. }
      now apply (Hgb (run cs s)).
    + destruct (Nat.leb n (run cs s)) eqn:Hn; [|discriminate].
      apply Nat.leb_le in Hn.
      destruct (match_here p (PyStr.drop n s)) as [gs'|] eqn:Hrest; [|discriminate].
      injection H as <-. constructor; [|eauto].
      exact (take_run cs n s Hn).
Qed.

Lemma search_groups p : forall s gs,
  search p s = Some gs -> Forall2 group_ok (groups_of p) gs.
Proof.
  induction s as [|c s IH]; intros gs H; simpl in H.
  - destruct (match_here p "") eqn:Hm; [|discriminate].
    injection H as <-. eapply match_here_groups; eauto.
  - destruct (match_here p (String c s)) eqn:Hm.
    + injection H as <-. eapply match_here_groups; eauto.
    + eauto.
Qed.

End ReFacts.

(** ** [_extract_product_info_from_url] *)

Lemma url_groups pattern url gs :
  In pattern patterns -> Re.search pattern url = Some gs ->
  exists c p k, gs = [c; p; k] /\ c <> "" /\ p <> "" /\
    String.length k = 3%nat /\ PyStr.all_chars (Re.accepts digit) k = true.
Proof.
  intros Hin Hs. apply ReFacts.search_groups in Hs.
  assert (Hg : groups_of pattern =
               [Re.Plus not_slash; Re.Plus upper_or_digit; Re.Exactly 3 digit]).
  { unfold patterns in Hin. simpl in Hin.
    destruct Hin as [<-|[<-|[<-|[]]]]; reflexivity. }
  rewrite Hg in Hs.
  inversion Hs as [|? c ? gs1 Hc H1]; subst.
  inversion H1 as [|? p ? gs2 Hp H2]; subst.
  inversion H2 as [|? k ? gs3 Hk H3]; subst.
  inversion H3; subst.
  exists c, p, k. simpl in Hc, Hp, Hk. intuition.
Qed.

Lemma first_match_some ps url :
  (forall p, In p ps -> In p patterns) ->
  (exists p, In p ps /\ Re.search p url <> None) ->
  exists c p k, first_match ps url = [("category", c); ("product_id", p); ("color", k)] /\
    c <> "" /\ p <> "" /\ String.length k = 3%nat /\
    PyStr.all_chars (Re.accepts digit) k = true.
Proof.
  induction ps as [|q ps IH]; intros Hsub [p [Hin Hm]]; [destruct Hin|].
  simpl. destruct (Re.search q url) as [gs|] eqn:Hq.
  - destruct (url_groups q url gs) as (c & pid & k & -> & H); [apply Hsub; now left | exact Hq |].
    exists c, pid, k. split; [reflexivity | exact H].
  - apply IH; [intros; apply Hsub; now right|].
    destruct Hin as [->|Hin]; [contradiction | eauto].
Qed.

Lemma first_match_none ps url :
  (forall p, In p ps -> Re.search p url = None) -> first_match ps url = [].
Proof.
  induction ps as [|q ps IH]; intros H; [reflexivity|].
  simpl. rewrite (H q) by now left. apply IH. intros; apply H; now right.
Qed.

(** C7: a URL that matches one of the three path templates yields a non-empty
    category, a non-empty product id and a colour of three digits; a URL that
    matches none yields the empty dict, and the function is total (nothing is
    raised). *)
Theorem C7_extract_product_info_from_url (url : string) :
  (matches_template url ->
   exists c p k,
     _extract_product_info_from_url url = [("category", c); ("product_id", p); ("color", k)]
     /\ c <> "" /\ p <> "" /\ String.length k = 3%nat
     /\ PyStr.all_chars (Re.accepts digit) k = true)
  /\ (~ matches_template url -> _extract_product_info_from_url url = []).
Proof.
  split.
  - intros H. apply first_match_some; auto.
  - intros H. apply first_match_none. intros p Hin.
    destruct (Re.search p url) eqn:Hs; [|reflexivity].
    exfalso. apply H. exists p. split; [exact Hin | congruence].
Qed.

Lemma C7_witness :
  matches_template "https://www.asics.com/jp/ja-jp/running/p/1011A100-200.html"
  /\ (exists c p k,
        _extract_product_info_from_url
          "https://www.asics.com/jp/ja-jp/running/p/1011A100-200.html"
        = [("category", c); ("product_id", p); ("color", k)]
        /\ c <> "" /\ p <> "" /\ String.length k = 3%nat
        /\ PyStr.all_chars (Re.accepts digit) k = true)
  /\ _extract_product_info_from_url
       "https://www.asics.com/jp/ja-jp/running/p/1011A100-200.html"
     = [("category", "running"); ("product_id", "1011A100"); ("color", "200")].
Proof.
  assert (H : matches_template "https://www.asics.com/jp/ja-jp/running/p/1011A100-200.html").
  { exists (nth 0 patterns []). split; [now left | vm_compute; discriminate]. }
  split; [exact H|]. split.
  - apply (proj1 (C7_extract_product_info_from_url
                    "https://www.asics.com/jp/ja-jp/running/p/1011A100-200.html")).
    exact H.
  - vm_compute. reflexivity.
Defined.

(** ** Reasoning about code that updates a state and may raise *)

Section Preserves.

Import Py.
Context {S : Type} (I : S -> S -> Prop).
Hypothesis I_refl : forall s, I s s.
Hypothesis I_trans : forall a b c, I a b -> I b c -> I a c.

Lemma preserves_ret {A} (a : A) : preserves I (ret a).
Proof. intros s s' o H. injection H as <- _. apply I_refl. Qed.

Lemma preserves_raise {A} e : preserves I (@raise S A e).
Proof. intros s s' o H. injection H as <- _. apply I_refl. Qed.

Lemma preserves_lift {A} (x : outcome A) : preserves I (lift x).
Proof. intros s s' o H. injection H as <- _. apply I_refl. Qed.

Lemma preserves_read : preserves I read.
Proof. intros s s' o H. injection H as <- _. apply I_refl. Qed.

Lemma preserves_modify f : (forall s, I s (f s)) -> preserves I (modify f).
Proof. intros Hf s s' o H. injection H as <- _. apply Hf. Qed.

Lemma preserves_bind {A B} (c : M S A) (k : A -> M S B) :
  preserves I c -> (forall a, preserves I (k a)) -> preserves I (bind c k).
Proof.
  intros Hc Hk s s' o H. unfold bind in H.
  destruct (c s) as [s1 [a|e]] eqn:E.
  - eapply I_trans; [eapply Hc; eauto | eapply Hk; eauto].
  - injection H as <- _. eapply Hc; eauto.
Qed.

Lemma preserves_try_except {A} (body : M S A) catches handler :
  preserves I body -> (forall e, preserves I (handler e)) ->
  preserves I (try_except body catches handler).
Proof.
  intros Hb Hh s s' o H. unfold try_except in H.
  destruct (body s) as [s1 [a|e]] eqn:E.
  - injection H as <- _. eapply Hb; eauto.
  - destruct (catches e).
    + eapply I_trans; [eapply Hb; eauto | eapply Hh; eauto].
    + injection H as <- _. eapply Hb; eauto.
Qed.

End Preserves.

Lemma never_raises_catch_all {S} (body : Py.M S unit) :
  never_raises (Py.try_except body (fun _ => true) (fun _ => Py.ret tt)).
Proof.
  intros s. unfold Py.try_except. destruct (body s) as [s1 [a|e]]; eauto.
  unfold Py.ret. eauto.
Qed.

Lemma preserves_zoom {S T A} (IS : S -> S -> Prop) (IT : T -> T -> Prop)
    (proj : T -> S) (inj : S -> T -> T) (c : Py.M S A) :
  (forall t s', IS (proj t) s' -> IT t (inj s' t)) ->
  preserves IS c -> preserves IT (Py.zoom proj inj c).
Proof.
  intros Hinj Hc t t' o H. unfold Py.zoom in H.
  destruct (c (proj t)) as [s' o'] eqn:E. injection H as <- _.
  apply Hinj. eapply Hc; eauto.
Qed.

Create HintDb crawler.

Ltac preserves_step :=
  match goal with
  | |- preserves _ (Py.bind _ _) =>
      apply preserves_bind; [solve [eauto with crawler] | | intro]
  | |- preserves _ (Py.ret _) => apply preserves_ret; solve [eauto with crawler]
  | |- preserves _ (Py.raise _) => apply preserves_raise; solve [eauto with crawler]
  | |- preserves _ (Py.lift _) => apply preserves_lift; solve [eauto with crawler]
  | |- preserves _ Py.read => apply preserves_read; solve [eauto with crawler]
  | |- preserves _ (Py.try_except _ _ _) =>
      apply preserves_try_except; [solve [eauto with crawler] | | intro]
  | |- preserves _ (if ?b then _ else _) => destruct b
  | |- preserves _ (match ?x with _ => _ end) => destruct x
  end.

(** ** The record keeps its URL *)

Lemma same_url_refl r : same_url r r.
Proof. reflexivity. Qed.

Lemma same_url_trans a b c : same_url a b -> same_url b c -> same_url a c.
Proof. unfold same_url. congruence. Qed.

#[local] Hint Resolve same_url_refl same_url_trans : crawler.

Lemma read_json_ld_same_url script : preserves same_url (read_json_ld script).
Proof.
  unfold read_json_ld.
  repeat preserves_step; apply preserves_modify; reflexivity.
Qed.

Lemma extract_product_details_same_url soup :
  preserves same_url (_extract_product_details soup).
Proof.
  unfold _extract_product_details.
  repeat preserves_step;
    first [apply read_json_ld_same_url | apply preserves_modify; reflexivity].
Qed.

Lemma for_scripts_same_url scripts : preserves same_url (for_scripts scripts).
Proof.
  induction scripts as [|s l IH]; simpl.
  - preserves_step.
  - preserves_step; [apply read_json_ld_same_url | exact IH].
Qed.

(** ** What one attempt does to the world *)

Lemma extends_refl url timeout w : extends url timeout w w.
Proof. exists []. now rewrite app_nil_r. Qed.

Lemma extends_trans url timeout a b c :
  extends url timeout a b -> extends url timeout b c -> extends url timeout a c.
Proof.
  intros [e1 [H1 F1]] [e2 [H2 F2]]. exists (e1 ++ e2)%list.
  rewrite H2, H1, app_assoc. split; [reflexivity | now apply Forall_app].
Qed.

Lemma step_ok_refl url timeout s : step_ok url timeout s s.
Proof. split; [apply extends_refl | apply same_url_refl]. Qed.

Lemma step_ok_trans url timeout a b c :
  step_ok url timeout a b -> step_ok url timeout b c -> step_ok url timeout a c.
Proof.
  intros [H1 U1] [H2 U2].
  split; [eapply extends_trans | eapply same_url_trans]; eauto.
Qed.

#[local] Hint Resolve extends_refl extends_trans step_ok_refl step_ok_trans : crawler.

Lemma in_result_step_ok {A} url timeout (c : Py.M Result.t A) :
  preserves same_url c -> preserves (step_ok url timeout) (in_result c).
Proof.
  intros H. unfold in_result. eapply preserves_zoom; [|exact H].
  intros [w r] r' Hr. split; [apply extends_refl | exact Hr].
Qed.

Lemma in_world_step_ok {A} url timeout (c : Py.M world A) :
  preserves (extends url timeout) c -> preserves (step_ok url timeout) (in_world c).
Proof.
  intros H. unfold in_world. eapply preserves_zoom; [|exact H].
  intros [w r] w' Hw. split; [exact Hw | apply same_url_refl].
Qed.

(** ** Sleeping *)

Lemma unit_fraction_bounds (x y : nat) :
  (0 <= Z.of_nat x # Pos.of_succ_nat (x + y))%Q
  /\ (Z.of_nat x # Pos.of_succ_nat (x + y) <= 1)%Q.
Proof. unfold Qle; simpl. rewrite Zpos_P_of_succ_nat. lia. Qed.

Lemma between (a b u : Q) :
  (a <= b)%Q -> (0 <= u)%Q -> (u <= 1)%Q ->
  (a <= a + (b - a) * u)%Q /\ (a + (b - a) * u <= b)%Q.
Proof. intros. split; nra. Qed.

(** [random.uniform(a, b)] stays between [a] and [b]. *)
Lemma random_uniform_spec env a b w :
  (a <= b)%Q ->
  exists d, random_uniform env a b w
            = (World (S (clock w)) (trace w ++ [Uniform a b d]), Py.Ok d)
            /\ (a <= d)%Q /\ (d <= b)%Q.
Proof.
  intros Hab. unfold random_uniform.
  destruct (random_random env (clock w)) as [x y].
  eexists. split; [reflexivity|].
  destruct (unit_fraction_bounds x y). now apply between.
Qed.

(** [time.sleep(d)] for a length it accepts. *)
Lemma time_sleep_accepts d w :
  (0 <= d)%Q -> (d < sleep_limit)%Q -> time_sleep d w = (emit (Sleep d) w, Py.Ok tt).
Proof.
  intros H0 Hlim. unfold time_sleep.
  assert (Hfloor : Qle_bool sleep_floor d = true).
  { apply Qle_bool_iff. unfold sleep_floor. apply Qle_trans with (y := 0%Q); [|exact H0].
    unfold Qle. cbn. lia. }
  assert (Hfits : Qle_bool sleep_limit d = false).
  { destruct (Qle_bool sleep_limit d) eqn:E; [|reflexivity].
    apply Qle_bool_iff in E. lra. }
  assert (Hd : Qle_bool 0 d = true) by (apply Qle_bool_iff; lra).
  now rewrite Hfloor, Hfits, Hd.
Qed.

(** [time.sleep(d)] either pauses for [d] seconds or raises and does
    nothing. *)
Lemma time_sleep_cases d w :
  time_sleep d w = (emit (Sleep d) w, Py.Ok tt)
  \/ exists e, time_sleep d w = (w, Py.Raise e).
Proof.
  unfold time_sleep.
  destruct (negb (Qle_bool sleep_floor d && negb (Qle_bool sleep_limit d)));
    [|destruct (Qle_bool 0 d)]; eauto.
Qed.

(** [time.sleep(random.uniform(a, b))] for a window that is not negative and
    that [time.sleep] accepts. *)
Lemma uniform_sleep env a b (s : world * Result.t) :
  (0 <= a)%Q -> (a <= b)%Q -> (b < sleep_limit)%Q ->
  exists d,
    Py.bind (in_world (random_uniform env a b)) (fun d => in_world (time_sleep d)) s
    = ((World (S (clock (fst s))) (trace (fst s) ++ [Uniform a b d; Sleep d]), snd s),
       Py.Ok tt)
    /\ (a <= d)%Q /\ (d <= b)%Q.
Proof.
  intros Ha Hab Hlim. destruct s as [w r].
  destruct (random_uniform_spec env a b w Hab) as (d & Hu & Hd1 & Hd2).
  exists d. split; [|auto].
  unfold Py.bind, in_world, Py.zoom. simpl. rewrite Hu. simpl.
  rewrite time_sleep_accepts by lra.
  unfold emit. simpl. now rewrite <- app_assoc.
Qed.

Lemma random_uniform_extends env url timeout a b :
  preserves (extends url timeout) (random_uniform env a b).
Proof.
  intros w w' o H. unfold random_uniform in H.
  destruct (random_random env (clock w)) as [x y]. injection H as <- _.
  eexists. split; [reflexivity|]. repeat constructor.
Qed.

Lemma time_sleep_extends url timeout d :
  preserves (extends url timeout) (time_sleep d).
Proof.
  intros w w' o H. unfold time_sleep in H.
  destruct (negb (Qle_bool sleep_floor d && negb (Qle_bool sleep_limit d)));
    [|destruct (Qle_bool 0 d)]; injection H as <- _.
  - apply extends_refl.
  - eexists. split; [reflexivity|]. repeat constructor.
  - apply extends_refl.
Qed.

(** ** The two fetchers *)

Lemma session_get_call_extends env self url timeout :
  preserves (extends url timeout) (session_get_call env self url timeout).
Proof.
  intros w w' o H. unfold session_get_call in H.
  destruct (session self); [|injection H as <- _; apply extends_refl].
  destruct (session_get env (clock w) url timeout); injection H as <- _;
    (eexists; split; [reflexivity|]; repeat constructor).
Qed.

Lemma driver_load_call_extends env self url timeout :
  preserves (extends url timeout) (driver_load_call env self url timeout).
Proof.
  intros w w' o H. unfold driver_load_call in H.
  destruct (driver self); [|injection H as <- _; apply extends_refl].
  destruct (driver_load env (clock w) url timeout); injection H as <- _;
    (eexists; split; [reflexivity|]; repeat constructor).
Qed.

Lemma read_page_same_url lower soup : preserves same_url (read_page lower soup).
Proof.
  unfold read_page.
  repeat preserves_step;
    first [apply extract_product_details_same_url | apply preserves_modify; reflexivity].
Qed.

Lemma requests_except_same_url e : preserves same_url (requests_except e).
Proof.
  unfold requests_except.
  repeat preserves_step; apply preserves_modify; reflexivity.
Qed.

Lemma read_dom_same_url dom : preserves same_url (read_dom dom).
Proof.
  unfold read_dom.
  repeat preserves_step;
    first [apply for_scripts_same_url | apply preserves_modify; reflexivity].
Qed.

Ltac step_ok_leaf :=
  first
    [ apply in_result_step_ok;
      first [ apply preserves_modify; reflexivity
            | apply preserves_read; auto with crawler
            | apply read_page_same_url
            | apply requests_except_same_url
            | apply read_dom_same_url ]
    | apply in_world_step_ok;
      first [ apply session_get_call_extends
            | apply driver_load_call_extends
            | apply random_uniform_extends
            | apply time_sleep_extends ] ].

Lemma scrape_with_requests_step_ok lower env self url timeout :
  preserves (step_ok url timeout) (_scrape_with_requests lower env self url timeout).
Proof.
  unfold _scrape_with_requests.
  repeat preserves_step; step_ok_leaf.
Qed.

Lemma scrape_with_selenium_step_ok env self url timeout :
  preserves (step_ok url timeout) (_scrape_with_selenium env self url timeout).
Proof.
  unfold _scrape_with_selenium.
  repeat preserves_step; step_ok_leaf.
Qed.

Lemma attempt_step_ok lower env delay_range timeout self url :
  preserves (step_ok url timeout) (attempt lower env delay_range timeout self url).
Proof.
  unfold attempt.
  repeat preserves_step;
    first [ step_ok_leaf
          | apply scrape_with_selenium_step_ok
          | apply scrape_with_requests_step_ok ].
Qed.

(** ** The retry loop *)

(** Closes the goal of [on_exception_ok] in a branch that only sets the title. *)
Ltac title_only :=
  do 3 eexists; split; [reflexivity|]; split;
  [split; simpl; [apply extends_refl | reflexivity]|]; split;
  [try reflexivity; try discriminate | reflexivity].

Section RetryLoop.

Variable lower : string -> string.
Variable env : Env.
Variable output_file : option string.
Variable delay_range : Q * Q.
Variable timeout : Z.
Variable max_retries : Z.

(** The [except] clauses never raise: they record the error in the title
    and either leave the loop or count one more retry. *)
Lemma on_exception_ok url retry_count e (s : world * Result.t) :
  exists s' brk retry_count',
    on_exception env max_retries retry_count e s = (s', Py.Ok (brk, retry_count'))
    /\ step_ok url timeout s s'
    /\ (brk = false -> retry_count' = retry_count + 1)
    /\ is_error_text (Result.title (snd s')) = true.
Proof.
  destruct s as [w r]. unfold on_exception.
  destruct (Py.is_Timeout e); [title_only|].
  destruct (Py.is_ConnectionError e); [title_only|].
  destruct (Py.is_HTTPError e || Py.is_WebDriverException e).
  - destruct (Py.response e) as [[[] [status_code|]]|]; try title_only.
    destruct (status_code =? 404); [title_only|].
    destruct (status_code =? 403); [|title_only].
    destruct (uniform_sleep env 5 10
                (w, Result.set_title "アクセスが拒否されました（403）" r))
      as (d & Hd & _); [lra | lra | reflexivity |].
    unfold Py.bind in *. simpl in *.
    destruct (in_world (random_uniform env 5 10)
                (w, Result.set_title "アクセスが拒否されました（403）" r))
      as [s1 [d1|e1]] eqn:Hu; [|discriminate].
    rewrite Hd. do 3 eexists. split; [reflexivity|].
    split; [|split; reflexivity].
    split; simpl; [|reflexivity].
    eexists. split; [reflexivity|]. repeat constructor.
  - destruct (Py.is_RequestException e || Py.is_TimeoutException e); title_only.
Qed.

(** With [max_retries - retry_count] units of fuel the loop ends by its own
    test, and it never raises. *)
Lemma retry_loop_total self url : forall fuel success retry_count s,
  success = true \/ (Z.to_nat (max_retries - retry_count) <= fuel)%nat ->
  exists s',
    retry_loop lower env delay_range timeout max_retries fuel self url
               success retry_count s = Some (s', Py.Ok tt)
    /\ step_ok url timeout s s'.
Proof.
  induction fuel as [|fuel IH]; intros success retry_count s Hfuel.
  - simpl. destruct success; simpl.
    + eexists; split; [reflexivity | apply step_ok_refl].
    + destruct (retry_count <? max_retries) eqn:Hlt.
      * apply Z.ltb_lt in Hlt. destruct Hfuel; [discriminate | lia].
      * eexists; split; [reflexivity | apply step_ok_refl].
  - simpl. destruct success; simpl;
      [eexists; split; [reflexivity | apply step_ok_refl]|].
    destruct (retry_count <? max_retries) eqn:Hlt;
      [|eexists; split; [reflexivity | apply step_ok_refl]].
    apply Z.ltb_lt in Hlt.
    destruct (attempt lower env delay_range timeout self url s) as [s1 [[]|e]] eqn:Ha.
    + apply attempt_step_ok in Ha.
      destruct (IH true retry_count s1) as (s' & Hr & Hs); [now left|].
      exists s'. split; [exact Hr | eapply step_ok_trans; eauto].
    + apply attempt_step_ok in Ha.
      destruct (on_exception_ok url retry_count e s1) as (s2 & brk & rc' & He & Hs2 & Hrc & _).
      rewrite He. destruct brk.
      * exists s2. split; [reflexivity | eapply step_ok_trans; eauto].
      * rewrite (Hrc eq_refl).
        destruct (IH false (retry_count + 1) s2) as (s' & Hr & Hs);
          [right; destruct Hfuel; [discriminate | lia]|].
        exists s'. split; [exact Hr|].
        eapply step_ok_trans; [exact Ha|]. eapply step_ok_trans; eauto.
Qed.

(** ** One URL, then all of them *)

Lemma attempt_event_run url urls e :
  In url urls -> attempt_event (absolute_url url) timeout e -> run_event timeout urls e.
Proof.
  intros Hin. destruct e; simpl; auto.
  - intros [-> ->]. split; [now apply in_map | reflexivity].
  - intros [-> ->]. split; [now apply in_map | reflexivity].
Qed.

Lemma run_event_more urls urls' e :
  (forall u, In u urls -> In u urls') -> run_event timeout urls e -> run_event timeout urls' e.
Proof.
  intros Hsub. destruct e; simpl; auto.
  - intros [H ->]. split; [|reflexivity].
    apply in_map_iff in H as (u & <- & Hu). apply in_map. auto.
  - intros [H ->]. split; [|reflexivity].
    apply in_map_iff in H as (u & <- & Hu). apply in_map. auto.
Qed.

(** The body of the [for] loop always ends normally and appends exactly one
    record, whose [url] is the URL as the list gave it. *)
Lemma scrape_url_ok url (s : world * AsicsScraper) :
  exists w' result evs,
    scrape_url lower env output_file delay_range timeout max_retries url s
    = Some ((w', set_results (results (snd s) ++ [result]) (snd s)), Py.Ok tt)
    /\ Result.url result = url
    /\ trace w' = (trace (fst s) ++ evs)%list
    /\ Forall (run_event timeout [url]) evs.
Proof.
  destruct s as [w self]. unfold scrape_url.
  set (result0 := prepared_result self url (now env (clock w))).
  assert (Hurl0 : Result.url result0 = url).
  { unfold result0, prepared_result.
    destruct (_extract_product_info_from_url (absolute_url url)) as [|kv info];
      [reflexivity|].
    unfold Result.update.
    assert (Hfold : forall l r, Result.url
              (fold_left (fun acc kv => Result.setitem (fst kv) (snd kv) acc) l r)
              = Result.url r).
    { induction l as [|x l IHl]; intros r0; simpl; [reflexivity|].
      rewrite IHl. unfold Result.setitem.
      repeat match goal with |- context [if ?b then _ else _] => destruct b end;
        reflexivity. }
    now rewrite Hfold. }
  destruct (retry_loop_total self (absolute_url url) (Z.to_nat max_retries) false 0
              (tick w, result0)) as ([w1 r1] & Hloop & [[evs [Htr Hev]] Hsame]);
    [right; rewrite Z.sub_0_r; lia|].
  rewrite Hloop. simpl in Htr, Hsame.
  assert (Hev' : Forall (run_event timeout [url]) evs).
  { eapply Forall_impl; [|exact Hev].
    intros e. apply attempt_event_run. now left. }
  destruct (output_path output_file) as [path|].
  - destruct (Z.of_nat (length (results (set_results (results self ++ [r1]) self))) mod 10 =? 0).
    + unfold _save_results. simpl.
      exists (emit (ToCsv path (results self ++ [r1])) w1), r1, (evs ++ [ToCsv path (results self ++ [r1])])%list.
      split; [reflexivity|]. split; [unfold same_url in Hsame; congruence|].
      split; [simpl; rewrite Htr; now rewrite app_assoc|].
      apply Forall_app. split; [exact Hev' | repeat constructor].
    + exists w1, r1, evs. split; [reflexivity|].
      split; [unfold same_url in Hsame; congruence|]. auto.
  - exists w1, r1, evs. split; [reflexivity|].
    split; [unfold same_url in Hsame; congruence|]. auto.
Qed.

(** The [for] loop visits every URL: it appends one record per URL, in the
    order of the list, and nothing is raised. *)
Lemma for_urls_ok : forall urls (s : world * AsicsScraper),
  exists w' recs evs,
    for_urls lower env output_file delay_range timeout max_retries urls s
    = Some ((w', set_results (results (snd s) ++ recs) (snd s)), Py.Ok tt)
    /\ map Result.url recs = urls
    /\ trace w' = (trace (fst s) ++ evs)%list
    /\ Forall (run_event timeout urls) evs.
Proof.
  induction urls as [|url urls IH]; intros [w self].
  - exists w, [], []. simpl. rewrite !app_nil_r.
    split; [destruct self; reflexivity | auto].
  - cbn [for_urls].
    destruct (scrape_url_ok url (w, self)) as (w1 & r & evs1 & Hs & Hu & Ht1 & He1).
    cbn [fst snd] in Hs, Ht1. rewrite Hs. cbv beta iota.
    destruct (IH (w1, set_results (results self ++ [r]) self))
      as (w2 & recs & evs2 & Hf & Hm & Ht2 & He2).
    cbn [fst snd] in Hf, Ht2. rewrite Hf. cbn [fst snd].
    unfold set_results in *. cbn [results method headless chromedriver_path driver session] in *.
    exists w2, (r :: recs), (evs1 ++ evs2)%list.
    split; [now rewrite <- app_assoc|].
    split; [simpl; congruence|].
    split; [rewrite Ht2, Ht1; now rewrite app_assoc|].
    apply Forall_app. split.
    + eapply Forall_impl; [|exact He1]. intros e. apply run_event_more.
      intros u [<-|[]]. now left.
    + eapply Forall_impl; [|exact He2]. intros e. apply run_event_more.
      intros u Hin. now right.
Qed.

End RetryLoop.

(** ** [scrape_urls] as a whole *)

Lemma scrape_urls_ok lower env output_file delay_range timeout max_retries urls w self :
  urls <> [] ->
  exists w' recs evs,
    scrape_urls lower env output_file delay_range timeout max_retries urls (w, self)
    = Some ((w', set_results (results self ++ recs) self), Py.Ok (results self ++ recs)%list)
    /\ map Result.url recs = urls
    /\ trace w' = (trace w ++ evs ++ closing_events output_file self urls
                                       (results self ++ recs))%list
    /\ Forall (run_event timeout urls) evs.
Proof.
  intros Hne. unfold scrape_urls.
  destruct (for_urls_ok lower env output_file delay_range timeout max_retries urls (w, self))
    as (w1 & recs & evs & Hf & Hm & Ht & He).
  cbn [fst snd] in Hf, Ht. rewrite Hf.
  assert (Hrecs : (results self ++ recs)%list <> []).
  { intros Heq. apply app_eq_nil in Heq as [_ ->]. simpl in Hm. congruence. }
  assert (Hlen : (Z.of_nat (length urls) =? 0) = false).
  { apply Z.eqb_neq. destruct urls; [contradiction | simpl; lia]. }
  unfold summarise, closing_events, success_value, Py.bind, Py.zoom, Py.read, _save_results.
  cbn [fst snd results set_results method].
  destruct (results self ++ recs)%list as [|r0 df0] eqn:Hdf; [contradiction|].
  destruct (output_path output_file) as [path|]; cbn [fst snd results set_results method];
    rewrite Hlen; unfold Py.modify, Py.ret, emit; cbn [fst snd trace clock].
  - eexists _, recs, evs. rewrite Hdf. split; [reflexivity|]. split; [exact Hm|].
    split; [|exact He]. cbn [trace]. rewrite Ht. now rewrite <- !app_assoc.
  - eexists _, recs, evs. rewrite Hdf. split; [reflexivity|]. split; [exact Hm|].
    split; [|exact He]. cbn [trace]. rewrite Ht. now rewrite <- !app_assoc.
Qed.

(** ** One record per URL (C1) and the accumulator (C10) *)

(** C1, as stated, fails: a second call on the same instance returns the
    records of the first call as well.  Here a fresh instance visits one
    product page, then another: the table the second call returns for its one
    URL has two rows. *)
Lemma C1_counterexample :
  let e := Scenario.env (GetResponse 200 Scenario.product_soup)
                        (LoadRaises Scenario.page_load_timed_out) in
  let u1 := "https://www.asics.com/jp/ja-jp/running/p/1011A100-200.html" in
  let u2 := "https://www.asics.com/jp/ja-jp/tennis/p/1041A200-100.html" in
  exists s1 df1 s2 df2,
    Scenario.run e "requests" 3 [u1] = Some (s1, Py.Ok df1)
    /\ scrape_urls Scenario.lower e None (3 # 2, 4 # 1)%Q 30 3 [u2] s1
       = Some (s2, Py.Ok df2)
    /\ map Result.url df2 = [u1; u2]
    /\ map Result.url df2 <> [u2].
Proof.
  do 4 eexists.
  split; [vm_compute; reflexivity|].
  split; [vm_compute; reflexivity|].
  split; [reflexivity | discriminate].
Qed.

(** C1, amended: on an instance whose accumulator is empty, as a new
    instance's is, a call of [scrape_urls] on a non-empty list returns a table
    with exactly one record per URL, in the order of the list, whatever the
    fetches do. *)
Theorem C1_one_record_per_url_on_fresh_instance
    lower env output_file delay_range timeout max_retries urls w self :
  results self = [] ->
  urls <> [] ->
  exists w' self' df,
    scrape_urls lower env output_file delay_range timeout max_retries urls (w, self)
    = Some ((w', self'), Py.Ok df)
    /\ results self' = df
    /\ map Result.url df = urls.
Proof.
  intros Hfresh Hne.
  destruct (scrape_urls_ok lower env output_file delay_range timeout max_retries
              urls w self Hne) as (w' & recs & evs & Hcall & Hmap & _).
  rewrite Hfresh in Hcall. simpl in Hcall.
  exists w', (set_results recs self), recs. auto.
Qed.

Lemma C1_witness :
  let e := Scenario.env (GetRaises Scenario.timed_out)
                        (LoadRaises Scenario.page_load_timed_out) in
  exists w' self' df,
    scrape_urls Scenario.lower e None (3 # 2, 4 # 1)%Q 30 3
      ["/relative/path"; "https://www.asics.com/jp/ja-jp/running/p/1011A100-200.html"]
      (Scenario.world0, Scenario.scraper "selenium")
    = Some ((w', self'), Py.Ok df)
    /\ results self' = df
    /\ map Result.url df
       = ["/relative/path"; "https://www.asics.com/jp/ja-jp/running/p/1011A100-200.html"].
Proof.
  intro e.
  apply (C1_one_record_per_url_on_fresh_instance Scenario.lower e None (3 # 2, 4 # 1)%Q 30 3
           ["/relative/path"; "https://www.asics.com/jp/ja-jp/running/p/1011A100-200.html"]
           Scenario.world0 (Scenario.scraper "selenium")).
  - reflexivity.
  - discriminate.
Defined.

(** C10: the accumulator is never cleared.  Of two calls on the same
    instance, the second returns the table of the first followed by one record
    per URL of its own list; the same table is what it saves last when it has
    an output file; and its tally counts the records of the whole table that
    have the success status of the mode, but divides that count, and the
    count of the failures it takes to be the rest of its own list, by the
    length of its own list: the two percentages are the binary64 values of
    [count / len(urls) * 100]. *)
Theorem C10_results_accumulate_across_calls
    lower env output_file1 delay_range1 timeout1 max_retries1
    output_file2 delay_range2 timeout2 max_retries2 urls1 urls2 w self :
  urls1 <> [] ->
  urls2 <> [] ->
  exists w1 self1 recs1 w2 self2 recs2 evs,
    let df1 := (results self ++ recs1)%list in
    let df2 := (df1 ++ recs2)%list in
    let total := Z.of_nat (length urls2) in
    let success_value := if String.eqb (method self) "requests" then "成功" else "SUCCESS" in
    let success_count :=
      Z.of_nat (length (filter (fun r => String.eqb (Result.status r) success_value) df2)) in
    let as_float := fun n : Z =>
      if n <? 0 then (- of_uint63 (Uint63.of_Z (- n)))%float
      else of_uint63 (Uint63.of_Z n) in
    scrape_urls lower env output_file1 delay_range1 timeout1 max_retries1 urls1 (w, self)
    = Some ((w1, self1), Py.Ok df1)
    /\ scrape_urls lower env output_file2 delay_range2 timeout2 max_retries2 urls2 (w1, self1)
       = Some ((w2, self2), Py.Ok df2)
    /\ map Result.url recs1 = urls1
    /\ map Result.url recs2 = urls2
    /\ results self1 = df1
    /\ results self2 = df2
    /\ trace w2
       = (evs
          ++ match output_path output_file2 with
             | Some path => [ToCsv path df2]
             | None => []
             end
          ++ [Summary total success_count
                (as_float success_count / as_float total * 100)%float
                (as_float (total - success_count)%Z / as_float total * 100)%float])%list.
Proof.
  intros Hne1 Hne2.
  destruct (scrape_urls_ok lower env output_file1 delay_range1 timeout1 max_retries1
              urls1 w self Hne1) as (w1 & recs1 & evs1 & Hc1 & Hm1 & _).
  destruct (scrape_urls_ok lower env output_file2 delay_range2 timeout2 max_retries2
              urls2 w1 (set_results (results self ++ recs1) self) Hne2)
    as (w2 & recs2 & evs2 & Hc2 & Hm2 & Ht2 & _).
  cbn [results set_results] in Hc2, Ht2.
  exists w1, (set_results (results self ++ recs1) self), recs1,
         w2, (set_results ((results self ++ recs1) ++ recs2) self), recs2,
         (trace w1 ++ evs2)%list.
  cbv zeta. split; [exact Hc1|]. split; [exact Hc2|].
  repeat (split; [solve [auto]|]).
  rewrite Ht2. unfold closing_events, success_value, count_status, percent, float_of_int.
  cbn [method set_results].
  now rewrite <- !app_assoc.
Qed.

(** Two visits of a product page by one instance, each call on a list of one
    URL: the second tally says 2 successes of 1 URL, 200 per cent, and -100
    per cent of failures. *)
Lemma C10_witness :
  let e := Scenario.env (GetResponse 200 Scenario.product_soup)
                        (LoadRaises Scenario.page_load_timed_out) in
  let u1 := "https://www.asics.com/jp/ja-jp/running/p/1011A100-200.html" in
  let u2 := "https://www.asics.com/jp/ja-jp/tennis/p/1041A200-100.html" in
  exists w1 self1 recs1 w2 self2 recs2 evs,
    scrape_urls Scenario.lower e (Some "out.csv") (3 # 2, 4 # 1)%Q 30 3 [u1]
      (Scenario.world0, Scenario.scraper "requests")
    = Some ((w1, self1), Py.Ok recs1)
    /\ scrape_urls Scenario.lower e (Some "out.csv") (3 # 2, 4 # 1)%Q 30 3 [u2] (w1, self1)
       = Some ((w2, self2), Py.Ok (recs1 ++ recs2)%list)
    /\ map Result.url recs1 = [u1]
    /\ map Result.url recs2 = [u2]
    /\ results self1 = recs1
    /\ results self2 = (recs1 ++ recs2)%list
    /\ trace w2
       = (evs ++ [ToCsv "out.csv" (recs1 ++ recs2)] ++ [Summary 1 2 200 (-100)])%list.
Proof.
  intros e u1 u2.
  destruct (C10_results_accumulate_across_calls Scenario.lower e
              (Some "out.csv") (3 # 2, 4 # 1)%Q 30 3
              (Some "out.csv") (3 # 2, 4 # 1)%Q 30 3
              [u1] [u2] Scenario.world0 (Scenario.scraper "requests"))
    as (w1 & self1 & recs1 & w2 & self2 & recs2 & evs & H);
    [discriminate | discriminate |].
  cbv zeta in H. destruct H as (Hc1 & Hc2 & Hm1 & Hm2 & Hr1 & Hr2 & Ht).
  exists w1, self1, recs1, w2, self2, recs2, evs.
  repeat (split; [assumption|]).
  rewrite Ht. do 2 f_equal.
  pose proof Hc1 as Hv1. vm_compute in Hv1. injection Hv1 as <- <- <-.
  pose proof Hc2 as Hv2. vm_compute in Hv2. injection Hv2 as _ _ <-.
  reflexivity.
Defined.

(** ** The [requests] path, attempt by attempt *)

Lemma extract_product_details_ok soup r :
  exists r', _extract_product_details soup r = (r', Py.Ok tt).
Proof.
  destruct (never_raises_catch_all
              (Py.bind match soup_price soup with
                       | Some text => Py.modify (Result.set_price (Py.VStr (PyStr.strip text)))
                       | None => Py.ret tt
                       end
                 (fun _ => Py.bind match soup_availability soup with
                                   | Some text =>
                                       Py.modify (Result.set_availability (PyStr.strip text))
                                   | None => Py.ret tt
                                   end
                             (fun _ => match soup_json_ld soup with
                                       | Some json_ld => read_json_ld json_ld
                                       | None => Py.ret tt
                                       end))) r) as (r' & [] & H).
  exists r'. exact H.
Qed.

(** Reading a page never raises, and the two tests of lines 301 and 306 are
    applied one after the other to the record the extraction leaves. *)
Lemma read_page_spec lower soup r :
  read_page lower soup r
  = (let r1 := page_record soup r in
     let r2 := if not_found_title lower (Result.title r1)
               then Result.set_title "ページが見つかりません" (Result.set_status "ページなし" r1)
               else r1 in
     if no_product_info r2
     then Result.set_title "商品情報が見つかりません" (Result.set_status "商品情報なし" r2)
     else r2,
     Py.Ok tt).
Proof.
  unfold read_page, page_record, no_product_info, Py.bind, Py.modify, Py.read, Py.ret.
  destruct (extract_product_details_ok soup
              (Result.set_status "成功"
                 (Result.set_title
                    match soup_title soup with
                    | Some text => PyStr.strip text
                    | None => "タイトルが見つかりません"
                    end r))) as (r1 & ->).
  cbn [fst]. destruct (not_found_title lower (Result.title r1)); cbn [fst snd];
    match goal with |- context [if ?b then _ else _] => destruct b end; reflexivity.
Qed.

(** What [_scrape_with_requests] does, by the answer the request gets. *)
Lemma scrape_with_requests_spec lower env self url timeout w r :
  session self = true ->
  _scrape_with_requests lower env self url timeout (w, r)
  = (let w1 := emit (SessionGet url timeout) (tick w) in
     match session_get env (clock w) url timeout with
     | GetRaises e => let '(r', o) := requests_except e r in ((w1, r'), o)
     | GetResponse status_code soup =>
         match raise_for_status status_code with
         | Py.Raise e => let '(r', o) := requests_except e r in ((w1, r'), o)
         | Py.Ok _ => ((w1, fst (read_page lower soup r)), Py.Ok tt)
         end
     end).
Proof.
  intros Hs.
  unfold _scrape_with_requests, Py.try_except, Py.bind, in_world, in_result, Py.zoom,
    session_get_call, Py.lift.
  cbn [fst snd]. rewrite Hs.
  destruct (session_get env (clock w) url timeout) as [e|c soup]; cbn [fst snd].
  - destruct (requests_except e r); reflexivity.
  - destruct (raise_for_status c) as [[]|e]; cbn [fst snd].
    + rewrite read_page_spec. reflexivity.
    + destruct (requests_except e r); reflexivity.
Qed.

(** An attempt on the [requests] path whose delay window is not negative
    and lies below what [time.sleep] refuses. *)
Lemma attempt_requests lower env delay_range timeout self url w r :
  method self = "requests" ->
  (0 <= fst delay_range)%Q -> (fst delay_range <= snd delay_range)%Q ->
  (snd delay_range < sleep_limit)%Q ->
  exists d,
    attempt lower env delay_range timeout self url (w, r)
    = _scrape_with_requests lower env self url timeout
        (World (S (clock w))
           (trace w ++ [Uniform (fst delay_range) (snd delay_range) d; Sleep d]), r)
    /\ (fst delay_range <= d)%Q /\ (d <= snd delay_range)%Q.
Proof.
  intros Hm H0 Hle Hlim.
  destruct (uniform_sleep env (fst delay_range) (snd delay_range) (w, r) H0 Hle Hlim)
    as (d & Hd & Hbounds).
  exists d. split; [|exact Hbounds]. unfold attempt. unfold Py.bind in *.
  destruct (in_world (random_uniform env (fst delay_range) (snd delay_range)) (w, r))
    as [s1 [d1|e1]]; [|discriminate].
  rewrite Hd, Hm. reflexivity.
Qed.

(** The loop ends after an attempt that does not raise. *)
Lemma retry_loop_success lower env delay_range timeout max_retries fuel self url
    retry_count s s1 :
  retry_count < max_retries ->
  attempt lower env delay_range timeout self url s = (s1, Py.Ok tt) ->
  retry_loop lower env delay_range timeout max_retries (S fuel) self url false retry_count s
  = Some (s1, Py.Ok tt).
Proof.
  intros Hlt Ha. cbn [retry_loop]. apply Z.ltb_lt in Hlt. rewrite Hlt, Ha. cbn [negb andb].
  destruct fuel; reflexivity.
Qed.

Lemma fetched_app a b : fetched (a ++ b) = (fetched a ++ fetched b)%list.
Proof. apply flat_map_app. Qed.

(** On the [requests] path an attempt whose request does not raise an
    [HTTPError] without a status code is the only one: whatever the answer,
    the record is final after it, and the work on the URL is one pause, one
    request and the save that is due. *)
Lemma scrape_url_requests_trace
    lower env output_file delay_range timeout max_retries url w self :
  method self = "requests" -> session self = true -> 0 < max_retries ->
  (0 <= fst delay_range)%Q -> (fst delay_range <= snd delay_range)%Q ->
  (snd delay_range < sleep_limit)%Q ->
  forall r',
    (let r := prepared_result self url (now env (clock w)) in
     match session_get env (S (S (clock w))) (absolute_url url) timeout with
     | GetRaises e => requests_except e r
     | GetResponse status_code soup =>
         match raise_for_status status_code with
         | Py.Raise e => requests_except e r
         | Py.Ok _ => read_page lower soup r
         end
     end) = (r', Py.Ok tt) ->
  exists w' d,
    scrape_url lower env output_file delay_range timeout max_retries url (w, self)
    = Some ((w', set_results (results self ++ [r']) self), Py.Ok tt)
    /\ trace w'
       = (trace w
          ++ [Uniform (fst delay_range) (snd delay_range) d; Sleep d;
              SessionGet (absolute_url url) timeout]
          ++ periodic_save output_file (results self ++ [r']))%list
    /\ (fst delay_range <= d)%Q /\ (d <= snd delay_range)%Q.
Proof.
  intros Hm Hs Hmax H0 Hle Hlim r' Hans. cbv zeta in Hans.
  unfold scrape_url.
  destruct (attempt_requests lower env delay_range timeout self (absolute_url url)
              (tick w) (prepared_result self url (now env (clock w))) Hm H0 Hle Hlim)
    as (d & Ha & Hbounds).
  rewrite (scrape_with_requests_spec _ _ _ _ _ _ _ Hs) in Ha. cbv zeta in Ha.
  cbn [clock tick trace] in Ha.
  set (w1 := emit (SessionGet (absolute_url url) timeout)
               (tick (World (S (S (clock w)))
                        (trace w ++ [Uniform (fst delay_range) (snd delay_range) d; Sleep d]))))
    in *.
  assert (Ha' : attempt lower env delay_range timeout self (absolute_url url)
                  (tick w, prepared_result self url (now env (clock w)))
                = ((w1, r'), Py.Ok tt)).
  { rewrite Ha.
    destruct (session_get env (S (S (clock w))) (absolute_url url) timeout) as [e|c soup].
    - now rewrite Hans.
    - destruct (raise_for_status c) as [[]|e].
      + now rewrite Hans.
      + now rewrite Hans. }
  assert (Hfuel : exists fuel, Z.to_nat max_retries = S fuel).
  { exists (Nat.pred (Z.to_nat max_retries)). lia. }
  destruct Hfuel as [fuel ->].
  rewrite (retry_loop_success _ _ _ _ _ _ _ _ _ _ _ Hmax Ha').
  assert (Ht : trace w1
               = (trace w ++ [Uniform (fst delay_range) (snd delay_range) d; Sleep d;
                              SessionGet (absolute_url url) timeout])%list).
  { unfold w1, emit, tick. cbn [trace]. now rewrite <- app_assoc. }
  unfold periodic_save. cbn [results set_results].
  destruct (output_path output_file) as [path|].
  - destruct (Z.of_nat (length (results self ++ [r'])) mod 10 =? 0).
    + unfold _save_results. cbn [fst snd]. eexists _, d. split; [reflexivity|].
      split; [|exact Hbounds].
      unfold emit. cbn [trace results set_results]. rewrite Ht. now rewrite <- !app_assoc.
    + exists w1, d. split; [reflexivity|]. split; [|exact Hbounds].
      rewrite Ht. now rewrite !app_nil_r.
  - exists w1, d. split; [reflexivity|]. split; [|exact Hbounds].
    rewrite Ht. now rewrite !app_nil_r.
Qed.

Lemma fetched_periodic_save output_file rows :
  fetched (periodic_save output_file rows) = [].
Proof.
  unfold periodic_save. destruct (output_path output_file); [|reflexivity].
  destruct (Z.of_nat (length rows) mod 10 =? 0); reflexivity.
Qed.

Lemma scrape_url_requests_once
    lower env output_file delay_range timeout max_retries url w self :
  method self = "requests" -> session self = true -> 0 < max_retries ->
  (0 <= fst delay_range)%Q -> (fst delay_range <= snd delay_range)%Q ->
  (snd delay_range < sleep_limit)%Q ->
  forall r',
    (let r := prepared_result self url (now env (clock w)) in
     match session_get env (S (S (clock w))) (absolute_url url) timeout with
     | GetRaises e => requests_except e r
     | GetResponse status_code soup =>
         match raise_for_status status_code with
         | Py.Raise e => requests_except e r
         | Py.Ok _ => read_page lower soup r
         end
     end) = (r', Py.Ok tt) ->
  exists w',
    scrape_url lower env output_file delay_range timeout max_retries url (w, self)
    = Some ((w', set_results (results self ++ [r']) self), Py.Ok tt)
    /\ fetched (trace w') = (fetched (trace w) ++ [absolute_url url])%list.
Proof.
  intros Hm Hs Hmax H0 Hle Hlim r' Hans.
  destruct (scrape_url_requests_trace lower env output_file delay_range timeout max_retries
              url w self Hm Hs Hmax H0 Hle Hlim r' Hans) as (w' & d & Hrun & Ht & _).
  exists w'. split; [exact Hrun|].
  rewrite Ht, !fetched_app, fetched_periodic_save. cbn. now rewrite ?app_nil_r.
Qed.

(** ** Timeouts on the [requests] path (C2) *)

(** C2 at the failing input and beyond: on the [requests] path a request that
    times out, or cannot connect, is caught inside [_scrape_with_requests],
    so the retry loop sees a successful attempt and stops.  Whatever
    [max_retries] is, the URL is fetched exactly once; the record keeps the
    error status and the text of the error. *)
Theorem C2_requests_path_stops_after_one_timeout
    lower env output_file delay_range timeout max_retries url w self e :
  method self = "requests" -> session self = true ->
  0 < max_retries ->
  (0 <= fst delay_range)%Q -> (fst delay_range <= snd delay_range)%Q ->
  (snd delay_range < sleep_limit)%Q ->
  (forall n, session_get env n (absolute_url url) timeout = GetRaises e) ->
  Py.is_Timeout e = true \/ Py.is_ConnectionError e = true ->
  exists w' result,
    scrape_url lower env output_file delay_range timeout max_retries url (w, self)
    = Some ((w', set_results (results self ++ [result]) self), Py.Ok tt)
    /\ fetched (trace w') = (fetched (trace w) ++ [absolute_url url])%list
    /\ Result.status result = "エラー"
    /\ Result.title result = "予期しないエラー: " ++ Py.msg e.
Proof.
  intros Hm Hs Hmax H0 Hle Hlim Hget Hcls.
  assert (Hhttp : Py.is_HTTPError e = false).
  { unfold Py.is_Timeout, Py.is_ConnectionError, Py.is_HTTPError in *.
    destruct (Py.cls e); destruct Hcls; try discriminate; reflexivity. }
  destruct (scrape_url_requests_once lower env output_file delay_range timeout max_retries
              url w self Hm Hs Hmax H0 Hle Hlim
              (Result.set_title ("予期しないエラー: " ++ Py.msg e)
                 (Result.set_status "エラー"
                    (prepared_result self url (now env (clock w))))))
    as (w' & Hrun & Hf).
  - cbv zeta. rewrite Hget. unfold requests_except. rewrite Hhttp. reflexivity.
  - exists w'. eexists. split; [exact Hrun|]. split; [exact Hf|]. split; reflexivity.
Qed.

Lemma C2_witness :
  let e := Scenario.env (GetRaises Scenario.timed_out)
                        (LoadRaises Scenario.page_load_timed_out) in
  let u := "https://www.asics.com/jp/ja-jp/running/p/1011A100-200.html" in
  exists w' result,
    scrape_url Scenario.lower e None (3 # 2, 4 # 1)%Q 30 3 u
      (Scenario.world0, Scenario.scraper "requests")
    = Some ((w', set_results [result] (Scenario.scraper "requests")), Py.Ok tt)
    /\ fetched (trace w') = [u]
    /\ Result.status result = "エラー"
    /\ Result.title result = "予期しないエラー: Read timed out.".
Proof.
  intros e u.
  apply (C2_requests_path_stops_after_one_timeout Scenario.lower e None (3 # 2, 4 # 1)%Q
           30 3 u Scenario.world0 (Scenario.scraper "requests") Scenario.timed_out).
  - reflexivity.
  - reflexivity.
  - lia.
  - vm_compute. discriminate.
  - vm_compute. discriminate.
  - reflexivity.
  - reflexivity.
  - left. reflexivity.
Defined.

(** The browser path does what the loop is written for: three page loads
    that time out are three attempts. *)
Lemma selenium_path_retries_timeouts :
  let e := Scenario.env (GetRaises Scenario.timed_out)
                        (LoadRaises Scenario.page_load_timed_out) in
  let u := "https://www.asics.com/jp/ja-jp/running/p/1011A100-200.html" in
  exists w self result,
    Scenario.run e "selenium" 3 [u] = Some ((w, self), Py.Ok [result])
    /\ fetched (trace w) = [u; u; u]
    /\ Result.status result = "ERROR"
    /\ Result.title result = "タイムアウト - 再試行 3/3".
Proof.
  do 3 eexists. split; [vm_compute; reflexivity|].
  split; [reflexivity|]. split; reflexivity.
Qed.

(** ** Pages that are not found (C3, C4) *)

Lemma no_product_info_set_status v r :
  no_product_info (Result.set_status v r) = no_product_info r.
Proof. reflexivity. Qed.

Lemma no_product_info_set_title v r :
  no_product_info (Result.set_title v r) = no_product_info r.
Proof. reflexivity. Qed.

(** C4 at the failing input and beyond: the test of line 306 is a second
    [if], not an [elif].  A page whose title matches the not-found pattern
    and from which neither a price nor an availability was extracted, which
    is what a not-found page looks like, ends with the no-product-info status:
    the no-page status set two lines above is overwritten. *)
Theorem C4_not_found_page_ends_as_no_product_info lower soup r :
  not_found_title lower (Result.title (page_record soup r)) = true ->
  no_product_info (page_record soup r) = true ->
  exists r',
    read_page lower soup r = (r', Py.Ok tt)
    /\ Result.status r' = "商品情報なし"
    /\ Result.title r' = "商品情報が見つかりません".
Proof.
  intros Hnf Hno. rewrite read_page_spec. cbv zeta. rewrite Hnf.
  rewrite no_product_info_set_title, no_product_info_set_status, Hno.
  eexists. split; [reflexivity|]. split; reflexivity.
Qed.

Lemma C4_witness :
  let r := new_result (Scenario.scraper "requests")
             "https://www.asics.com/jp/ja-jp/running/p/1011A100-999.html"
             "2024-01-01 00:00:00" in
  Result.title (page_record Scenario.missing_soup r) = "404 Not Found"
  /\ exists r',
       read_page Scenario.lower Scenario.missing_soup r = (r', Py.Ok tt)
       /\ Result.status r' = "商品情報なし"
       /\ Result.title r' = "商品情報が見つかりません".
Proof.
  intro r. split; [reflexivity|].
  apply (C4_not_found_page_ends_as_no_product_info Scenario.lower Scenario.missing_soup r).
  - reflexivity.
  - reflexivity.
Defined.




(** ** The delay after a 403 (C5) *)

(** C5 at the failing input and beyond: a 403 is neither followed by a
    longer delay nor counted as a retry.  On the [requests] path the
    [HTTPError] that [raise_for_status] raises for a 403 is caught inside
    [_scrape_with_requests], which sets the access-denied status and returns:
    the work on the URL is the one pause drawn from [delay_range], the one
    request and the save that is due, whatever the retry budget.  And the
    handler of the retry loop, were it given the [HTTPError] of a 403, would
    not take its 403 branch either: the response of such an error is false as
    a truth value, so the handler records a browser error and counts a retry
    without sleeping. *)
Theorem C5_forbidden_is_neither_delayed_nor_retried
    lower env output_file delay_range timeout max_retries url w self soup :
  method self = "requests" -> session self = true ->
  0 < max_retries ->
  (0 <= fst delay_range)%Q -> (fst delay_range <= snd delay_range)%Q ->
  (snd delay_range < sleep_limit)%Q ->
  (forall n, session_get env n (absolute_url url) timeout = GetResponse 403 soup) ->
  (exists w' result d,
     scrape_url lower env output_file delay_range timeout max_retries url (w, self)
     = Some ((w', set_results (results self ++ [result]) self), Py.Ok tt)
     /\ trace w'
        = (trace w
           ++ [Uniform (fst delay_range) (snd delay_range) d; Sleep d;
               SessionGet (absolute_url url) timeout]
           ++ periodic_save output_file (results self ++ [result]))%list
     /\ (fst delay_range <= d)%Q /\ (d <= snd delay_range)%Q
     /\ Result.status result = "アクセス拒否"
     /\ Result.title result = "アクセスが拒否されました（403）")
  /\ (forall retry_count e s,
        Py.is_HTTPError e = true ->
        Py.response e = Some (Py.Response 403) ->
        on_exception env max_retries retry_count e s
        = ((fst s,
            Result.set_title
              ("ブラウザエラー: " ++ Py.msg e ++ " - 再試行 "
               ++ PyStr.of_int (retry_count + 1) ++ "/" ++ PyStr.of_int max_retries)
              (snd s)),
           Py.Ok (false, retry_count + 1))).
Proof.
  intros Hm Hs Hmax H0 Hle Hlim Hget. split.
  - destruct (scrape_url_requests_trace lower env output_file delay_range timeout max_retries
                url w self Hm Hs Hmax H0 Hle Hlim
                (Result.set_title "アクセスが拒否されました（403）"
                   (Result.set_status "アクセス拒否"
                      (prepared_result self url (now env (clock w))))))
      as (w' & d & Hrun & Ht & Hlo & Hhi).
    + cbv zeta. rewrite Hget. reflexivity.
    + exists w'. eexists. exists d. split; [exact Hrun|]. split; [exact Ht|].
      split; [exact Hlo|]. split; [exact Hhi|]. split; reflexivity.
  - intros retry_count e [w0 r0] Hhttp Hresp.
    unfold on_exception, retry_suffix.
    assert (Hcls : Py.cls e = Py.HTTPError).
    { unfold Py.is_HTTPError in Hhttp. destruct (Py.cls e); try discriminate. reflexivity. }
    unfold Py.is_Timeout, Py.is_ConnectionError, Py.is_HTTPError, Py.is_WebDriverException.
    rewrite Hcls, Hresp. reflexivity.
Qed.

Lemma C5_witness :
  let e := Scenario.env (GetResponse 403 Scenario.missing_soup)
                        (Loaded Scenario.missing_dom) in
  let u := "https://www.asics.com/jp/ja-jp/running/p/1011A100-200.html" in
  let r := new_result (Scenario.scraper "requests") u "2024-01-01 00:00:00" in
  (exists w' result d,
     scrape_url Scenario.lower e None (3 # 2, 4 # 1)%Q 30 3 u
       (Scenario.world0, Scenario.scraper "requests")
     = Some ((w', set_results [result] (Scenario.scraper "requests")), Py.Ok tt)
     /\ trace w' = [Uniform (3 # 2) (4 # 1) d; Sleep d; SessionGet u 30]
     /\ (d <= 4 # 1)%Q
     /\ Result.status result = "アクセス拒否"
     /\ Result.title result = "アクセスが拒否されました（403）")
  /\ on_exception e 3 0 Scenario.forbidden (Scenario.world0, r)
     = ((Scenario.world0,
         Result.set_title "ブラウザエラー: 403 Client Error: Forbidden - 再試行 1/3" r),
        Py.Ok (false, 1)).
Proof.
  intros e u r.
  destruct (C5_forbidden_is_neither_delayed_nor_retried Scenario.lower e None
              (3 # 2, 4 # 1)%Q 30 3 u Scenario.world0 (Scenario.scraper "requests")
              Scenario.missing_soup)
    as [(w' & result & d & Hrun & Ht & _ & Hhi & Hst & Hti) Hhandler].
  - reflexivity.
  - reflexivity.
  - lia.
  - vm_compute. discriminate.
  - vm_compute. discriminate.
  - reflexivity.
  - reflexivity.
  - split.
    + exists w', result, d. split; [exact Hrun|]. split; [exact Ht|].
      split; [exact Hhi|]. split; [exact Hst | exact Hti].
    + apply (Hhandler 0 Scenario.forbidden (Scenario.world0, r)); reflexivity.
Defined.

(** ** Availability in JSON-LD (C6) *)

(** C6, as stated, fails: [str.replace] rewrites a URI wherever it occurs, so
    a string that is none of the three URIs but contains one is changed. *)
Lemma C6_counterexample :
  let a := "See http://schema.org/InStock" in
  let r := new_result (Scenario.scraper "requests") "/relative/path" "2024-01-01 00:00:00" in
  exists r',
    read_json_ld (product_ld a) r = (r', Py.Ok tt)
    /\ Result.availability r' = "See 在庫あり"
    /\ availability_as_specified a = a
    /\ Result.availability r' <> availability_as_specified a.
Proof.
  eexists. split; [vm_compute; reflexivity|].
  split; [reflexivity|]. split; [reflexivity | discriminate].
Qed.

Lemma replace_absent old new : forall s,
  old <> "" -> PyStr.contains old s = false -> PyStr.replace s old new = s.
Proof.
  intros s Hold. destruct old as [|c0 old]; [contradiction|]. clear Hold.
  unfold PyStr.replace.
  induction s as [|c s IH]; intros Hc; [reflexivity|].
  cbn [PyStr.contains] in Hc. apply orb_false_iff in Hc as [Hp Hrest].
  cbn [PyStr.replace_from]. rewrite Hp. now rewrite IH.
Qed.

(** *** [str.replace] on a string made of pieces *)

Lemma replace_from_plain uri label tail text rest :
  uri = String "h" tail ->
  no_h text = true ->
  PyStr.replace_from uri label 0 (text ++ rest) = text ++ PyStr.replace_from uri label 0 rest.
Proof.
  intros ->. induction text as [|c text IH]; intros H; [reflexivity|].
  unfold no_h, PyStr.all_chars in H. cbn [list_ascii_of_string forallb] in H.
  apply andb_true_iff in H as [Hc Ht]. apply negb_true_iff in Hc.
  cbn [append PyStr.replace_from PyStr.is_prefix].
  rewrite Ascii.eqb_sym, Hc. cbn [andb]. now rewrite IH.
Qed.

(** One [replace] call on a row of pieces, each of which it replaces as a
    whole or keeps as a whole: [before] and [after] say how the pieces are
    written before and after the call. *)
Lemma replace_pieces uri label tail (before after : piece -> string) pieces :
  uri = String "h" tail ->
  (forall p rest,
     piece_ok p ->
     PyStr.replace_from uri label 0 (before p ++ rest)
     = after p ++ PyStr.replace_from uri label 0 rest) ->
  Forall piece_ok pieces ->
  PyStr.replace (joined (map before pieces)) uri label = joined (map after pieces).
Proof.
  intros Huri Hstep Hok.
  assert (H : PyStr.replace_from uri label 0 (joined (map before pieces))
              = joined (map after pieces)).
  { induction Hok as [|p pieces Hp _ IH]; [reflexivity|].
    cbn [map joined fold_right]. rewrite (Hstep p _ Hp). f_equal. exact IH. }
  unfold PyStr.replace. rewrite Huri at 1. exact H.
Qed.

(** The three calls of lines 377-379 replace every URI of the row by its
    label and keep the text between them. *)
Lemma availability_as_coded_pieces pieces :
  Forall piece_ok pieces ->
  availability_as_coded (joined (map as_written pieces)) = joined (map as_stored pieces).
Proof.
  intros Hok. unfold availability_as_coded, InStock, OutOfStock, LimitedAvailability.
  set (w1 := fun p => match p with in_stock => "在庫あり" | _ => as_written p end).
  set (w2 := fun p => match p with out_of_stock => "在庫切れ" | _ => w1 p end).
  rewrite (replace_pieces _ _ _ as_written w1 pieces eq_refl); [|clear -w1|exact Hok].
  2: { intros [text| | |] rest Hp; cbn [as_written w1];
         [now apply (replace_from_plain _ _ _ _ _ eq_refl) | reflexivity ..]. }
  rewrite (replace_pieces _ _ _ w1 w2 pieces eq_refl); [|clear -w2|exact Hok].
  2: { intros [text| | |] rest Hp; cbn [as_written w1 w2];
         [now apply (replace_from_plain _ _ _ _ _ eq_refl)
         | now apply (replace_from_plain _ _ _ _ _ eq_refl)
         | reflexivity ..]. }
  rewrite (replace_pieces _ _ _ w2 as_stored pieces eq_refl); [reflexivity| |exact Hok].
  intros [text| | |] rest Hp; cbn [as_written as_stored w1 w2];
    [now apply (replace_from_plain _ _ _ _ _ eq_refl)
    | now apply (replace_from_plain _ _ _ _ _ eq_refl)
    | now apply (replace_from_plain _ _ _ _ _ eq_refl)
    | reflexivity].
Qed.

(** In a list, the product that is read is the first one. *)
Lemma first_product_found before items after :
  Forall other_type before ->
  Py.assoc "@type" items = Some (Py.VStr "Product") ->
  first_product (before ++ Py.VDict items :: after) = Py.Ok (Py.VDict items).
Proof.
  intros Hbefore Hty. induction Hbefore as [|item before (d & -> & Hd) _ IH].
  - cbn [app first_product Py.get]. rewrite Hty. reflexivity.
  - cbn [app first_product Py.get]. rewrite Hd. exact IH.
Qed.

Lemma holds_product_read ld items :
  holds_product ld items ->
  Py.assoc "@type" items = Some (Py.VStr "Product") ->
  match ld with Py.VList l => first_product l | _ => Py.Ok ld end = Py.Ok (Py.VDict items).
Proof.
  intros [->|(before & after & -> & Hbefore)] Hty; [reflexivity|].
  now apply first_product_found.
Qed.

(** What [read_json_ld] stores for a product whose offer has the availability
    string [a], when the page gave no availability before. *)
Lemma read_json_ld_availability ld items offers a r :
  holds_product ld items ->
  Py.assoc "@type" items = Some (Py.VStr "Product") ->
  Py.assoc "offers" items = Some (Py.VDict offers) ->
  Py.assoc "availability" offers = Some (Py.VStr a) ->
  Result.availability r = "" ->
  exists r',
    read_json_ld (LdValue ld) r = (r', Py.Ok tt)
    /\ Result.availability r' = if PyStr.truthy a then availability_as_coded a else "".
Proof.
  intros Hld Hty Hoff Hav Hr.
  assert (Hread := holds_product_read ld items Hld Hty).
  unfold read_json_ld, Py.try_except, Py.bind, Py.lift, Py.read, Py.modify, Py.ret,
    json_loads.
  rewrite Hread.
  unfold Py.get, Py.getitem, Py.contains_key.
  rewrite Hty, Hoff. cbn [Py.eq_str String.eqb Ascii.eqb Bool.eqb andb].
  destruct (negb (Py.truthy (Result.price r))); cbn [andb].
  - cbn [Result.availability Result.set_price]. rewrite Hr, Hav.
    cbn [PyStr.truthy String.eqb negb andb Py.truthy].
    destruct (PyStr.truthy a) eqn:Ha.
    + unfold availability_label, Py.replace. cbn.
      eexists. split; [reflexivity|]. reflexivity.
    + eexists. split; [reflexivity|]. cbn. now rewrite Hr.
  - rewrite Hr, Hav. cbn [PyStr.truthy String.eqb negb andb Py.truthy].
    destruct (PyStr.truthy a) eqn:Ha.
    + unfold availability_label, Py.replace. cbn.
      eexists. split; [reflexivity|]. reflexivity.
    + eexists. split; [reflexivity|]. exact Hr.
Qed.

(** C6, amended: the availability string of the product that is read, which
    is the JSON-LD object itself or the first product of a JSON-LD list, is
    stored as follows when the page gave no availability text of its own.  A
    string that is one of the three schema.org URIs is stored as the matching
    label; a string in which none of the three URIs occurs is stored
    unchanged; and in a string made of URIs and of text between them, every
    URI is replaced by its label, wherever and however often it occurs, and
    the text is kept. *)
Theorem C6_availability_mapping ld items offers a r :
  holds_product ld items ->
  Py.assoc "@type" items = Some (Py.VStr "Product") ->
  Py.assoc "offers" items = Some (Py.VDict offers) ->
  Py.assoc "availability" offers = Some (Py.VStr a) ->
  Result.availability r = "" ->
  exists r',
    read_json_ld (LdValue ld) r = (r', Py.Ok tt)
    /\ (a = InStock -> Result.availability r' = "在庫あり")
    /\ (a = OutOfStock -> Result.availability r' = "在庫切れ")
    /\ (a = LimitedAvailability -> Result.availability r' = "在庫残りわずか")
    /\ (PyStr.contains InStock a = false ->
        PyStr.contains OutOfStock a = false ->
        PyStr.contains LimitedAvailability a = false ->
        Result.availability r' = a)
    /\ (forall pieces,
          Forall piece_ok pieces ->
          a = joined (map as_written pieces) ->
          Result.availability r' = joined (map as_stored pieces)).
Proof.
  intros Hld Hty Hoff Hav Hr.
  destruct (read_json_ld_availability ld items offers a r Hld Hty Hoff Hav Hr)
    as (r' & Hrun & Hres).
  exists r'. split; [exact Hrun|].
  split; [intros ->; rewrite Hres; vm_compute; reflexivity|].
  split; [intros ->; rewrite Hres; vm_compute; reflexivity|].
  split; [intros ->; rewrite Hres; vm_compute; reflexivity|].
  split.
  - intros H1 H2 H3. rewrite Hres.
    destruct (PyStr.truthy a) eqn:Ha.
    + unfold availability_as_coded.
      rewrite (replace_absent InStock _ a), (replace_absent OutOfStock _ a),
        (replace_absent LimitedAvailability _ a); auto; discriminate.
    + unfold PyStr.truthy in Ha. apply negb_false_iff, String.eqb_eq in Ha. now subst.
  - intros pieces Hok ->. rewrite Hres.
    destruct (PyStr.truthy (joined (map as_written pieces))) eqn:Ha.
    + now apply availability_as_coded_pieces.
    + unfold PyStr.truthy in Ha. apply negb_false_iff, String.eqb_eq in Ha.
      clear -Ha. symmetry.
      induction pieces as [|p pieces IH]; [reflexivity|].
      cbn [joined fold_right map] in Ha |- *.
      destruct p as [text| | |]; cbn [as_written as_stored] in Ha |- *; try discriminate.
      destruct text; [exact (IH Ha) | discriminate].
Qed.

(** A JSON-LD list whose second object is the product, and an availability
    that names a URI twice and another one once, among other text. *)
Lemma C6_witness :
  let r := new_result (Scenario.scraper "requests") "/relative/path" "2024-01-01 00:00:00" in
  let a := "In: http://schema.org/InStock, http://schema.org/InStock (not http://schema.org/OutOfStock)" in
  let items := [("@type", Py.VStr "Product");
                ("offers", Py.VDict [("availability", Py.VStr a)])] in
  let ld := Py.VList [Py.VDict [("@type", Py.VStr "Organization")]; Py.VDict items] in
  exists r',
    read_json_ld (LdValue ld) r = (r', Py.Ok tt)
    /\ Result.availability r' = "In: 在庫あり, 在庫あり (not 在庫切れ)".
Proof.
  intros r a items ld.
  destruct (C6_availability_mapping ld items [("availability", Py.VStr a)] a r)
    as (r' & Hrun & _ & _ & _ & _ & Hpieces).
  - right. exists [Py.VDict [("@type", Py.VStr "Organization")]], [].
    split; [reflexivity|]. constructor; [|constructor].
    eexists. split; reflexivity.
  - reflexivity.
  - reflexivity.
  - reflexivity.
  - reflexivity.
  - exists r'. split; [exact Hrun|].
    apply (Hpieces [plain "In: "; in_stock; plain ", "; in_stock; plain " (not ";
                    out_of_stock; plain ")"]).
    + repeat constructor.
    + reflexivity.
Defined.

(** ** The input file scenario (C8) *)

(** C8, as stated, fails: the origin a relative path is resolved under is not
    the configured one.  With [--base-url https://store.example] the path
    [/relative/path] of the input file is fetched from [www.asics.com]. *)
Lemma C8_counterexample :
  let e := Scenario.env (GetResponse 200 Scenario.product_soup)
                        (Loaded Scenario.missing_dom) in
  arg_base_url Scenario.args = "https://store.example"
  /\ exists w scraper,
       main Scenario.lower e Scenario.args Scenario.world0 = Some (w, Py.Ok (Some scraper))
       /\ fetched (trace w)
          = ["https://store.example/x/p/1011A100-200.html";
             "https://www.asics.com/relative/path"]
       /\ PyStr.startswith "https://www.asics.com/relative/path" "https://store.example"
          = false.
Proof.
  split; [reflexivity|].
  do 2 eexists. split; [vm_compute; reflexivity|]. split; reflexivity.
Qed.

Lemma init_ok lower env m h c w :
  lower m = "requests" \/ lower m = "selenium" ->
  exists w' self,
    __init__ lower env m h c w = (w', Py.Ok self)
    /\ results self = [] /\ trace w' = trace w.
Proof.
  intros [Hm|Hm]; unfold __init__; rewrite Hm; cbn [String.eqb Ascii.eqb Bool.eqb].
  - eexists _, _. split; [reflexivity|]. split; reflexivity.
  - unfold _setup_selenium. cbn [chromedriver_path].
    match goal with |- context [chrome_starts env (clock w) ?s] =>
      destruct (chrome_starts env (clock w) s) end;
      (eexists _, _; split; [reflexivity|]; split; reflexivity).
Qed.

Lemma close_trace self w :
  exists w', close self w = (w', Py.Ok tt) /\ fetched (trace w') = fetched (trace w).
Proof.
  unfold close.
  destruct ((method self =? "selenium")%string && driver self);
    [|destruct ((method self =? "requests")%string && session self)];
    (eexists; split; [reflexivity|]);
    unfold emit; cbn [trace]; rewrite ?fetched_app; cbn; now rewrite ?app_nil_r.
Qed.

Lemma fetched_closing_events output_file self urls df :
  fetched (closing_events output_file self urls df) = [].
Proof. unfold closing_events. destruct (output_path output_file); reflexivity. Qed.

Lemma fetched_run_events timeout urls evs :
  Forall (run_event timeout urls) evs ->
  Forall (fun u => In u (map absolute_url urls)) (fetched evs).
Proof.
  induction 1 as [|e evs He _ IH]; [constructor|].
  unfold fetched in *. cbn [flat_map].
  apply Forall_app. split; [|exact IH].
  destruct e; cbn in *; try constructor; try apply He; constructor.
Qed.

(** C8, amended: loading the file of the scenario, when it is read to its
    end, yields exactly its two URL lines; a run of [main] on it leaves a
    table of exactly two rows; and every fetch is of the absolute URL as given
    or of the relative path resolved under the fixed origin
    [https://www.asics.com], whatever [--base-url] is. *)
Theorem C8_input_file_scenario lower env args path w :
  arg_input args = Some path ->
  PyStr.truthy path = true ->
  files env path = Some Scenario.urls_txt ->
  read_error env path = None ->
  lower (method_name (arg_method args)) = "requests"
  \/ lower (method_name (arg_method args)) = "selenium" ->
  load_urls_from_file env path
  = ["https://store.example/x/p/1011A100-200.html"; "/relative/path"]
  /\ exists w' scraper fetches,
       main lower env args w = Some (w', Py.Ok (Some scraper))
       /\ map Result.url (results scraper)
          = ["https://store.example/x/p/1011A100-200.html"; "/relative/path"]
       /\ fetched (trace w') = (fetched (trace w) ++ fetches)%list
       /\ Forall (fun u => u = "https://store.example/x/p/1011A100-200.html"
                           \/ u = "https://www.asics.com/relative/path") fetches.
Proof.
  intros Hin Htruthy Hfile Hread Hmethod.
  assert (Hload : load_urls_from_file env path
                  = ["https://store.example/x/p/1011A100-200.html"; "/relative/path"]).
  { unfold load_urls_from_file, read_urls. rewrite Hfile, Hread. vm_compute. reflexivity. }
  split; [exact Hload|].
  unfold main. rewrite Hin, Htruthy. unfold path_exists. rewrite Hfile. cbn [andb].
  rewrite Hload.
  destruct (init_ok lower env (method_name (arg_method args)) (arg_headless args)
              (arg_chromedriver args) w Hmethod) as (w0 & self & -> & Hfresh & Htr0).
  destruct (scrape_urls_ok lower env (Some (arg_output args))
              (arg_min_delay args, arg_max_delay args) (arg_timeout args) (arg_retries args)
              ["https://store.example/x/p/1011A100-200.html"; "/relative/path"] w0 self)
    as (w1 & recs & evs & -> & Hmap & Htr1 & Hev); [discriminate|].
  destruct (close_trace (set_results (results self ++ recs) self) w1) as (w2 & -> & Hf2).
  exists w2, (set_results (results self ++ recs) self), (fetched evs).
  split; [reflexivity|].
  split; [cbn [results set_results]; rewrite Hfresh; exact Hmap|].
  split.
  - rewrite Hf2, Htr1, !fetched_app, fetched_closing_events, app_nil_r. now rewrite Htr0.
  - apply fetched_run_events in Hev.
    eapply Forall_impl; [|exact Hev]. intros u Hu. cbn in Hu.
    destruct Hu as [<-|[<-|[]]]; [left | right]; reflexivity.
Qed.

Lemma C8_witness :
  let e := Scenario.env (GetRaises Scenario.timed_out) (Loaded Scenario.missing_dom) in
  load_urls_from_file e "urls.txt"
  = ["https://store.example/x/p/1011A100-200.html"; "/relative/path"]
  /\ exists w' scraper fetches,
       main Scenario.lower e Scenario.args Scenario.world0 = Some (w', Py.Ok (Some scraper))
       /\ map Result.url (results scraper)
          = ["https://store.example/x/p/1011A100-200.html"; "/relative/path"]
       /\ fetched (trace w') = (fetched (trace Scenario.world0) ++ fetches)%list
       /\ Forall (fun u => u = "https://store.example/x/p/1011A100-200.html"
                           \/ u = "https://www.asics.com/relative/path") fetches.
Proof.
  intro e.
  apply (C8_input_file_scenario Scenario.lower e Scenario.args "urls.txt" Scenario.world0).
  - reflexivity.
  - reflexivity.
  - reflexivity.
  - reflexivity.
  - left. reflexivity.
Defined.

(** ** Errors and the loop over the URLs (C9) *)

(** C9, as stated, fails for the errors raised while the details are
    extracted: they are caught and printed where they arise, and the record
    shows nothing of them.  Here the browser has loaded a page that has no
    price element: [find_element] raises, the rest of the extraction is
    skipped, and the record says success under the title of the page. *)
Lemma C9_counterexample :
  let e := Scenario.env (GetRaises Scenario.timed_out) (Loaded Scenario.price_missing_dom) in
  let u := "https://www.asics.com/jp/ja-jp/running/p/1011A100-200.html" in
  (exists x, find_element (dom_price Scenario.price_missing_dom) = Py.Raise x
             /\ Py.cls x = Py.NoSuchElementException)
  /\ exists w self result,
       Scenario.run e "selenium" 3 [u] = Some ((w, self), Py.Ok [result])
       /\ Result.status result = "SUCCESS"
       /\ Result.title result = "GEL-KAYANO 30 | ASICS"
       /\ is_error_text (Result.title result) = false
       /\ Result.availability result = "".
Proof.
  split.
  - eexists. split; reflexivity.
  - do 3 eexists. split; [vm_compute; reflexivity|].
    repeat split; reflexivity.
Qed.

Lemma requests_except_records e r :
  (Py.is_HTTPError e = true -> exists c, response_status_code e = Py.Ok c) ->
  exists r',
    requests_except e r = (r', Py.Ok tt)
    /\ In (Result.status r') ["ページなし"; "アクセス拒否"; "エラー"]
    /\ is_error_text (Result.title r') = true.
Proof.
  intros Hcode. unfold requests_except.
  destruct (Py.is_HTTPError e).
  - destruct (Hcode eq_refl) as [c Hc]. unfold Py.bind, Py.lift. rewrite Hc.
    destruct (c =? 404); [|destruct (c =? 403)];
      (eexists; split; [reflexivity|]; split; [cbn; auto | reflexivity]).
  - eexists. split; [reflexivity|]. split; [cbn; auto | reflexivity].
Qed.

Lemma read_dom_ok dom r : exists r', read_dom dom r = (r', Py.Ok tt).
Proof.
  unfold read_dom, Py.bind, Py.modify.
  match goal with
  | |- context [Py.try_except ?body (fun _ => true) (fun _ => Py.ret tt) ?s] =>
      destruct (never_raises_catch_all body s) as (r' & [] & ->)
  end.
  eauto.
Qed.

(** C9, amended: no error propagates out of the loop over the URLs, which
    gives every URL its record; an error of the fetch is recorded, on the
    [requests] path by the fetcher itself, which sets an error status and an
    error text, and on the browser path by the handlers of the retry loop,
    which are reached by whatever the page load raises, never raise
    themselves and put an error text into the title; an error raised while
    the details are extracted is caught by the extractor and only printed. *)
Theorem C9_fetch_errors_are_recorded_and_none_propagates
    lower env output_file delay_range timeout max_retries :
  (forall urls s,
     exists w' recs,
       for_urls lower env output_file delay_range timeout max_retries urls s
       = Some ((w', set_results (results (snd s) ++ recs) (snd s)), Py.Ok tt)
       /\ map Result.url recs = urls)
  /\ (forall self url w r,
        session self = true ->
        fetch_fails (session_get env (clock w) url timeout) ->
        exists w' r',
          _scrape_with_requests lower env self url timeout (w, r) = ((w', r'), Py.Ok tt)
          /\ In (Result.status r') ["ページなし"; "アクセス拒否"; "エラー"]
          /\ is_error_text (Result.title r') = true)
  /\ (forall self url w r e,
        driver self = true ->
        driver_load env (clock w) url timeout = LoadRaises e ->
        exists w' e',
          _scrape_with_selenium env self url timeout (w, r) = ((w', r), Py.Raise e'))
  /\ (forall retry_count e s,
        exists s' brk retry_count',
          on_exception env max_retries retry_count e s = (s', Py.Ok (brk, retry_count'))
          /\ is_error_text (Result.title (snd s')) = true)
  /\ (forall soup r, exists r', read_page lower soup r = (r', Py.Ok tt))
  /\ (forall dom r, exists r', read_dom dom r = (r', Py.Ok tt)).
Proof.
  split; [|split; [|split; [|split; [|split]]]].
  - intros urls s.
    destruct (for_urls_ok lower env output_file delay_range timeout max_retries urls s)
      as (w' & recs & evs & H & Hm & _).
    exists w', recs. auto.
  - intros self url w r Hs Hfail.
    rewrite (scrape_with_requests_spec _ _ _ _ _ _ _ Hs). cbv zeta.
    destruct (session_get env (clock w) url timeout) as [e|c soup]; cbn in Hfail.
    + destruct (requests_except_records e r Hfail) as (r' & -> & Hst & Ht).
      eexists _, r'. split; [reflexivity | auto].
    + assert (Hr : raise_for_status c
                   = Py.Raise (Py.Exn Py.HTTPError (PyStr.of_int c ++ " Error")
                                 (Some (Py.Response c)))).
      { unfold raise_for_status.
        destruct (400 <=? c) eqn:H1; [destruct (c <? 600) eqn:H2|]; try reflexivity; lia. }
      rewrite Hr.
      destruct (requests_except_records
                  (Py.Exn Py.HTTPError (PyStr.of_int c ++ " Error") (Some (Py.Response c))) r)
        as (r' & -> & Hst & Ht); [intros _; exists c; reflexivity|].
      eexists _, r'. split; [reflexivity | auto].
  - intros self url w r e Hd Hload.
    unfold _scrape_with_selenium, Py.try_except, Py.bind, in_world, Py.zoom, driver_load_call.
    cbn [fst snd]. rewrite Hd, Hload. cbn [fst snd].
    destruct (Py.is_WebDriverException e); [destruct (Py.is_TimeoutException e)|];
      eexists _, _; reflexivity.
  - intros retry_count e s.
    destruct (on_exception_ok env timeout max_retries "" retry_count e s)
      as (s' & brk & rc' & H & _ & _ & Ht).
    exists s', brk, rc'. auto.
  - intros soup r. rewrite read_page_spec. eauto.
  - apply read_dom_ok.
Qed.

Lemma C9_witness :
  let e := Scenario.env (GetRaises Scenario.timed_out)
                        (LoadRaises Scenario.page_load_timed_out) in
  let u := "https://www.asics.com/jp/ja-jp/running/p/1011A100-200.html" in
  let r := new_result (Scenario.scraper "requests") u "2024-01-01 00:00:00" in
  (exists w' r',
     _scrape_with_requests Scenario.lower e (Scenario.scraper "requests") u 30
       (Scenario.world0, r) = ((w', r'), Py.Ok tt)
     /\ In (Result.status r') ["ページなし"; "アクセス拒否"; "エラー"]
     /\ is_error_text (Result.title r') = true)
  /\ (exists w' e',
        _scrape_with_selenium e (Scenario.scraper "selenium") u 30 (Scenario.world0, r)
        = ((w', r), Py.Raise e')).
Proof.
  intros e u r.
  destruct (C9_fetch_errors_are_recorded_and_none_propagates
              Scenario.lower e None (3 # 2, 4 # 1)%Q 30 3) as (_ & Hreq & Hsel & _).
  split.
  - apply Hreq.
    + reflexivity.
    + simpl. discriminate.
  - apply (Hsel (Scenario.scraper "selenium") u Scenario.world0 r
             Scenario.page_load_timed_out).
    + reflexivity.
    + reflexivity.
Defined.

(* ================================================================== *)
(** * Further properties of the crawler *)

(** ** Invariants of the work on one URL *)

(** What the retry loop keeps: a relation that every attempt and every
    handler keeps is kept by the loop. *)
Lemma retry_loop_invariant lower env delay_range timeout max_retries self url
    (J : world * Result.t -> world * Result.t -> Prop) :
  (forall s, J s s) ->
  (forall a b c, J a b -> J b c -> J a c) ->
  preserves J (attempt lower env delay_range timeout self url) ->
  (forall retry_count e, preserves J (on_exception env max_retries retry_count e)) ->
  forall fuel success retry_count s s' o,
    retry_loop lower env delay_range timeout max_retries fuel self url success retry_count s
    = Some (s', o) ->
    J s s'.
Proof.
  intros Hrefl Htrans Hatt Hexc.
  induction fuel as [|fuel IH]; intros success retry_count s s' o H; cbn [retry_loop] in H.
  - destruct (negb success && (retry_count <? max_retries)); [discriminate|].
    injection H as <- _. apply Hrefl.
  - destruct (negb success && (retry_count <? max_retries));
      [|injection H as <- _; apply Hrefl].
    destruct (attempt lower env delay_range timeout self url s) as [s1 [u|e]] eqn:Ha.
    + eapply Htrans; [eapply Hatt; eauto | eapply IH; eauto].
    + destruct (on_exception env max_retries retry_count e s1) as [s2 [[[] rc]|e']] eqn:He.
      * injection H as <- _. eapply Htrans; [eapply Hatt; eauto | eapply Hexc; eauto].
      * eapply Htrans; [eapply Hatt; eauto|].
        eapply Htrans; [eapply Hexc; eauto | eapply IH; eauto].
      * injection H as <- _. eapply Htrans; [eapply Hatt; eauto | eapply Hexc; eauto].
Qed.

(** The record [scrape_url] appends is the one the retry loop leaves, and
    saving the table adds no fetch. *)
Lemma scrape_url_appends lower env output_file delay_range timeout max_retries url w self
    w1 r1 :
  retry_loop lower env delay_range timeout max_retries (Z.to_nat max_retries) self
    (absolute_url url) false 0 (tick w, prepared_result self url (now env (clock w)))
  = Some ((w1, r1), Py.Ok tt) ->
  exists w',
    scrape_url lower env output_file delay_range timeout max_retries url (w, self)
    = Some ((w', set_results (results self ++ [r1]) self), Py.Ok tt)
    /\ fetched (trace w') = fetched (trace w1).
Proof.
  intros Hloop. unfold scrape_url. rewrite Hloop.
  destruct (output_path output_file) as [path|].
  - destruct (Z.of_nat (length (results (set_results (results self ++ [r1]) self))) mod 10 =? 0).
    + unfold _save_results. cbn [fst snd]. eexists. split; [reflexivity|].
      unfold emit. cbn [trace]. rewrite fetched_app. cbn. now rewrite app_nil_r.
    + eexists. split; reflexivity.
  - eexists. split; reflexivity.
Qed.

Lemma same_world_refl s : same_world s s.
Proof. reflexivity. Qed.

Lemma same_world_trans a b c : same_world a b -> same_world b c -> same_world a c.
Proof. unfold same_world. congruence. Qed.

Lemma same_fetches_refl s : same_fetches s s.
Proof. reflexivity. Qed.

Lemma same_fetches_trans a b c : same_fetches a b -> same_fetches b c -> same_fetches a c.
Proof. unfold same_fetches. congruence. Qed.

#[local] Hint Resolve same_world_refl same_world_trans same_fetches_refl
  same_fetches_trans : crawler.

Lemma in_result_same_world {A} (c : Py.M Result.t A) : preserves same_world (in_result c).
Proof.
  intros [w r] s' o H. unfold in_result, Py.zoom in H. cbn [fst snd] in H.
  destruct (c r). injection H as <- _. reflexivity.
Qed.

Lemma in_result_same_fetches {A} (c : Py.M Result.t A) : preserves same_fetches (in_result c).
Proof.
  intros s s' o H. apply in_result_same_world in H. unfold same_fetches. now rewrite H.
Qed.

Lemma random_uniform_same_fetches env a b :
  preserves same_fetches (in_world (random_uniform env a b)).
Proof.
  intros [w r] s' o H. unfold in_world, Py.zoom, random_uniform in H. cbn [fst snd] in H.
  destruct (random_random env (clock w)). injection H as <- _.
  unfold same_fetches, emit. cbn [fst trace tick]. rewrite fetched_app. cbn.
  now rewrite app_nil_r.
Qed.

Lemma time_sleep_same_fetches d : preserves same_fetches (in_world (time_sleep d)).
Proof.
  intros [w r] s' o H. unfold in_world, Py.zoom in H. cbn [fst snd] in H.
  destruct (time_sleep_cases d w) as [E|[e E]]; rewrite E in H;
    injection H as <- _; [|reflexivity].
  unfold same_fetches, emit. cbn [fst trace]. rewrite fetched_app. cbn.
  now rewrite app_nil_r.
Qed.

(** The handlers of the retry loop fetch nothing. *)
Lemma on_exception_same_fetches env max_retries retry_count e :
  preserves same_fetches (on_exception env max_retries retry_count e).
Proof.
  unfold on_exception.
  repeat preserves_step;
    first [ apply in_result_same_fetches
          | apply random_uniform_same_fetches
          | apply time_sleep_same_fetches ].
Qed.

(** ** How often a URL is fetched *)

Lemma session_get_call_cases env self url timeout w r s1 o :
  in_world (session_get_call env self url timeout) (w, r) = (s1, o) ->
  s1 = (w, r) \/ s1 = (emit (SessionGet url timeout) (tick w), r).
Proof.
  unfold in_world, Py.zoom, session_get_call. cbn [fst snd].
  destruct (session self); [|intros H; injection H as <- _; now left].
  destruct (session_get env (clock w) url timeout); intros H; injection H as <- _; now right.
Qed.

Lemma driver_load_call_cases env self url timeout w r s1 o :
  in_world (driver_load_call env self url timeout) (w, r) = (s1, o) ->
  s1 = (w, r) \/ s1 = (emit (DriverGet url timeout) (tick w), r).
Proof.
  unfold in_world, Py.zoom, driver_load_call. cbn [fst snd].
  destruct (driver self); [|intros H; injection H as <- _; now left].
  destruct (driver_load env (clock w) url timeout); intros H; injection H as <- _; now right.
Qed.

Lemma after_get_same_world lower status_code soup :
  preserves same_world
    (Py.bind (Py.lift (raise_for_status status_code))
       (fun _ => in_result (read_page lower soup))).
Proof. repeat preserves_step. apply in_result_same_world. Qed.

Lemma scrape_with_requests_one_fetch lower env self url timeout s s' o :
  _scrape_with_requests lower env self url timeout s = (s', o) ->
  one_fetch_at_most url s s'.
Proof.
  destruct s as [w r]. unfold _scrape_with_requests, Py.try_except. unfold Py.bind at 1.
  destruct (in_world (session_get_call env self url timeout) (w, r)) as [s1 [resp|e]] eqn:Hget;
    apply session_get_call_cases in Hget.
  - destruct (Py.bind (Py.lift (raise_for_status (fst resp)))
                (fun _ => in_result (read_page lower (snd resp))) s1) as [s2 [u|e]] eqn:Hrest.
    + intros H. injection H as <- _. apply after_get_same_world in Hrest.
      unfold one_fetch_at_most. rewrite Hrest.
      destruct Hget as [->| ->]; [now left | right].
      eexists. repeat split; reflexivity.
    + intros H. apply in_result_same_world in H. apply after_get_same_world in Hrest.
      unfold one_fetch_at_most. rewrite H, Hrest.
      destruct Hget as [->| ->]; [now left | right].
      eexists. repeat split; reflexivity.
  - intros H. apply in_result_same_world in H.
    unfold one_fetch_at_most. rewrite H.
    destruct Hget as [->| ->]; [now left | right].
    eexists. repeat split; reflexivity.
Qed.

Lemma scrape_with_selenium_one_fetch env self url timeout s s' o :
  _scrape_with_selenium env self url timeout s = (s', o) ->
  one_fetch_at_most url s s'.
Proof.
  destruct s as [w r]. unfold _scrape_with_selenium, Py.try_except. unfold Py.bind.
  destruct (in_world (driver_load_call env self url timeout) (w, r)) as [s1 [dom|e]] eqn:Hget;
    apply driver_load_call_cases in Hget.
  - destruct (in_result (read_dom dom) s1) as [s2 [u|e]] eqn:Hrest;
      apply in_result_same_world in Hrest.
    + intros H. injection H as <- _. unfold one_fetch_at_most. rewrite Hrest.
      destruct Hget as [->| ->]; [now left | right].
      eexists. repeat split; reflexivity.
    + intros H.
      assert (Heq : s' = s2).
      { destruct (Py.is_WebDriverException e); [destruct (Py.is_TimeoutException e)|];
          unfold Py.raise in H; congruence. }
      rewrite Heq. unfold one_fetch_at_most. rewrite Hrest.
      destruct Hget as [->| ->]; [now left | right].
      eexists. repeat split; reflexivity.
  - intros H.
    assert (Heq : s' = s1).
    { destruct (Py.is_WebDriverException e); [destruct (Py.is_TimeoutException e)|];
        unfold Py.raise in H; congruence. }
    rewrite Heq. unfold one_fetch_at_most.
    destruct Hget as [->| ->]; [now left | right].
    eexists. repeat split; reflexivity.
Qed.

Lemma one_fetch_fetches url s s' : one_fetch_at_most url s s' -> fetches_at_most_once url s s'.
Proof.
  intros [H|(e & _ & He & H)]; unfold fetches_at_most_once; rewrite H; [now left | right].
  unfold emit. cbn [trace tick]. now rewrite fetched_app, He.
Qed.

Lemma scrape_with_requests_fetches lower env self url timeout s s' o :
  _scrape_with_requests lower env self url timeout s = (s', o) ->
  fetches_at_most_once url s s'.
Proof. intros H. eapply one_fetch_fetches, scrape_with_requests_one_fetch, H. Qed.

Lemma scrape_with_selenium_fetches env self url timeout s s' o :
  _scrape_with_selenium env self url timeout s = (s', o) ->
  fetches_at_most_once url s s'.
Proof. intros H. eapply one_fetch_fetches, scrape_with_selenium_one_fetch, H. Qed.

Lemma attempt_fetches lower env delay_range timeout self url s s' o :
  attempt lower env delay_range timeout self url s = (s', o) ->
  fetches_at_most_once url s s'.
Proof.
  unfold attempt. unfold Py.bind at 1.
  destruct (in_world (random_uniform env (fst delay_range) (snd delay_range)) s)
    as [s1 [d|e]] eqn:Hu; apply random_uniform_same_fetches in Hu.
  - unfold Py.bind.
    destruct (in_world (time_sleep d) s1) as [s2 [u|e]] eqn:Hs;
      apply time_sleep_same_fetches in Hs.
    + intros H.
      assert (Hf : fetches_at_most_once url s2 s').
      { destruct (method self =? "selenium")%string;
          [eapply scrape_with_selenium_fetches | eapply scrape_with_requests_fetches]; eauto. }
      unfold fetches_at_most_once, same_fetches in *. rewrite Hs, Hu in Hf. exact Hf.
    + intros H. injection H as <- _. left. unfold same_fetches in *. congruence.
  - intros H. injection H as <- _. left. exact Hu.
Qed.

(** The retry loop fetches the URL at most as often as retries are left, and
    not at all once an attempt has succeeded. *)
Lemma retry_loop_fetches lower env delay_range timeout max_retries self url :
  forall fuel success retry_count s s' o,
    retry_loop lower env delay_range timeout max_retries fuel self url success retry_count s
    = Some (s', o) ->
    exists k,
      (k <= Z.to_nat (max_retries - retry_count))%nat
      /\ (success = true -> k = 0%nat)
      /\ fetched (trace (fst s')) = (fetched (trace (fst s)) ++ repeat url k)%list.
Proof.
  induction fuel as [|fuel IH]; intros success retry_count s s' o H; cbn [retry_loop] in H.
  - destruct (negb success && (retry_count <? max_retries)); [discriminate|].
    injection H as <- _. exists 0%nat. cbn. rewrite app_nil_r. auto with arith.
  - destruct (negb success && (retry_count <? max_retries)) eqn:Hcond;
      [|injection H as <- _; exists 0%nat; cbn; rewrite app_nil_r; auto with arith].
    apply andb_true_iff in Hcond as [Hsucc Hlt]. apply Z.ltb_lt in Hlt.
    apply negb_true_iff in Hsucc. subst success.
    destruct (attempt lower env delay_range timeout self url s) as [s1 [u|e]] eqn:Ha;
      apply attempt_fetches in Ha.
    + destruct (IH _ _ _ _ _ H) as (k & _ & Hk & Hf). rewrite (Hk eq_refl) in Hf.
      cbn in Hf. rewrite app_nil_r in Hf.
      destruct Ha as [Ha|Ha].
      * exists 0%nat. cbn. rewrite app_nil_r. split; [lia|]. split; [discriminate|congruence].
      * exists 1%nat. cbn. split; [lia|]. split; [discriminate|congruence].
    + destruct (on_exception env max_retries retry_count e s1) as [s2 [[brk rc]|e']] eqn:He.
      * pose proof (on_exception_same_fetches _ _ _ _ _ _ _ He) as Hsame.
        destruct (on_exception_ok env timeout max_retries url retry_count e s1)
          as (s2' & brk' & rc' & He' & _ & Hrc & _).
        rewrite He in He'. injection He' as <- <- <-.
        unfold same_fetches in Hsame.
        destruct brk.
        -- injection H as <- _. rewrite Hsame.
           destruct Ha as [Ha|Ha].
           ++ exists 0%nat. cbn. rewrite app_nil_r. split; [lia|]. split; [discriminate|congruence].
           ++ exists 1%nat. cbn. split; [lia|]. split; [discriminate|congruence].
        -- rewrite (Hrc eq_refl) in H.
           destruct (IH _ _ _ _ _ H) as (k & Hle & _ & Hf). rewrite Hsame in Hf.
           destruct Ha as [Ha|Ha].
           ++ exists k. split; [lia|]. split; [discriminate|congruence].
           ++ exists (S k). split; [lia|]. split; [discriminate|].
              rewrite Hf, Ha, <- app_assoc. reflexivity.
      * destruct (on_exception_ok env timeout max_retries url retry_count e s1)
          as (s2' & brk' & rc' & He' & _).
        rewrite He in He'. discriminate.
Qed.

(** X1: whatever the fetches do and on either path, the work on one URL
    fetches the normalised URL at most [max_retries] times and nothing else;
    with a retry budget of zero or less it fetches nothing. *)
Theorem retry_budget_bounds_the_fetches
    lower env output_file delay_range timeout max_retries url w self :
  exists w' result k,
    scrape_url lower env output_file delay_range timeout max_retries url (w, self)
    = Some ((w', set_results (results self ++ [result]) self), Py.Ok tt)
    /\ (k <= Z.to_nat max_retries)%nat
    /\ fetched (trace w') = (fetched (trace w) ++ repeat (absolute_url url) k)%list.
Proof.
  destruct (retry_loop_total lower env delay_range timeout max_retries self
              (absolute_url url) (Z.to_nat max_retries) false 0
              (tick w, prepared_result self url (now env (clock w))))
    as ([w1 r1] & Hloop & _); [right; rewrite Z.sub_0_r; lia|].
  destruct (retry_loop_fetches _ _ _ _ _ _ _ _ _ _ _ _ _ Hloop) as (k & Hk & _ & Hf).
  destruct (scrape_url_appends lower env output_file delay_range timeout max_retries
              url w self w1 r1 Hloop) as (w' & Hrun & Hsave).
  exists w', r1, k. split; [exact Hrun|]. split; [now rewrite Z.sub_0_r in Hk|].
  rewrite Hsave. exact Hf.
Qed.

(** ** Page loads that time out, on the browser path *)




Lemma update_status info : forall r,
  Result.status (Result.update info r) = Result.status r.
Proof.
  unfold Result.update. induction info as [|x info IH]; intros r; cbn [fold_left];
    [reflexivity|].
  rewrite IH. unfold Result.setitem.
  repeat match goal with |- context [if ?b then _ else _] => destruct b end; reflexivity.
Qed.

(** Before the first attempt the status is the error status of the mode. *)
Lemma prepared_result_status self url timestamp :
  Result.status (prepared_result self url timestamp)
  = if String.eqb (method self) "requests" then "エラー" else "ERROR".
Proof.
  unfold prepared_result.
  destruct (_extract_product_info_from_url (absolute_url url)); [reflexivity|].
  now rewrite update_status.
Qed.



(** ** What fetching and extracting never change in a record *)

Section ResultInvariant.

Variable IR : Result.t -> Result.t -> Prop.
Hypothesis IR_refl : forall r, IR r r.
Hypothesis IR_trans : forall a b c, IR a b -> IR b c -> IR a c.
Hypothesis IR_title : forall v r, IR r (Result.set_title v r).
Hypothesis IR_price : forall v r, IR r (Result.set_price v r).
Hypothesis IR_availability : forall v r, IR r (Result.set_availability v r).

Ltac result_leaf :=
  apply preserves_modify; intro;
  first [ apply IR_title | apply IR_price | apply IR_availability ].

Lemma read_json_ld_kept script : preserves IR (read_json_ld script).
Proof. unfold read_json_ld. repeat preserves_step; result_leaf. Qed.

Lemma extract_product_details_kept soup : preserves IR (_extract_product_details soup).
Proof.
  unfold _extract_product_details.
  repeat preserves_step; first [apply read_json_ld_kept | result_leaf].
Qed.

Lemma for_scripts_kept scripts : preserves IR (for_scripts scripts).
Proof.
  induction scripts as [|s l IH]; cbn [for_scripts].
  - preserves_step.
  - preserves_step; [apply read_json_ld_kept | exact IH].
Qed.

Lemma read_page_kept lower soup :
  requests_statuses_kept IR -> preserves IR (read_page lower soup).
Proof.
  intros Hst. unfold read_page.
  repeat preserves_step;
    first [ apply extract_product_details_kept
          | result_leaf
          | apply preserves_modify; intro; apply Hst; cbn; tauto ].
Qed.

Lemma requests_except_kept e :
  requests_statuses_kept IR -> preserves IR (requests_except e).
Proof.
  intros Hst. unfold requests_except.
  repeat preserves_step;
    first [ result_leaf | apply preserves_modify; intro; apply Hst; cbn; tauto ].
Qed.

Lemma read_dom_kept dom : success_kept IR -> preserves IR (read_dom dom).
Proof.
  intros Hst. unfold read_dom.
  repeat preserves_step;
    first [ apply for_scripts_kept | result_leaf | apply preserves_modify; intro; apply Hst ].
Qed.

Lemma on_result_refl s : on_result IR s s.
Proof. apply IR_refl. Qed.

Lemma on_result_trans a b c : on_result IR a b -> on_result IR b c -> on_result IR a c.
Proof. apply IR_trans. Qed.

#[local] Hint Resolve on_result_refl on_result_trans : crawler.

Lemma in_result_kept {A} (c : Py.M Result.t A) :
  preserves IR c -> preserves (on_result IR) (in_result c).
Proof.
  intros Hc [w r] s' o H. unfold in_result, Py.zoom in H. cbn [fst snd] in H.
  destruct (c r) as [r' o'] eqn:E. injection H as <- _. exact (Hc _ _ _ E).
Qed.

Lemma in_world_kept {A} (c : Py.M world A) : preserves (on_result IR) (in_world c).
Proof.
  intros [w r] s' o H. unfold in_world, Py.zoom in H. cbn [fst snd] in H.
  destruct (c w). injection H as <- _. apply IR_refl.
Qed.

Ltac state_leaf :=
  first [ apply in_world_kept
        | apply in_result_kept;
          first [ result_leaf | apply preserves_read; apply IR_refl ] ].

Lemma on_exception_kept env max_retries retry_count e :
  preserves (on_result IR) (on_exception env max_retries retry_count e).
Proof. unfold on_exception. repeat preserves_step; state_leaf. Qed.

Lemma scrape_with_requests_kept lower env self url timeout :
  requests_statuses_kept IR ->
  preserves (on_result IR) (_scrape_with_requests lower env self url timeout).
Proof.
  intros Hst. unfold _scrape_with_requests.
  repeat preserves_step;
    first [ apply in_world_kept
          | apply in_result_kept;
            first [ now apply read_page_kept | now apply requests_except_kept ] ].
Qed.

Lemma scrape_with_selenium_kept env self url timeout :
  success_kept IR ->
  preserves (on_result IR) (_scrape_with_selenium env self url timeout).
Proof.
  intros Hst. unfold _scrape_with_selenium.
  repeat preserves_step;
    first [ apply in_world_kept | apply in_result_kept; now apply read_dom_kept ].
Qed.

Lemma attempt_kept lower env delay_range timeout self url :
  (if String.eqb (method self) "selenium" then success_kept IR else requests_statuses_kept IR) ->
  preserves (on_result IR) (attempt lower env delay_range timeout self url).
Proof.
  intros Hst. unfold attempt.
  preserves_step; [apply in_world_kept|].
  preserves_step; [apply in_world_kept|].
  destruct (String.eqb (method self) "selenium");
    [now apply scrape_with_selenium_kept | now apply scrape_with_requests_kept].
Qed.

(** The record a URL ends with is related by [IR] to the record it had
    before the first attempt. *)
Lemma scrape_url_kept lower env output_file delay_range timeout max_retries url w self :
  (if String.eqb (method self) "selenium" then success_kept IR else requests_statuses_kept IR) ->
  exists w' result,
    scrape_url lower env output_file delay_range timeout max_retries url (w, self)
    = Some ((w', set_results (results self ++ [result]) self), Py.Ok tt)
    /\ IR (prepared_result self url (now env (clock w))) result.
Proof.
  intros Hst.
  destruct (retry_loop_total lower env delay_range timeout max_retries self
              (absolute_url url) (Z.to_nat max_retries) false 0
              (tick w, prepared_result self url (now env (clock w))))
    as ([w1 r1] & Hloop & _); [right; rewrite Z.sub_0_r; lia|].
  pose proof (retry_loop_invariant lower env delay_range timeout max_retries self
                (absolute_url url) (on_result IR) on_result_refl on_result_trans
                (attempt_kept lower env delay_range timeout self (absolute_url url) Hst)
                (on_exception_kept env max_retries) _ _ _ _ _ _ Hloop) as Hinv.
  destruct (scrape_url_appends lower env output_file delay_range timeout max_retries
              url w self w1 r1 Hloop) as (w' & Hrun & _).
  exists w', r1. split; [exact Hrun | exact Hinv].
Qed.

End ResultInvariant.

Lemma update_identity_fields info : forall r,
  Result.url (Result.update info r) = Result.url r
  /\ Result.timestamp (Result.update info r) = Result.timestamp r.
Proof.
  unfold Result.update. induction info as [|x info IH]; intros r; cbn [fold_left];
    [auto|].
  destruct (IH (Result.setitem (fst x) (snd x) r)) as [-> ->]. unfold Result.setitem.
  repeat match goal with |- context [if ?b then _ else _] => destruct b end; auto.
Qed.

(** X3: the fields that say which URL a record belongs to are fixed before
    the first attempt and no fetch, extraction or error handler changes them:
    the record ends with the URL as the list gave it, the time its work
    began, and the category, product id and colour that
    [_extract_product_info_from_url] found in the normalised URL (all three
    empty when it found nothing). *)
Theorem record_identity_is_fixed_before_fetching
    lower env output_file delay_range timeout max_retries url w self :
  exists w' result,
    scrape_url lower env output_file delay_range timeout max_retries url (w, self)
    = Some ((w', set_results (results self ++ [result]) self), Py.Ok tt)
    /\ Result.url result = url
    /\ Result.timestamp result = now env (clock w)
    /\ (_extract_product_info_from_url (absolute_url url) = [] ->
        Result.category result = "" /\ Result.product_id result = ""
        /\ Result.color result = "")
    /\ (forall c p k,
          _extract_product_info_from_url (absolute_url url)
          = [("category", c); ("product_id", p); ("color", k)] ->
          Result.category result = c /\ Result.product_id result = p
          /\ Result.color result = k).
Proof.
  destruct (scrape_url_kept same_identity) with (lower := lower) (env := env)
    (output_file := output_file) (delay_range := delay_range) (timeout := timeout)
    (max_retries := max_retries) (url := url) (w := w) (self := self)
    as (w' & result & Hrun & Hid);
    try (unfold same_identity; intros; reflexivity).
  - unfold same_identity. intros; congruence.
  - destruct (String.eqb (method self) "selenium"); intros v; intros; reflexivity.
  - exists w', result. split; [exact Hrun|].
    unfold same_identity, identity in Hid.
    injection Hid as Hu Ht Hc Hp Hk.
    assert (Hprep := update_identity_fields
                       (_extract_product_info_from_url (absolute_url url))
                       (new_result self url (now env (clock w)))).
    unfold prepared_result in *.
    destruct (_extract_product_info_from_url (absolute_url url)) as [|kv info] eqn:Hinfo.
    + cbn in Hu, Ht, Hc, Hp, Hk. repeat split; try congruence; try discriminate.
    + destruct Hprep as [Hpu Hpt].
      split; [rewrite Hu, Hpu; reflexivity|].
      split; [rewrite Ht, Hpt; reflexivity|].
      split; [discriminate|].
      intros c p k Heq. rewrite Heq in Hc, Hp, Hk. cbn in Hc, Hp, Hk. auto.
Qed.

(** X4: a record's status always ends in the vocabulary of its instance's
    mode: the browser path knows [ERROR] and [SUCCESS] only, the [requests]
    path its error status and the four statuses [_scrape_with_requests]
    writes. *)
Theorem status_ends_in_the_vocabulary
    lower env output_file delay_range timeout max_retries url w self :
  exists w' result,
    scrape_url lower env output_file delay_range timeout max_retries url (w, self)
    = Some ((w', set_results (results self ++ [result]) self), Py.Ok tt)
    /\ In (Result.status result) (status_vocabulary self).
Proof.
  destruct (scrape_url_kept (status_within (status_vocabulary self))) with (lower := lower)
    (env := env) (output_file := output_file) (delay_range := delay_range)
    (timeout := timeout) (max_retries := max_retries) (url := url) (w := w) (self := self)
    as (w' & result & Hrun & Hin);
    try (unfold status_within; intros; assumption).
  - unfold status_within. auto.
  - unfold status_vocabulary.
    destruct (String.eqb (method self) "selenium").
    + intros r _. cbn. auto.
    + intros v r Hv _. cbn [Result.status Result.set_status]. now right.
  - exists w', result. split; [exact Hrun|]. apply Hin.
    rewrite prepared_result_status. unfold status_vocabulary.
    destruct (String.eqb (method self) "selenium") eqn:Hs.
    + apply String.eqb_eq in Hs. rewrite Hs. cbn. auto.
    + now left.
Qed.

(** ** What JSON-LD may fill in *)

Lemma preserves_bind_read {S B} (I : S -> S -> Prop) (k : S -> Py.M S B) :
  (forall s s' o, k s s = (s', o) -> I s s') -> preserves I (Py.bind Py.read k).
Proof. intros H s s' o E. unfold Py.bind, Py.read in E. eauto. Qed.

Lemma filled_kept_refl r : filled_kept r r.
Proof. split; reflexivity. Qed.

Lemma filled_kept_trans a b c : filled_kept a b -> filled_kept b c -> filled_kept a c.
Proof.
  intros [Hp Ha] [Hp' Ha']. split; intros H.
  - rewrite <- (Hp H). apply Hp'. now rewrite (Hp H).
  - rewrite <- (Ha H). apply Ha'. now rewrite (Ha H).
Qed.

#[local] Hint Resolve filled_kept_refl filled_kept_trans : crawler.

Lemma read_json_ld_filled_kept script : preserves filled_kept (read_json_ld script).
Proof.
  unfold read_json_ld.
  repeat first
    [ match goal with
      | |- preserves _ (Py.bind Py.read _) =>
          apply preserves_bind_read; intros result s' o
      end
    | preserves_step ].
  - destruct (negb (Py.truthy (Result.price result))) eqn:Hp; cbn [andb].
    + destruct (Py.contains_key "offers" a0).
      * unfold Py.bind, Py.lift, Py.modify.
        destruct (Py.getitem a0 "offers") as [offers|e]; [|intros [= <- _]; auto with crawler].
        destruct (Py.get offers "price" (Py.VStr "")) as [p|e];
          intros [= <- _]; auto with crawler.
        split; cbn; [|reflexivity].
        intros Ht. rewrite Ht in Hp. discriminate.
      * intros [= <- _]. auto with crawler.
    + intros [= <- _]. auto with crawler.
  - destruct (negb (PyStr.truthy (Result.availability result))) eqn:Hp; cbn [andb].
    + destruct (Py.contains_key "offers" a0).
      * unfold Py.bind, Py.lift, Py.modify.
        destruct (Py.getitem a0 "offers") as [offers|e]; [|intros [= <- _]; auto with crawler].
        destruct (Py.get offers "availability" (Py.VStr "")) as [av|e];
          [|intros [= <- _]; auto with crawler].
        destruct (Py.truthy av); [|intros [= <- _]; auto with crawler].
        destruct (availability_label av) as [[]|e];
          intros [= <- _]; auto with crawler.
        split; cbn; [reflexivity|].
        intros Ht. rewrite Ht in Hp. discriminate.
      * intros [= <- _]. auto with crawler.
    + intros [= <- _]. auto with crawler.
Qed.

Lemma for_scripts_filled_kept scripts : preserves filled_kept (for_scripts scripts).
Proof.
  induction scripts as [|s l IH]; cbn [for_scripts].
  - preserves_step.
  - preserves_step; [apply read_json_ld_filled_kept | exact IH].
Qed.

(** What the extraction leaves in the two fields, by what the page has. *)
Lemma extract_product_details_fields soup r r' :
  _extract_product_details soup r = (r', Py.Ok tt) ->
  (forall text, soup_price soup = Some text -> PyStr.strip text <> "" ->
   Result.price r' = Py.VStr (PyStr.strip text))
  /\ (forall text, soup_availability soup = Some text -> PyStr.strip text <> "" ->
      Result.availability r' = PyStr.strip text)
  /\ (soup_price soup = None -> Py.truthy (Result.price r) = true ->
      Result.price r' = Result.price r)
  /\ (soup_availability soup = None -> PyStr.truthy (Result.availability r) = true ->
      Result.availability r' = Result.availability r).
Proof.
  unfold _extract_product_details, Py.try_except, Py.bind.
  set (r1 := fst (match soup_price soup with
                  | Some text => Py.modify (Result.set_price (Py.VStr (PyStr.strip text)))
                  | None => Py.ret tt
                  end r)).
  set (r2 := fst (match soup_availability soup with
                  | Some text => Py.modify (Result.set_availability (PyStr.strip text))
                  | None => Py.ret tt
                  end r1)).
  assert (Hkept : forall o, match soup_json_ld soup with
                            | Some json_ld => read_json_ld json_ld
                            | None => Py.ret tt
                            end r2 = (r', o) -> filled_kept r2 r').
  { intros o. destruct (soup_json_ld soup) as [json_ld|].
    - apply read_json_ld_filled_kept.
    - intros [= <- _]. apply filled_kept_refl. }
  intros Hrun.
  assert (H2 : filled_kept r2 r').
  { revert Hrun. subst r1 r2.
    destruct (soup_price soup), (soup_availability soup); cbn [fst Py.modify Py.ret] in *;
      match goal with
      | |- context [match ?c ?s with _ => _ end] => destruct (c s) as [s1 [[]|e]] eqn:E
      end; intros [= <-]; eapply Hkept; reflexivity. }
  clear Hrun Hkept. destruct H2 as [Hp Ha]. subst r1 r2.
  assert (Hne : forall s, s <> "" -> PyStr.truthy s = true).
  { intros s Hs. unfold PyStr.truthy. destruct (String.eqb_spec s ""); [contradiction|reflexivity]. }
  repeat split.
  - intros text Hs Hn. rewrite Hs in *.
    destruct (soup_availability soup); cbn in *; apply Hp; cbn; auto.
  - intros text Hs Hn. rewrite Hs in *.
    destruct (soup_price soup); cbn in *; apply Ha; cbn; auto.
  - intros Hs Ht. rewrite Hs in *.
    destruct (soup_availability soup); cbn in *; apply Hp; cbn; auto.
  - intros Hs Ht. rewrite Hs in *.
    destruct (soup_price soup); cbn in *; apply Ha; cbn; auto.
Qed.

(** X5: what the page's own elements say wins over JSON-LD.  The extraction
    never raises; a price or an availability element whose text is not blank
    decides the field, whatever the JSON-LD of the page offers; and where the
    element is absent, JSON-LD fills the field only if the record has nothing
    there yet. *)
Theorem element_text_wins_over_json_ld soup r :
  exists r',
    _extract_product_details soup r = (r', Py.Ok tt)
    /\ (forall text, soup_price soup = Some text -> PyStr.strip text <> "" ->
        Result.price r' = Py.VStr (PyStr.strip text))
    /\ (forall text, soup_availability soup = Some text -> PyStr.strip text <> "" ->
        Result.availability r' = PyStr.strip text)
    /\ (soup_price soup = None -> Py.truthy (Result.price r) = true ->
        Result.price r' = Result.price r)
    /\ (soup_availability soup = None -> PyStr.truthy (Result.availability r) = true ->
        Result.availability r' = Result.availability r).
Proof.
  destruct (extract_product_details_ok soup r) as (r' & Hrun).
  exists r'. split; [exact Hrun|].
  now apply extract_product_details_fields.
Qed.

(** ** What the browser path reads from a page *)

Lemma same_heading_refl r : same_heading r r.
Proof. split; reflexivity. Qed.

Lemma same_heading_trans a b c : same_heading a b -> same_heading b c -> same_heading a c.
Proof. unfold same_heading. intros [] []. split; congruence. Qed.

#[local] Hint Resolve same_heading_refl same_heading_trans : crawler.

Lemma read_json_ld_same_heading script : preserves same_heading (read_json_ld script).
Proof.
  unfold read_json_ld.
  repeat preserves_step; apply preserves_modify; intro; split; reflexivity.
Qed.

Lemma for_scripts_same_heading scripts : preserves same_heading (for_scripts scripts).
Proof.
  induction scripts as [|s l IH]; cbn [for_scripts].
  - preserves_step.
  - preserves_step; [apply read_json_ld_same_heading | exact IH].
Qed.



(** X6: on the browser path the details are read in one [try] block, so the
    first element that is missing ends the extraction.  A page without a
    price element leaves price and availability as they were, whatever
    availability element or JSON-LD it has; a page with a price but without
    an availability element gets its price and nothing from JSON-LD.  Only a
    page that has both elements has its JSON-LD read, and then element texts
    that are not blank stay.  The title and the status are those of a loaded
    page in every case, and nothing is raised. *)
Theorem browser_extraction_ends_at_the_first_missing_element dom r :
  exists r',
    read_dom dom r = (r', Py.Ok tt)
    /\ Result.title r' = dom_title dom
    /\ Result.status r' = "SUCCESS"
    /\ (dom_price dom = None ->
        Result.price r' = Result.price r
        /\ Result.availability r' = Result.availability r)
    /\ (forall p, dom_price dom = Some p -> dom_availability dom = None ->
        Result.price r' = Py.VStr (PyStr.strip p)
        /\ Result.availability r' = Result.availability r)
    /\ (forall p a, dom_price dom = Some p -> dom_availability dom = Some a ->
        (PyStr.strip p <> "" -> Result.price r' = Py.VStr (PyStr.strip p))
        /\ (PyStr.strip a <> "" -> Result.availability r' = PyStr.strip a)).
Proof.
  unfold read_dom, Py.bind, Py.modify, Py.try_except, Py.lift, find_element.
  destruct (dom_price dom) as [p|]; cbn [fst snd].
  2: { eexists. split; [reflexivity|]. repeat split; intros; try discriminate; reflexivity. }
  destruct (dom_availability dom) as [a|]; cbn [fst snd].
  2: { eexists. split; [reflexivity|]. repeat split; intros; try discriminate;
       match goal with H : Some _ = Some _ |- _ => injection H as <- end; reflexivity. }
  set (r2 := Result.set_availability (PyStr.strip a)
               (Result.set_price (Py.VStr (PyStr.strip p))
                  (Result.set_status "SUCCESS" (Result.set_title (dom_title dom) r)))).
  destruct (for_scripts (dom_json_ld dom) r2) as [r' o] eqn:E.
  assert (Hh := for_scripts_same_heading _ _ _ _ E).
  assert (Hk := for_scripts_filled_kept _ _ _ _ E).
  destruct Hh as [Ht Hs]. destruct Hk as [Hp Ha].
  assert (Hne : forall s, s <> "" -> PyStr.truthy s = true).
  { intros s Hs'. unfold PyStr.truthy. destruct (String.eqb_spec s ""); [contradiction|reflexivity]. }
  exists r'. split; [destruct o as [[]|e]; reflexivity|].
  split; [exact Ht|]. split; [exact Hs|].
  split; [discriminate|]. split; [discriminate|].
  intros p0 a0 [= <-] [= <-]. split; intros Hn.
  - apply Hp. cbn. auto.
  - apply Ha. cbn. auto.
Qed.

(** ** Opening and releasing the fetcher *)

Lemma init_cases lower env m h c w :
  exists w' o,
    __init__ lower env m h c w = (w', o)
    /\ trace w' = trace w
    /\ match o with
       | Py.Raise e =>
           Py.cls e = Py.ValueError /\ w' = w
           /\ lower m <> "selenium" /\ lower m <> "requests"
       | Py.Ok self =>
           results self = []
           /\ (lower m = "selenium" \/ lower m = "requests")
           /\ (lower m = "requests" -> method self = "requests")
           /\ ((method self = "selenium" /\ driver self = true /\ session self = false)
               \/ (method self = "requests" /\ driver self = false /\ session self = true))
       end.
Proof.
  unfold __init__.
  destruct (String.eqb_spec (lower m) "selenium") as [Hs|Hs].
  - unfold _setup_selenium. cbn [chromedriver_path].
    match goal with |- context [chrome_starts env (clock w) ?s] =>
      destruct (chrome_starts env (clock w) s) end.
    + eexists _, _. split; [reflexivity|]. split; [reflexivity|].
      split; [reflexivity|]. split; [now left|].
      split; [intros _; reflexivity|]. right; repeat split.
    + eexists _, _. split; [reflexivity|]. split; [reflexivity|].
      cbn [results method driver session]. rewrite Hs.
      split; [reflexivity|]. split; [now left|].
      split; [discriminate|]. left; repeat split.
  - destruct (String.eqb_spec (lower m) "requests") as [Hr|Hr].
    + eexists _, _. split; [reflexivity|]. split; [reflexivity|].
      cbn [results method driver session _setup_requests]. rewrite Hr.
      split; [reflexivity|]. split; [now right|].
      split; [reflexivity|]. right; repeat split.
    + eexists _, _. split; [reflexivity|]. split; [reflexivity|]. repeat split; assumption.
Qed.

Lemma close_releases self w :
  (method self = "selenium" /\ driver self = true)
  \/ (method self = "requests" /\ session self = true) ->
  close self w = (emit (release_of (method self)) w, Py.Ok tt).
Proof.
  unfold close, release_of. intros [(-> & ->)|(-> & ->)]; reflexivity.
Qed.

(** X7: what [AsicsScraper(method, ...)] leaves.  A method name that is
    neither [selenium] nor [requests] once lower-cased raises [ValueError]
    and touches nothing.  Otherwise the new instance has no records and
    exactly the fetcher of the mode it ends in: a driver and no session in
    [selenium] mode, a session and no driver in [requests] mode, which is also
    where a [selenium] request ends when Chrome does not start.  [close] on
    it releases that one fetcher and cannot raise. *)
Theorem a_new_instance_owns_the_fetcher_of_its_mode lower env m h c w :
  exists w' o,
    __init__ lower env m h c w = (w', o)
    /\ trace w' = trace w
    /\ match o with
       | Py.Raise e =>
           Py.cls e = Py.ValueError /\ w' = w
           /\ lower m <> "selenium" /\ lower m <> "requests"
       | Py.Ok self =>
           results self = []
           /\ (lower m = "selenium" \/ lower m = "requests")
           /\ (lower m = "requests" -> method self = "requests")
           /\ ((method self = "selenium" /\ driver self = true /\ session self = false)
               \/ (method self = "requests" /\ driver self = false /\ session self = true))
           /\ close self w' = (emit (release_of (method self)) w', Py.Ok tt)
       end.
Proof.
  destruct (init_cases lower env m h c w) as (w' & o & Hrun & Htr & Ho).
  exists w', o. split; [exact Hrun|]. split; [exact Htr|].
  destruct o as [self|e]; [|exact Ho].
  destruct Ho as (Hfresh & Hm & Hreq & Hmode).
  repeat (split; [assumption|]).
  apply close_releases. tauto.
Qed.

Lemma random_choice_eq env seq w :
  random_choice env seq w
  = (tick w, Py.Ok (nth (Nat.modulo (random_below env (clock w) (length seq)) (length seq))
                        seq "")).
Proof. reflexivity. Qed.

Lemma random_randint_eq env a b w :
  random_randint env a b w
  = (tick w,
     Py.Ok (a + Z.of_nat (Nat.modulo (random_below env (clock w) (Z.to_nat (b - a + 1)))
                                     (Z.to_nat (b - a + 1))))).
Proof. reflexivity. Qed.

Lemma generate_loop_spec env base_url : forall count urls w,
  exists w' new,
    generate_loop env base_url count urls w = (w', Py.Ok (urls ++ new)%list)
    /\ length new = count
    /\ trace w' = trace w.
Proof.
  induction count as [|n IH]; intros urls w.
  - exists w, []. cbn. rewrite app_nil_r. auto.
  - cbn [generate_loop]. unfold Py.bind.
    repeat (first [rewrite random_choice_eq | rewrite random_randint_eq]; cbv beta iota).
    match goal with
    | |- context [generate_loop env base_url n (urls ++ [?u])%list ?w1] =>
        destruct (IH (urls ++ [u])%list w1) as (w' & new & Hrun & Hlen & Htr);
        exists w', (u :: new)
    end.
    rewrite Hrun, <- app_assoc. cbn [app length]. split; [reflexivity|].
    split; [now rewrite Hlen|]. exact Htr.
Qed.

Lemma generate_test_urls_spec env base_url count w :
  exists w' urls,
    generate_test_urls env base_url count w = (w', Py.Ok urls)
    /\ length urls = Z.to_nat count
    /\ trace w' = trace w.
Proof.
  unfold generate_test_urls.
  match goal with
  | |- context [generate_loop env ?b ?n [] w] =>
      destruct (generate_loop_spec env b n [] w) as (w' & new & Hrun & Hlen & Htr)
  end.
  exists w', new. cbn [app] in Hrun. auto.
Qed.

Lemma run_event_not_release timeout urls e : run_event timeout urls e -> is_release e = false.
Proof. destruct e; cbn; tauto. Qed.

Lemma closing_events_not_release output_file self urls df :
  forallb (fun e => negb (is_release e)) (closing_events output_file self urls df) = true.
Proof. unfold closing_events. destruct (output_path output_file); reflexivity. Qed.

Lemma run_events_not_release timeout urls evs :
  Forall (run_event timeout urls) evs -> forallb (fun e => negb (is_release e)) evs = true.
Proof.
  induction 1 as [|e evs He _ IH]; [reflexivity|].
  cbn. now rewrite (run_event_not_release _ _ _ He), IH.
Qed.

(** X8: [main] always comes back, and it gives back what it opened.  The
    method is one of the two words the command line admits, which [str.lower]
    leaves as they are, so no instance is refused.  With no URL to visit
    [main] opens nothing and returns; in every other case the run ends,
    without an error, by exactly one release of the fetcher, that of the mode
    the scraper ended in (the [requests] mode when it was asked for), and the
    scraper holds records. *)
Theorem main_releases_the_fetcher_it_opened lower env args w :
  lower "selenium" = "selenium" ->
  lower "requests" = "requests" ->
  exists w' o,
    main lower env args w = Some (w', Py.Ok o)
    /\ match o with
       | None => trace w' = trace w
       | Some scraper =>
           exists evs,
             trace w' = (trace w ++ evs ++ [release_of (method scraper)])%list
             /\ forallb (fun e => negb (is_release e)) evs = true
             /\ results scraper <> []
             /\ (arg_method args = choose_requests -> method scraper = "requests")
       end.
Proof.
  intros Hsel Hreq. unfold main.
  assert (Hurls : exists w0 urls,
    match arg_input args with
    | Some input =>
        if PyStr.truthy input && path_exists env input
        then (w, Py.Ok (load_urls_from_file env input))
        else generate_test_urls env (arg_base_url args) (arg_count args) w
    | None => generate_test_urls env (arg_base_url args) (arg_count args) w
    end = (w0, Py.Ok urls) /\ trace w0 = trace w).
  { destruct (generate_test_urls_spec env (arg_base_url args) (arg_count args) w)
      as (w0 & urls & Hg & _ & Htr).
    destruct (arg_input args) as [input|];
      [destruct (PyStr.truthy input && path_exists env input)|]; eauto. }
  destruct Hurls as (w0 & urls & -> & Htr0).
  destruct urls as [|u urls]; [eexists _, _; split; [reflexivity | exact Htr0]|].
  destruct (init_cases lower env (method_name (arg_method args))
              (arg_headless args) (arg_chromedriver args) w0)
    as (w1 & o & -> & Htr1 & Ho).
  destruct o as [self|e].
  2: { destruct Ho as (_ & _ & Hns & Hnr).
       destruct (arg_method args); cbn [method_name] in Hns, Hnr; contradiction. }
  destruct Ho as (Hfresh & _ & Hasked & Hmode).
  destruct (scrape_urls_ok lower env (Some (arg_output args))
              (arg_min_delay args, arg_max_delay args) (arg_timeout args) (arg_retries args)
              (u :: urls) w1 self) as (w2 & recs & evs & -> & Hmap & Htr2 & Hev);
    [discriminate|].
  set (scraper := set_results (results self ++ recs) self).
  assert (Hclose : close scraper w2 = (emit (release_of (method scraper)) w2, Py.Ok tt)).
  { apply close_releases. unfold scraper. cbn [method driver session set_results]. tauto. }
  rewrite Hclose.
  eexists _, _. split; [reflexivity|].
  exists (evs ++ closing_events (Some (arg_output args)) self (u :: urls)
                   (results self ++ recs))%list.
  split; [|split; [|split]].
  - unfold emit. cbn [trace]. rewrite Htr2, Htr1, Htr0. now rewrite <- !app_assoc.
  - rewrite forallb_app, (run_events_not_release _ _ _ Hev), closing_events_not_release.
    reflexivity.
  - unfold scraper. cbn [results set_results]. rewrite Hfresh. cbn [app].
    destruct recs; [discriminate|discriminate].
  - intros Hchoice. unfold scraper. cbn [method set_results].
    apply Hasked. rewrite Hchoice. exact Hreq.
Qed.

(** [--input urls.txt] on the [requests] path: the run ends by closing the
    session, once, and leaves the two records of the file. *)
Lemma main_releases_the_fetcher_it_opened_witness :
  let e := Scenario.env (GetResponse 200 Scenario.product_soup)
                        (Loaded Scenario.missing_dom) in
  exists w' scraper evs,
    main Scenario.lower e Scenario.args Scenario.world0 = Some (w', Py.Ok (Some scraper))
    /\ trace w' = (evs ++ [SessionClose])%list
    /\ forallb (fun e => negb (is_release e)) evs = true
    /\ length (results scraper) = 2%nat
    /\ method scraper = "requests".
Proof.
  intro e.
  destruct (main_releases_the_fetcher_it_opened Scenario.lower e Scenario.args
              Scenario.world0) as (w' & o & Hrun & Ho); [reflexivity | reflexivity |].
  assert (Hsome : exists scraper, o = Some scraper /\ length (results scraper) = 2%nat).
  { pose proof Hrun as Hv. vm_compute in Hv. injection Hv as _ <-.
    eexists. split; reflexivity. }
  destruct Hsome as (scraper & -> & Hlen).
  destruct Ho as (evs & Htr & Hevs & _ & Hmethod).
  specialize (Hmethod eq_refl). rewrite Hmethod in Htr.
  exists w', scraper, evs. auto.
Defined.

(** ** The window's thread *)

Lemma scrape_urls_nothing lower env output_file delay_range timeout max_retries w self :
  results self = [] ->
  exists w',
    scrape_urls lower env output_file delay_range timeout max_retries [] (w, self)
    = Some ((w', self), Py.Raise (Py.Exn Py.KeyError "'status'" None))
    /\ trace w' = (trace w ++ match output_path output_file with
                              | Some path => [ToCsv path []]
                              | None => []
                              end)%list.
Proof.
  intros Hfresh.
  unfold scrape_urls. cbn [for_urls]. unfold summarise, Py.bind, Py.zoom, Py.read.
  cbn [fst snd]. rewrite Hfresh.
  destruct (output_path output_file) as [path|].
  - unfold _save_results. cbn [fst snd]. rewrite Hfresh.
    eexists. split; [reflexivity|]. reflexivity.
  - eexists. split; [reflexivity|]. cbn. now rewrite app_nil_r.
Qed.

Lemma thread_run_finished lower env urls settings w :
  urls <> [] ->
  lower (ScraperThread.method settings) = "selenium"
  \/ lower (ScraperThread.method settings) = "requests" ->
  exists w', ScraperThread.run lower env urls settings w = Some (w', ScraperThread.finished).
Proof.
  intros Hne Hm. unfold ScraperThread.run.
  destruct (init_ok lower env (ScraperThread.method settings) true
              (ScraperThread.chromedriver settings) w) as (w0 & self & -> & _ & _); [tauto|].
  destruct (scrape_urls_ok lower env (Some (ScraperThread.output_file settings))
              (ScraperThread.min_delay settings, ScraperThread.max_delay settings)
              (ScraperThread.timeout settings) (ScraperThread.retries settings)
              urls w0 self Hne) as (w1 & recs & evs & -> & _).
  eauto.
Qed.

(** X9: the thread of the window.  [run] always ends with one of its two
    signals; it is [finished] exactly when the list of URLs is not empty and
    the method is one of the two known ones, and for an empty list the text
    of the [error] signal is the missing column, ['status']; and, unlike
    [main], it never gives the fetcher back: no [driver.quit()] and no
    [session.close()] happens in it, however it ends. *)
Theorem the_window_thread_never_releases_its_fetcher lower env urls settings w :
  exists w' s evs,
    ScraperThread.run lower env urls settings w = Some (w', s)
    /\ trace w' = (trace w ++ evs)%list
    /\ forallb (fun e => negb (is_release e)) evs = true
    /\ (s = ScraperThread.finished
        <-> urls <> []
            /\ (lower (ScraperThread.method settings) = "selenium"
                \/ lower (ScraperThread.method settings) = "requests"))
    /\ (urls = [] ->
        lower (ScraperThread.method settings) = "selenium"
        \/ lower (ScraperThread.method settings) = "requests" ->
        s = ScraperThread.error "'status'").
Proof.
  unfold ScraperThread.run.
  destruct (init_cases lower env (ScraperThread.method settings) true
              (ScraperThread.chromedriver settings) w) as (w0 & o & -> & Htr0 & Ho).
  destruct o as [self|e].
  2: { exists w0, (ScraperThread.error (Py.msg e)), []. split; [reflexivity|].
       split; [now rewrite app_nil_r|]. split; [reflexivity|].
       destruct Ho as (_ & _ & Hs & Hr). split; [split; [discriminate | tauto] | tauto]. }
  destruct Ho as (Hfresh & Hm & _ & _).
  destruct urls as [|u urls].
  - destruct (scrape_urls_nothing lower env (Some (ScraperThread.output_file settings))
                (ScraperThread.min_delay settings, ScraperThread.max_delay settings)
                (ScraperThread.timeout settings) (ScraperThread.retries settings)
                w0 self Hfresh) as (w1 & -> & Htr1).
    eexists w1, _, _. split; [reflexivity|]. split; [rewrite Htr1, Htr0; reflexivity|].
    split; [destruct (output_path _); reflexivity|].
    split; [split; [discriminate | intros [[] _]; reflexivity] | reflexivity].
  - destruct (scrape_urls_ok lower env (Some (ScraperThread.output_file settings))
                (ScraperThread.min_delay settings, ScraperThread.max_delay settings)
                (ScraperThread.timeout settings) (ScraperThread.retries settings)
                (u :: urls) w0 self) as (w1 & recs & evs & -> & _ & Htr1 & Hev);
      [discriminate|].
    eexists w1, _, _. split; [reflexivity|].
    split; [rewrite Htr1, Htr0; reflexivity|].
    split.
    + rewrite forallb_app, (run_events_not_release _ _ _ Hev), closing_events_not_release.
      reflexivity.
    + split; [|discriminate].
      split; [intros _; split; [discriminate | exact Hm] | reflexivity].
Qed.

(** X10: a run started from the window cannot end with the [error] signal.
    With the values the widgets allow, and a [lower] that leaves the two
    method names of the combo box as they are, [start_scraping] either warns
    that there is no URL, which happens only for an input file that exists
    and from which no URL is read, or its thread ends with [finished]. *)
Theorem a_run_from_the_window_ends_with_finished lower env window w :
  lower "requests" = "requests" ->
  lower "selenium" = "selenium" ->
  MainWindow.in_range window ->
  exists w' o,
    MainWindow.start_scraping lower env window w = Some (w', Py.Ok o)
    /\ (o = None \/ o = Some ScraperThread.finished)
    /\ (o = None ->
        PyStr.truthy (MainWindow.input_file window) = true
        /\ path_exists env (MainWindow.input_file window) = true
        /\ load_urls_from_file env (MainWindow.input_file window) = []).
Proof.
  intros Hreq Hsel (Hmethod & _ & _ & _ & _ & _ & _ & Hcount).
  assert (Hm : lower (MainWindow.method_combo window) = "selenium"
               \/ lower (MainWindow.method_combo window) = "requests").
  { destruct Hmethod as [<-|[<-|[]]]; auto. }
  assert (Hthread : forall u urls w0,
    exists w', ScraperThread.run lower env (u :: urls) (MainWindow.settings window) w0
               = Some (w', ScraperThread.finished)).
  { intros u urls w0. apply thread_run_finished; [discriminate | exact Hm]. }
  unfold MainWindow.start_scraping.
  destruct (PyStr.truthy (MainWindow.input_file window)
            && path_exists env (MainWindow.input_file window)) eqn:Hfile.
  - apply andb_true_iff in Hfile as [Ht Hp].
    destruct (load_urls_from_file env (MainWindow.input_file window)) as [|u urls] eqn:Hload.
    + eexists _, _. split; [reflexivity|]. split; [now left|]. auto.
    + destruct (Hthread u urls w) as (w' & ->).
      eexists _, _. split; [reflexivity|]. split; [now right | discriminate].
  - destruct (generate_test_urls_spec env "https://www.asics.com"
                (MainWindow.url_count window) w) as (w0 & urls & -> & Hlen & _).
    destruct urls as [|u urls]; [cbn in Hlen; lia|].
    destruct (Hthread u urls w0) as (w' & ->).
    eexists _, _. split; [reflexivity|]. split; [now right | discriminate].
Qed.

Lemma a_run_from_the_window_ends_with_finished_witness :
  let e := Scenario.env (GetRaises Scenario.timed_out) (Loaded Scenario.missing_dom) in
  let window :=
    {| MainWindow.method_combo := "selenium"; MainWindow.min_delay := 2;
       MainWindow.max_delay := 5; MainWindow.timeout := 30; MainWindow.retries := 3;
       MainWindow.url_count := 100; MainWindow.input_file := "urls.txt";
       MainWindow.output_file := "asics_results.csv" |} in
  exists w' o,
    MainWindow.start_scraping Scenario.lower e window Scenario.world0 = Some (w', Py.Ok o)
    /\ (o = None \/ o = Some ScraperThread.finished)
    /\ (o = None ->
        PyStr.truthy (MainWindow.input_file window) = true
        /\ path_exists e (MainWindow.input_file window) = true
        /\ load_urls_from_file e (MainWindow.input_file window) = []).
Proof.
  intros e window.
  apply (a_run_from_the_window_ends_with_finished Scenario.lower e window Scenario.world0).
  - reflexivity.
  - reflexivity.
  - unfold MainWindow.in_range, window. cbn.
    repeat split; try lia; try (unfold Qle; cbn; lia). right. now left.
Defined.

(** ** The URLs that are fetched *)

Lemma absolute_url_has_scheme url : has_scheme (absolute_url url) = true.
Proof.
  unfold absolute_url.
  destruct (PyStr.startswith url "http://" || PyStr.startswith url "https://") eqn:H;
    cbn [negb]; [exact H|].
  reflexivity.
Qed.

(** X11: every fetch of a run is of a URL of the list, made absolute.  A
    URL that starts with [http://] or [https://] is fetched as it is; any
    other one is fetched as [https://www.asics.com] followed by the URL, with
    a [/] put between the two when the URL does not start with one.  Nothing
    else is ever fetched. *)
Theorem every_fetch_is_of_an_absolute_url
    lower env output_file delay_range timeout max_retries urls w self :
  urls <> [] ->
  exists w' self' df fetches,
    scrape_urls lower env output_file delay_range timeout max_retries urls (w, self)
    = Some ((w', self'), Py.Ok df)
    /\ fetched (trace w') = (fetched (trace w) ++ fetches)%list
    /\ Forall (fun u =>
                 (PyStr.is_prefix "http://" u = true \/ PyStr.is_prefix "https://" u = true)
                 /\ exists url,
                      In url urls
                      /\ u = if PyStr.is_prefix "http://" url || PyStr.is_prefix "https://" url
                             then url
                             else if PyStr.is_prefix "/" url
                                  then "https://www.asics.com" ++ url
                                  else "https://www.asics.com/" ++ url) fetches.
Proof.
  intros Hne.
  destruct (scrape_urls_ok lower env output_file delay_range timeout max_retries
              urls w self Hne) as (w' & recs & evs & Hrun & _ & Htr & Hev).
  exists w', (set_results (results self ++ recs) self), (results self ++ recs)%list,
         (fetched evs).
  split; [exact Hrun|]. split.
  - rewrite Htr, !fetched_app, fetched_closing_events. now rewrite app_nil_r.
  - apply fetched_run_events in Hev. eapply Forall_impl; [|exact Hev].
    intros u Hu. apply in_map_iff in Hu as (url & <- & Hin).
    split.
    + assert (H := absolute_url_has_scheme url). unfold has_scheme, PyStr.startswith in H.
      now apply orb_true_iff in H.
    + exists url. split; [exact Hin|].
      unfold absolute_url, PyStr.startswith.
      destruct (PyStr.is_prefix "http://" url || PyStr.is_prefix "https://" url);
        cbn [negb]; [reflexivity|].
      destruct (PyStr.is_prefix "/" url); reflexivity.
Qed.

Lemma every_fetch_is_of_an_absolute_url_witness :
  let e := Scenario.env (GetResponse 200 Scenario.product_soup)
                        (Loaded Scenario.missing_dom) in
  let urls := ["/jp/ja-jp/running/p/1011A100-200.html"; "http://store.example/x";
               "jp/ja-jp/sale"] in
  exists w' self' df,
    scrape_urls Scenario.lower e None (3 # 2, 4 # 1)%Q 30 3 urls
      (Scenario.world0, Scenario.scraper "requests")
    = Some ((w', self'), Py.Ok df)
    /\ fetched (trace w')
       = ["https://www.asics.com/jp/ja-jp/running/p/1011A100-200.html";
          "http://store.example/x";
          "https://www.asics.com/jp/ja-jp/sale"].
Proof.
  intros e urls.
  destruct (every_fetch_is_of_an_absolute_url Scenario.lower e None (3 # 2, 4 # 1)%Q 30 3
              urls Scenario.world0 (Scenario.scraper "requests"))
    as (w' & self' & df & fetches & Hrun & _); [discriminate|].
  exists w', self', df. split; [exact Hrun|].
  vm_compute in Hrun. injection Hrun as <- _ _. reflexivity.
Defined.

(** ** The [requests] path never retries *)



(** ** The input file *)

Lemma keep_urls_filter : forall file_lines urls,
  keep_urls file_lines urls
  = (urls ++ filter is_url_line (map PyStr.strip file_lines))%list.
Proof.
  induction file_lines as [|line file_lines IH]; intros urls; cbn [keep_urls map filter].
  - now rewrite app_nil_r.
  - fold (is_url_line (PyStr.strip line)).
    destruct (is_url_line (PyStr.strip line)); rewrite IH; [|reflexivity].
    now rewrite <- app_assoc.
Qed.

(** X13: what [load_urls_from_file] returns, which is always a list.  A
    file that cannot be opened gives the empty list.  Otherwise the list
    holds, in the order of the file and with repetitions kept, the stripped
    text of every line read that is neither blank nor, once stripped, starts
    with [#]: of every line of the file when it is read to its end, and of
    the lines read before the error when reading raises on the way.  So no
    URL in the list is empty or a comment. *)
Theorem load_urls_keeps_the_url_lines_in_order env file_path :
  load_urls_from_file env file_path
  = match files env file_path with
    | None => []
    | Some text =>
        filter is_url_line
          (map PyStr.strip
             match read_error env file_path with
             | None => PyStr.lines text
             | Some (n, _) => firstn n (PyStr.lines text)
             end)
    end
  /\ Forall (fun url => url <> "" /\ PyStr.startswith url "#" = false)
       (load_urls_from_file env file_path).
Proof.
  assert (Heq : load_urls_from_file env file_path
                = match files env file_path with
                  | None => []
                  | Some text =>
                      filter is_url_line
                        (map PyStr.strip
                           match read_error env file_path with
                           | None => PyStr.lines text
                           | Some (n, _) => firstn n (PyStr.lines text)
                           end)
                  end).
  { unfold load_urls_from_file, read_urls, Py.try_except.
    destruct (files env file_path) as [text|]; [|reflexivity].
    destruct (read_error env file_path) as [[n e]|].
    - unfold Py.bind, Py.modify, Py.raise, Py.ret. cbn [fst]. now rewrite keep_urls_filter.
    - unfold Py.modify. cbn [fst]. now rewrite keep_urls_filter. }
  split; [exact Heq|]. rewrite Heq.
  destruct (files env file_path) as [text|]; [|constructor].
  apply Forall_forall. intros url Hin. apply filter_In in Hin as [_ Hurl].
  unfold is_url_line in Hurl. apply andb_true_iff in Hurl as [Ht Hc].
  split.
  - intros ->. discriminate.
  - now apply negb_true_iff.
Qed.

(** ** What is written to the output file *)

Lemma saved_app a b : saved (a ++ b) = (saved a ++ saved b)%list.
Proof. apply flat_map_app. Qed.

Lemma saved_attempt_events url timeout evs :
  Forall (attempt_event url timeout) evs -> saved evs = [].
Proof.
  induction 1 as [|e evs He _ IH]; [reflexivity|].
  unfold saved in *. cbn [flat_map]. rewrite IH.
  destruct e; cbn in He |- *; solve [reflexivity | contradiction].
Qed.

Lemma scrape_url_saved lower env output_file delay_range timeout max_retries url w self :
  exists w' result,
    scrape_url lower env output_file delay_range timeout max_retries url (w, self)
    = Some ((w', set_results (results self ++ [result]) self), Py.Ok tt)
    /\ saved (trace w')
       = (saved (trace w)
          ++ match output_path output_file with
             | Some path =>
                 if Z.of_nat (S (length (results self))) mod 10 =? 0
                 then [(path, (results self ++ [result])%list)]
                 else []
             | None => []
             end)%list.
Proof.
  unfold scrape_url.
  destruct (retry_loop_total lower env delay_range timeout max_retries self (absolute_url url)
              (Z.to_nat max_retries) false 0
              (tick w, prepared_result self url (now env (clock w))))
    as ([w1 r1] & Hloop & [[evs [Htr Hev]] _]); [right; rewrite Z.sub_0_r; lia|].
  rewrite Hloop. cbn [fst snd tick trace] in Htr.
  assert (Hsaved : saved (trace w1) = saved (trace w)).
  { rewrite Htr, saved_app, (saved_attempt_events _ _ _ Hev). now rewrite app_nil_r. }
  assert (Hlen : length (results (set_results (results self ++ [r1]) self))
                 = S (length (results self))).
  { cbn [results set_results]. rewrite length_app. cbn. lia. }
  rewrite Hlen.
  destruct (output_path output_file) as [path|].
  - destruct (Z.of_nat (S (length (results self))) mod 10 =? 0).
    + unfold _save_results. cbn [fst snd results set_results].
      eexists _, r1. split; [reflexivity|].
      unfold emit. cbn [trace]. rewrite saved_app, Hsaved. reflexivity.
    + exists w1, r1. split; [reflexivity|]. now rewrite app_nil_r.
  - exists w1, r1. split; [reflexivity|]. now rewrite app_nil_r.
Qed.

Lemma firstn_all_app {A} (l l' : list A) : firstn (length l) (l ++ l') = l.
Proof. rewrite firstn_app, Nat.sub_diag, firstn_all. cbn. now rewrite app_nil_r. Qed.

Lemma flush_points_firstn {A} (path : string) (l : list A) (x : A) (rest : list A) count :
  map (fun k => (path, firstn k ((l ++ [x]) ++ rest)))
      (flush_points (S (length l)) count)
  = map (fun k => (path, firstn k (l ++ x :: rest))) (flush_points (S (length l)) count).
Proof. now rewrite <- app_assoc. Qed.

Lemma for_urls_saved lower env output_file delay_range timeout max_retries :
  forall urls w self,
  exists w' recs,
    for_urls lower env output_file delay_range timeout max_retries urls (w, self)
    = Some ((w', set_results (results self ++ recs) self), Py.Ok tt)
    /\ length recs = length urls
    /\ saved (trace w')
       = (saved (trace w)
          ++ match output_path output_file with
             | Some path =>
                 map (fun k => (path, firstn k (results self ++ recs)))
                     (flush_points (length (results self)) (length urls))
             | None => []
             end)%list.
Proof.
  induction urls as [|url urls IH]; intros w self.
  - exists w, []. cbn [for_urls length]. rewrite app_nil_r.
    split; [destruct self; reflexivity|]. split; [reflexivity|].
    destruct (output_path output_file); cbn; now rewrite app_nil_r.
  - cbn [for_urls].
    destruct (scrape_url_saved lower env output_file delay_range timeout max_retries
                url w self) as (w1 & r & Hs & Hsv1).
    rewrite Hs. cbv beta iota.
    destruct (IH w1 (set_results (results self ++ [r]) self))
      as (w2 & recs & Hf & Hlen & Hsv2).
    rewrite Hf. cbn [results set_results] in *.
    exists w2, (r :: recs).
    split; [unfold set_results; cbn; now rewrite <- app_assoc|].
    split; [cbn; now rewrite Hlen|].
    rewrite Hsv2, Hsv1, <- app_assoc. f_equal.
    destruct (output_path output_file) as [path|]; [|reflexivity].
    rewrite length_app in *. cbn [length] in *.
    replace (length (results self) + 1)%nat with (S (length (results self))) by lia.
    rewrite flush_points_firstn.
    unfold flush_points at 2. cbn [length seq filter].
    destruct (Z.of_nat (S (length (results self))) mod 10 =? 0); [|reflexivity].
    cbn [map app]. f_equal. f_equal.
    replace (S (length (results self))) with (length (results self ++ [r])%list)
      by (rewrite length_app; cbn; lia).
    change (r :: recs) with ([r] ++ recs)%list. rewrite app_assoc.
    now rewrite firstn_all_app.
Qed.

(** X14: what a run writes to its output file.  While the URLs are
    visited the table is written each time the accumulator reaches a multiple
    of ten records, counted over the whole instance and not over the call;
    each of these writes holds all the records gathered up to then, a prefix
    of the final table; and the last write, after the loop, holds the whole
    table.  Without an output file nothing is written. *)
Theorem every_save_writes_the_records_so_far
    lower env output_file delay_range timeout max_retries urls w self :
  urls <> [] ->
  exists w' recs,
    let df := (results self ++ recs)%list in
    scrape_urls lower env output_file delay_range timeout max_retries urls (w, self)
    = Some ((w', set_results df self), Py.Ok df)
    /\ length recs = length urls
    /\ saved (trace w')
       = (saved (trace w)
          ++ match output_path output_file with
             | Some path =>
                 map (fun k => (path, firstn k df))
                     (flush_points (length (results self)) (length urls))
                 ++ [(path, df)]
             | None => []
             end)%list.
Proof.
  intros Hne. unfold scrape_urls.
  destruct (for_urls_saved lower env output_file delay_range timeout max_retries urls w self)
    as (w1 & recs & Hf & Hlen & Hsv).
  rewrite Hf.
  assert (Hrecs : (results self ++ recs)%list <> []).
  { intros Heq. apply app_eq_nil in Heq as [_ ->]. destruct urls; [contradiction|discriminate]. }
  assert (Hlen0 : (Z.of_nat (length urls) =? 0) = false).
  { apply Z.eqb_neq. destruct urls; [contradiction | simpl; lia]. }
  unfold summarise, Py.bind, Py.zoom, Py.read, _save_results.
  cbn [fst snd results set_results method].
  destruct (results self ++ recs)%list as [|r0 df0] eqn:Hdf; [contradiction|].
  destruct (output_path output_file) as [path|]; cbn [fst snd results set_results method];
    rewrite Hlen0; unfold Py.modify, Py.ret, emit; cbn [fst snd trace clock].
  - eexists _, recs. cbv zeta. rewrite Hdf. split; [reflexivity|]. split; [exact Hlen|].
    cbn [trace]. rewrite !saved_app, Hsv. cbn. now rewrite app_nil_r, <- !app_assoc.
  - eexists _, recs. cbv zeta. rewrite Hdf. split; [reflexivity|]. split; [exact Hlen|].
    cbn [trace]. rewrite !saved_app, Hsv. cbn. now rewrite !app_nil_r.
Qed.

Lemma every_save_writes_the_records_so_far_witness :
  let e := Scenario.env (GetResponse 200 Scenario.product_soup)
                        (Loaded Scenario.missing_dom) in
  let urls := repeat "/jp/ja-jp/running/p/1011A100-200.html" 10 in
  let self := Scenario.scraper "requests" in
  exists w' recs,
    let df := (results self ++ recs)%list in
    scrape_urls Scenario.lower e (Some "out.csv") (3 # 2, 4 # 1)%Q 30 3 urls
      (Scenario.world0, self)
    = Some ((w', set_results df self), Py.Ok df)
    /\ length recs = length urls
    /\ saved (trace w')
       = (saved (trace Scenario.world0)
          ++ match output_path (Some "out.csv") with
             | Some path =>
                 map (fun k => (path, firstn k df))
                     (flush_points (length (results self)) (length urls))
                 ++ [(path, df)]
             | None => []
             end)%list.
Proof.
  intros e urls self.
  apply (every_save_writes_the_records_so_far Scenario.lower e (Some "out.csv")
           (3 # 2, 4 # 1)%Q 30 3 urls Scenario.world0 self).
  discriminate.
Defined.

(** ** A delay window that [time.sleep] refuses *)











(** ** Strings that match a pattern *)

Module ReMatch.
Import Re.

Lemma is_prefix_app l s : PyStr.is_prefix l (l ++ s) = true.
Proof. induction l as [|c l IH]; cbn; [reflexivity|]. now rewrite Ascii.eqb_refl, IH. Qed.

Lemma drop_app l s : PyStr.drop (String.length l) (l ++ s) = s.
Proof. induction l as [|c l IH]; cbn; [now destruct s | exact IH]. Qed.

Lemma take_app l s : PyStr.take (String.length l) (l ++ s) = l.
Proof. induction l as [|c l IH]; cbn; [now destruct s | now rewrite IH]. Qed.

Lemma all_chars_cons f c s :
  PyStr.all_chars f (String c s) = f c && PyStr.all_chars f s.
Proof. reflexivity. Qed.

Lemma all_chars_app f a b :
  PyStr.all_chars f (a ++ b) = PyStr.all_chars f a && PyStr.all_chars f b.
Proof.
  induction a as [|c a IH]; [reflexivity|].
  cbn [append]. rewrite !all_chars_cons, IH. now rewrite andb_assoc.
Qed.

Lemma run_stops cs g rest :
  PyStr.all_chars (accepts cs) g = true -> stops cs rest ->
  run cs (g ++ rest) = String.length g.
Proof.
  intros Hg Hrest. induction g as [|c g IH].
  - cbn. destruct rest as [|c rest]; [reflexivity|]. cbn in Hrest |- *. now rewrite Hrest.
  - rewrite all_chars_cons in Hg. apply andb_true_iff in Hg as [Hc Hg].
    cbn. rewrite Hc. now rewrite IH.
Qed.

Lemma run_at_least cs g rest :
  PyStr.all_chars (accepts cs) g = true -> (String.length g <= run cs (g ++ rest))%nat.
Proof.
  intros Hg. induction g as [|c g IH]; [cbn; lia|].
  rewrite all_chars_cons in Hg. apply andb_true_iff in Hg as [Hc Hg].
  cbn. rewrite Hc. specialize (IH Hg). lia.
Qed.

Lemma match_lit l p s : match_here (Lit l :: p) (l ++ s) = match_here p s.
Proof. cbn [match_here]. now rewrite is_prefix_app, drop_app. Qed.

Lemma match_plus cs p g rest gs :
  g <> "" -> PyStr.all_chars (accepts cs) g = true -> stops cs rest ->
  match_here p rest = Some gs ->
  match_here (Group (Plus cs) :: p) (g ++ rest) = Some (g :: gs).
Proof.
  intros Hne Hg Hrest Hp. cbn [match_here]. rewrite (run_stops cs g rest Hg Hrest).
  destruct (String.length g) as [|n] eqn:Hlen; [destruct g; [contradiction|discriminate]|].
  rewrite <- Hlen, drop_app, Hp, take_app. reflexivity.
Qed.

Lemma match_exactly cs n p g rest :
  String.length g = n -> PyStr.all_chars (accepts cs) g = true ->
  match_here (Group (Exactly n cs) :: p) (g ++ rest)
  = option_map (cons g) (match_here p rest).
Proof.
  intros Hlen Hg. cbn [match_here].
  assert (Hrun := run_at_least cs g rest Hg). rewrite Hlen in Hrun.
  apply Nat.leb_le in Hrun. rewrite Hrun. subst n. now rewrite take_app, drop_app.
Qed.

(** A pattern that starts with a literal matches nowhere in a string the
    literal does not occur in. *)
Lemma search_none l p : forall s,
  PyStr.contains l s = false -> search (Lit l :: p) s = None.
Proof.
  induction s as [|c s IH]; intros H; cbn [PyStr.contains] in H;
    apply orb_false_iff in H as [Hpre Hrest]; cbn [search match_here]; rewrite Hpre.
  - reflexivity.
  - now apply IH.
Qed.

Lemma search_at_start p s gs : match_here p s = Some gs -> search p s = Some gs.
Proof. intros H. destruct s; cbn [search]; now rewrite H. Qed.

Lemma search_later p c s : match_here p (String c s) = None -> search p (String c s) = search p s.
Proof. intros H. cbn [search]. now rewrite H. Qed.

Lemma contains_no_first_char (c : ascii) l : forall s,
  PyStr.all_chars (fun x => negb (Ascii.eqb x c)) s = true ->
  PyStr.contains (String c l) s = false.
Proof.
  induction s as [|x s IH]; intros H; [reflexivity|].
  rewrite all_chars_cons in H. apply andb_true_iff in H as [Hx Hs].
  cbn [PyStr.contains PyStr.is_prefix]. rewrite (IH Hs).
  rewrite Ascii.eqb_sym. apply negb_true_iff in Hx. now rewrite Hx.
Qed.

Lemma drop_inside f : forall g n rest,
  (n < String.length g)%nat -> PyStr.all_chars f g = true ->
  exists x s, PyStr.drop n (g ++ rest) = String x s /\ f x = true.
Proof.
  induction g as [|c g IH]; intros n rest Hn Hg; [cbn in Hn; lia|].
  rewrite all_chars_cons in Hg. apply andb_true_iff in Hg as [Hc Hg].
  destruct n as [|n]; cbn.
  - eauto.
  - apply IH; [cbn in Hn; lia | exact Hg].
Qed.

Lemma match_plus_lit_fails cs c0 l p g rest :
  PyStr.all_chars (accepts cs) g = true -> stops cs rest ->
  accepts cs c0 = false ->
  PyStr.is_prefix (String c0 l) rest = false ->
  match_here (Group (Plus cs) :: Lit (String c0 l) :: p) (g ++ rest) = None.
Proof.
  intros Hg Hrest Hc0 Hpre.
  assert (Hdrop : forall n, (n <= String.length g)%nat ->
            PyStr.is_prefix (String c0 l) (PyStr.drop n (g ++ rest)) = false).
  { intros n Hn. destruct (Nat.eq_dec n (String.length g)) as [->|Hneq].
    - now rewrite drop_app.
    - destruct (drop_inside (accepts cs) g n rest) as (x & s & -> & Hx); [lia | exact Hg |].
      cbn [PyStr.is_prefix]. destruct (Ascii.eqb_spec c0 x) as [->|]; [congruence|reflexivity]. }
  cbn [match_here]. rewrite (run_stops cs g rest Hg Hrest).
  match goal with
  | |- ?f (String.length g) = None =>
      assert (H : forall n, (n <= String.length g)%nat -> f n = None);
      [|apply H; lia]
  end.
  induction n as [|n IH]; intros Hn; [reflexivity|].
  rewrite (Hdrop (S n) Hn). apply IH. lia.
Qed.

End ReMatch.

(** ** The URLs [generate_test_urls] makes *)

Import ReMatch.

Lemma is_prefix_trans a : forall l s,
  PyStr.is_prefix a l = true -> PyStr.is_prefix l s = true -> PyStr.is_prefix a s = true.
Proof.
  induction a as [|c a IH]; intros l s Hal Hls; [reflexivity|].
  destruct l as [|c1 l]; [discriminate|]. destruct s as [|c2 s]; [discriminate|].
  cbn in *. apply andb_true_iff in Hal as [H1 H2]. apply andb_true_iff in Hls as [H3 H4].
  apply Ascii.eqb_eq in H1, H3. subst. rewrite Ascii.eqb_refl. cbn. eauto.
Qed.

(** The literal every pattern starts with does not start inside a base URL
    that holds no [/jp]. *)
Lemma literal_not_in_base c base t :
  PyStr.is_prefix "/jp" (String c base) = false ->
  PyStr.is_prefix "/jp/ja-jp/" (String c (base ++ "/jp/ja-jp/" ++ t)) = false.
Proof.
  intros H. cbn [PyStr.is_prefix] in *.
  destruct (Ascii.eqb_spec "/" c) as [<-|]; [|reflexivity].
  destruct base as [|c2 base]; [reflexivity|]. cbn [append andb] in *.
  destruct (Ascii.eqb_spec "j" c2) as [<-|]; [|reflexivity].
  destruct base as [|c3 base]; [reflexivity|]. cbn [append andb] in *.
  destruct (Ascii.eqb_spec "p" c3) as [<-|]; [discriminate|reflexivity].
Qed.

Lemma search_skip_base l p :
  PyStr.is_prefix "/jp/ja-jp/" l = true ->
  forall base t,
    PyStr.contains "/jp" base = false ->
    Re.search (Re.Lit l :: p) (base ++ "/jp/ja-jp/" ++ t)
    = Re.search (Re.Lit l :: p) ("/jp/ja-jp/" ++ t).
Proof.
  intros Hl. induction base as [|c base IH]; intros t H; [reflexivity|].
  cbn [PyStr.contains] in H. apply orb_false_iff in H as [Hpre Hrest].
  assert (E : PyStr.is_prefix l (String c (base ++ "/jp/ja-jp/" ++ t)) = false).
  { destruct (PyStr.is_prefix l (String c (base ++ "/jp/ja-jp/" ++ t))) eqn:E; [|reflexivity].
    apply (is_prefix_trans _ _ _ Hl) in E.
    now rewrite (literal_not_in_base c base t Hpre) in E. }
  change ((String c base ++ "/jp/ja-jp/" ++ t)%string)
    with (String c (base ++ "/jp/ja-jp/" ++ t)).
  rewrite search_later; [now apply IH|].
  cbn [Re.match_here]. now rewrite E.
Qed.

Lemma is_prefix_take l : forall n s,
  PyStr.is_prefix l (PyStr.take n s) = true -> PyStr.is_prefix l s = true.
Proof.
  induction l as [|c l IH]; intros n s H; [reflexivity|].
  destruct n as [|n]; [discriminate|]. destruct s as [|x s]; [discriminate|].
  cbn in *. apply andb_true_iff in H as [H1 H2]. rewrite H1. cbn. eauto.
Qed.

Lemma contains_take l : forall s n,
  PyStr.contains l s = false -> PyStr.contains l (PyStr.take n s) = false.
Proof.
  induction s as [|c s IH]; intros n H.
  - destruct n; exact H.
  - destruct n as [|n].
    + cbn [PyStr.take]. cbn [PyStr.contains] in *.
      apply orb_false_iff in H as [Hpre _].
      destruct l; [discriminate|reflexivity].
    + cbn [PyStr.contains] in H. apply orb_false_iff in H as [Hpre Hrest].
      cbn [PyStr.take PyStr.contains]. rewrite (IH n Hrest), orb_false_r.
      destruct (PyStr.is_prefix l (String c (PyStr.take n s))) eqn:E; [|reflexivity].
      apply (is_prefix_take l (S n) (String c s)) in E. congruence.
Qed.

(** *** The characters of the parts *)

Lemma all_chars_impl (f g : ascii -> bool) s :
  (forall c, f c = true -> g c = true) ->
  PyStr.all_chars f s = true -> PyStr.all_chars g s = true.
Proof.
  intros Hfg. induction s as [|c s IH]; [reflexivity|].
  rewrite !all_chars_cons. intros H. apply andb_true_iff in H as [Hc Hs].
  now rewrite (Hfg c Hc), (IH Hs).
Qed.

Lemma digit_upper_or_digit c :
  Re.accepts digit c = true -> Re.accepts upper_or_digit c = true.
Proof.
  unfold Re.accepts, digit, upper_or_digit. cbn [Re.negated Re.ranges existsb xorb].
  intros ->. apply orb_true_r.
Qed.

Lemma upper_or_digit_not_slash c :
  Re.accepts upper_or_digit c = true -> negb (Ascii.eqb c "/") = true.
Proof.
  intros H. destruct (Ascii.eqb_spec c "/") as [->|]; [|reflexivity].
  vm_compute in H. discriminate.
Qed.

Lemma upper_or_digit_not_j c :
  Re.accepts upper_or_digit c = true -> Ascii.eqb "j" c = false.
Proof.
  intros H. destruct (Ascii.eqb_spec "j" c) as [<-|]; [|reflexivity].
  vm_compute in H. discriminate.
Qed.

Lemma of_int_three_digits n :
  100 <= n <= 999 ->
  String.length (PyStr.of_int n) = 3%nat
  /\ PyStr.all_chars (Re.accepts digit) (PyStr.of_int n) = true.
Proof.
  intros Hn.
  assert (Hall : forallb (fun k => let s := PyStr.of_int (100 + Z.of_nat k) in
                                   Nat.eqb (String.length s) 3
                                   && PyStr.all_chars (Re.accepts digit) s)
                         (seq 0 900) = true) by (vm_compute; reflexivity).
  rewrite forallb_forall in Hall.
  specialize (Hall (Z.to_nat (n - 100))).
  replace (100 + Z.of_nat (Z.to_nat (n - 100))) with n in Hall by lia.
  cbv zeta in Hall.
  destruct (andb_prop _ _ (Hall ltac:(apply in_seq; lia))) as [H1 H2].
  apply Nat.eqb_eq in H1. auto.
Qed.

Lemma category_chars category :
  In category categories ->
  category <> "" /\ PyStr.all_chars (Re.accepts not_slash) category = true
  /\ forall rest, PyStr.is_prefix "/p/" (String "/" (category ++ rest)) = false
                  /\ PyStr.is_prefix "/products/" (String "/" (category ++ rest)) = false.
Proof.
  intros Hin. unfold categories in Hin.
  repeat (destruct Hin as [<-|Hin];
          [split; [discriminate|]; split; [reflexivity|]; intros rest; split; reflexivity|]).
  destruct Hin.
Qed.

Lemma prefix_chars prefix :
  In prefix jp_product_ids ->
  PyStr.all_chars (Re.accepts upper_or_digit) prefix = true
  /\ exists c rest, prefix = String c rest.
Proof.
  intros Hin. unfold jp_product_ids in Hin.
  repeat (destruct Hin as [<-|Hin]; [split; [reflexivity | eauto]|]).
  destruct Hin.
Qed.

Lemma is_prefix_residual : forall l a y,
  PyStr.is_prefix l (a ++ y)
  = match residual l a with
    | Some l' => PyStr.is_prefix l' y
    | None => false
    end.
Proof.
  induction l as [|c l IH]; intros a y; [reflexivity|].
  destruct a as [|d a]; [reflexivity|].
  cbn [append PyStr.is_prefix residual]. destruct (Ascii.eqb c d); [apply IH | reflexivity].
Qed.

Lemma contains_occurs_in l y test :
  (forall l', PyStr.is_prefix l' y = true -> test l' = true) ->
  PyStr.contains l y = false ->
  forall a, occurs_in l a test = false -> PyStr.contains l (a ++ y) = false.
Proof.
  intros Htest Hy. induction a as [|d a IH]; intros H; [exact Hy|].
  cbn [occurs_in] in H. apply orb_false_iff in H as [Hhere Hlater].
  change ((String d a ++ y)%string) with (String d (a ++ y)).
  cbn [PyStr.contains]. rewrite (IH Hlater), orb_false_r.
  change (String d (a ++ y)) with ((String d a ++ y)%string).
  rewrite is_prefix_residual.
  destruct (residual l (String d a)) as [l'|]; [|reflexivity].
  destruct (PyStr.is_prefix l' y) eqn:E; [|reflexivity].
  rewrite (Htest l' E) in Hhere. discriminate.
Qed.

Lemma append_assoc3 (a b c y : string) :
  (a ++ b ++ c ++ y)%string = ((a ++ b ++ c) ++ y)%string.
Proof.
  induction a as [|x a IH]; cbn [append].
  - induction b as [|x b IHb]; cbn [append]; [reflexivity | now rewrite IHb].
  - now rewrite IH.
Qed.

(** After its first character a generated URL holds the literal no more. *)
Lemma no_literal_later category mid y :
  In category categories ->
  In mid ["/p/"; "/products/"] ->
  PyStr.is_prefix "jp/ja-jp/" y = false ->
  PyStr.contains "/jp/ja-jp/" y = false ->
  PyStr.contains "/jp/ja-jp/" ("jp/ja-jp/" ++ category ++ mid ++ y) = false
  /\ PyStr.contains "/jp/ja-jp/" ("jp/ja-jp/sale/" ++ category ++ mid ++ y) = false.
Proof.
  intros Hin Hmid H1 H2.
  set (test := fun l' => negb (String.eqb l' "jp/ja-jp/")).
  assert (Htest : forall l', PyStr.is_prefix l' y = true -> test l' = true).
  { intros l' Hl'. unfold test. destruct (String.eqb_spec l' "jp/ja-jp/"); [|reflexivity].
    subst. congruence. }
  assert (Hall : forallb (fun m =>
                   forallb (fun c =>
                     negb (occurs_in "/jp/ja-jp/" ("jp/ja-jp/" ++ c ++ m) test)
                     && negb (occurs_in "/jp/ja-jp/" ("jp/ja-jp/sale/" ++ c ++ m) test))
                     categories) ["/p/"; "/products/"] = true)
    by (vm_compute; reflexivity).
  rewrite forallb_forall in Hall. specialize (Hall mid Hmid).
  rewrite forallb_forall in Hall. specialize (Hall category Hin).
  apply andb_true_iff in Hall as [Ha Hb]. apply negb_true_iff in Ha, Hb.
  rewrite !append_assoc3.
  split; apply (contains_occurs_in _ _ test Htest H2); assumption.
Qed.

(** *** The three shapes, one by one *)

Section Shapes.

Variables (category product_id color : string).
Hypothesis category_in : In category categories.
Hypothesis product_id_chars : PyStr.all_chars (Re.accepts upper_or_digit) product_id = true.
Hypothesis product_id_head : exists c rest, product_id = String c rest.
Hypothesis color_length : String.length color = 3%nat.
Hypothesis color_chars : PyStr.all_chars (Re.accepts digit) color = true.

Let tail : string := product_id ++ "-" ++ color ++ ".html".

Lemma tail_matches :
  Re.match_here [Re.Group (Re.Plus upper_or_digit); Re.Lit "-";
                 Re.Group (Re.Exactly 3 digit); Re.Lit ".html"] tail
  = Some [product_id; color].
Proof.
  unfold tail. apply match_plus.
  - destruct product_id_head as (c & rest & ->). discriminate.
  - exact product_id_chars.
  - reflexivity.
  - rewrite match_lit, (match_exactly digit 3 _ color ".html" color_length color_chars).
    reflexivity.
Qed.

Lemma shape_matches lit mid :
  Re.match_here [Re.Lit lit; Re.Group (Re.Plus not_slash); Re.Lit (String "/" mid);
                 Re.Group (Re.Plus upper_or_digit); Re.Lit "-";
                 Re.Group (Re.Exactly 3 digit); Re.Lit ".html"]
    (lit ++ category ++ String "/" mid ++ tail)
  = Some [category; product_id; color].
Proof.
  destruct (category_chars category category_in) as (Hne & Hchars & _).
  rewrite match_lit. apply match_plus; [exact Hne | exact Hchars | reflexivity|].
  rewrite match_lit. exact tail_matches.
Qed.

Lemma tail_no_slash : PyStr.contains "/jp/ja-jp/" tail = false.
Proof.
  apply contains_no_first_char. unfold tail. rewrite !all_chars_app.
  rewrite (all_chars_impl _ _ _ upper_or_digit_not_slash product_id_chars).
  rewrite (all_chars_impl _ _ _ upper_or_digit_not_slash
             (all_chars_impl _ _ _ digit_upper_or_digit color_chars)).
  reflexivity.
Qed.

Lemma tail_head : PyStr.is_prefix "jp/ja-jp/" tail = false.
Proof.
  unfold tail. destruct product_id_head as (c & rest & Heq).
  assert (Hc : Re.accepts upper_or_digit c = true).
  { rewrite Heq, all_chars_cons in product_id_chars.
    now apply andb_true_iff in product_id_chars as [Hc _]. }
  rewrite Heq. cbn [append PyStr.is_prefix]. now rewrite (upper_or_digit_not_j c Hc).
Qed.

End Shapes.

Section Generated.

Variables (base category prefix number color : string).
Hypothesis base_plain : PyStr.contains "/jp" base = false.
Hypothesis category_in : In category categories.
Hypothesis prefix_in : In prefix jp_product_ids.
Hypothesis number_length : String.length number = 3%nat.
Hypothesis number_chars : PyStr.all_chars (Re.accepts digit) number = true.
Hypothesis color_length : String.length color = 3%nat.
Hypothesis color_chars : PyStr.all_chars (Re.accepts digit) color = true.

Local Abbreviation product_id := (prefix ++ number)%string.
Local Abbreviation tail := ((prefix ++ number) ++ "-" ++ color ++ ".html")%string.
Local Abbreviation info :=
  [("category", category); ("product_id", (prefix ++ number)%string); ("color", color)].

Lemma product_id_chars : PyStr.all_chars (Re.accepts upper_or_digit) product_id = true.
Proof.
  rewrite all_chars_app.
  rewrite (proj1 (prefix_chars prefix prefix_in)).
  now rewrite (all_chars_impl _ _ _ digit_upper_or_digit number_chars).
Qed.

Lemma product_id_head : exists c rest, product_id = String c rest.
Proof.
  destruct (prefix_chars prefix prefix_in) as (_ & c & rest & Heq).
  exists c, (rest ++ number)%string. now rewrite Heq.
Qed.

Lemma later_none p mid t :
  In mid ["/p/"; "/products/"] ->
  (t = ("jp/ja-jp/" ++ category ++ mid ++ tail)%string
   \/ t = ("jp/ja-jp/sale/" ++ category ++ mid ++ tail)%string) ->
  Re.match_here (Re.Lit "/jp/ja-jp/" :: p) (String "/" t) = None ->
  Re.search (Re.Lit "/jp/ja-jp/" :: p) (String "/" t) = None.
Proof.
  intros Hmid Ht Hhere. rewrite (search_later _ _ _ Hhere). apply search_none.
  destruct (no_literal_later category mid tail category_in Hmid
              (tail_head product_id color product_id_chars product_id_head)
              (tail_no_slash product_id color product_id_chars color_chars)) as [H1 H2].
  destruct Ht as [->| ->]; assumption.
Qed.

Lemma extract_first :
  _extract_product_info_from_url
    (base ++ "/jp/ja-jp/" ++ category ++ "/p/" ++ tail) = info.
Proof.
  unfold _extract_product_info_from_url, patterns. cbn [first_match].
  rewrite (search_skip_base "/jp/ja-jp/" _ eq_refl base _ base_plain).
  rewrite (search_at_start _ _ _
             (shape_matches category product_id color category_in product_id_chars
                product_id_head color_length color_chars "/jp/ja-jp/" "p/")).
  reflexivity.
Qed.

Lemma extract_second :
  _extract_product_info_from_url
    (base ++ "/jp/ja-jp/" ++ category ++ "/products/" ++ tail) = info.
Proof.
  destruct (category_chars category category_in) as (Hne & Hchars & _).
  unfold _extract_product_info_from_url, patterns. cbn [first_match].
  rewrite (search_skip_base "/jp/ja-jp/" _ eq_refl base _ base_plain).
  change ("/jp/ja-jp/" ++ category ++ "/products/" ++ tail)%string
    with (String "/" ("jp/ja-jp/" ++ category ++ "/products/" ++ tail)).
  rewrite (later_none _ "/products/" _ ltac:(cbn; tauto) (or_introl eq_refl)).
  - change (String "/" ("jp/ja-jp/" ++ category ++ "/products/" ++ tail))
      with ("/jp/ja-jp/" ++ category ++ "/products/" ++ tail)%string.
    rewrite (search_skip_base "/jp/ja-jp/" _ eq_refl base _ base_plain).
    rewrite (search_at_start _ _ _
               (shape_matches category product_id color category_in product_id_chars
                  product_id_head color_length color_chars "/jp/ja-jp/" "products/")).
    reflexivity.
  - change (String "/" ("jp/ja-jp/" ++ category ++ "/products/" ++ tail))
      with ("/jp/ja-jp/" ++ category ++ "/products/" ++ tail)%string.
    rewrite match_lit. apply match_plus_lit_fails; [exact Hchars | reflexivity ..].
Qed.

Lemma sale_fails mid p :
  In mid ["p/"; "products/"] ->
  Re.match_here (Re.Lit "/jp/ja-jp/" :: Re.Group (Re.Plus not_slash)
                 :: Re.Lit (String "/" mid) :: p)
    ("/jp/ja-jp/" ++ "sale" ++ String "/" (category ++ "/p/" ++ tail)) = None.
Proof.
  intros Hmid. destruct (category_chars category category_in) as (_ & _ & Hpre).
  rewrite match_lit. apply match_plus_lit_fails; [reflexivity ..|].
  destruct (Hpre ("/p/" ++ tail)%string) as [H1 H2].
  destruct Hmid as [<-|[<-|[]]]; assumption.
Qed.

Lemma extract_third :
  _extract_product_info_from_url
    (base ++ "/jp/ja-jp/sale/" ++ category ++ "/p/" ++ tail) = info.
Proof.
  unfold _extract_product_info_from_url, patterns. cbn [first_match].
  change (base ++ "/jp/ja-jp/sale/" ++ category ++ "/p/" ++ tail)%string
    with (base ++ "/jp/ja-jp/" ++ "sale/" ++ category ++ "/p/" ++ tail)%string.
  rewrite !(search_skip_base "/jp/ja-jp/" _ eq_refl base _ base_plain).
  rewrite (search_skip_base "/jp/ja-jp/sale/" _ eq_refl base _ base_plain).
  change ("/jp/ja-jp/" ++ "sale/" ++ category ++ "/p/" ++ tail)%string
    with (String "/" ("jp/ja-jp/sale/" ++ category ++ "/p/" ++ tail)).
  rewrite !(later_none _ "/p/" _ ltac:(cbn; tauto) (or_intror eq_refl)).
  - change (String "/" ("jp/ja-jp/sale/" ++ category ++ "/p/" ++ tail))
      with ("/jp/ja-jp/sale/" ++ category ++ "/p/" ++ tail)%string.
    rewrite (search_at_start _ _ _
               (shape_matches category product_id color category_in product_id_chars
                  product_id_head color_length color_chars "/jp/ja-jp/sale/" "p/")).
    reflexivity.
  - apply (sale_fails "products/"). cbn; tauto.
  - apply (sale_fails "p/"). cbn; tauto.
Qed.

Lemma generated_extracted url :
  In url (url_patterns base category product_id color) ->
  _extract_product_info_from_url url = info.
Proof.
  intros [<-|[<-|[<-|[]]]]; [apply extract_first | apply extract_second | apply extract_third].
Qed.

End Generated.

Lemma nth_below_In (l : list string) i :
  l <> [] -> In (nth (Nat.modulo i (length l)) l "") l.
Proof.
  intros Hne. apply nth_In. apply Nat.mod_upper_bound.
  destruct l; [contradiction | discriminate].
Qed.

Lemma randint_range x :
  100 <= 100 + Z.of_nat (Nat.modulo x (Z.to_nat (999 - 100 + 1))) <= 999.
Proof.
  change (Z.to_nat (999 - 100 + 1)) with 900%nat.
  pose proof (Nat.mod_upper_bound x 900 ltac:(discriminate)). lia.
Qed.

Lemma digits_listed s :
  PyStr.all_chars (Re.accepts digit) s = true ->
  Forall (fun c => In c (list_ascii_of_string "0123456789")) (list_ascii_of_string s).
Proof.
  unfold PyStr.all_chars. intros H. apply Forall_forall. intros c Hc.
  rewrite forallb_forall in H. specialize (H c Hc). revert H. clear.
  destruct c as [[] [] [] [] [] [] [] []]; intros H; try discriminate H; cbn; tauto.
Qed.

Lemma take_drop : forall n s, (PyStr.take n s ++ PyStr.drop n s)%string = s.
Proof.
  induction n as [|n IH]; intros s; [reflexivity|].
  destruct s as [|c s]; [reflexivity|]. cbn. now rewrite IH.
Qed.

(** [base_url[:-1]] when [base_url] ends with a slash *)
Lemma endswith_slash base_url :
  PyStr.endswith base_url "/" = true ->
  base_url = (PyStr.take (String.length base_url - 1) base_url ++ "/")%string.
Proof.
  unfold PyStr.endswith. intros H. apply andb_true_iff in H as [_ H].
  apply String.eqb_eq in H. cbn [String.length] in H.
  rewrite <- H at 1. now rewrite take_drop.
Qed.

Lemma generate_loop_recognised env base_url :
  PyStr.contains "/jp" base_url = false ->
  forall count urls w,
  exists w' new,
    generate_loop env base_url count urls w = (w', Py.Ok (urls ++ new)%list)
    /\ length new = count
    /\ Forall (recognised base_url) new
    /\ trace w' = trace w.
Proof.
  intros Hbase. induction count as [|n IH]; intros urls w.
  - exists w, []. cbn. rewrite app_nil_r. auto.
  - cbn [generate_loop]. unfold Py.bind.
    repeat (first [rewrite random_choice_eq | rewrite random_randint_eq]; cbv beta iota).
    match goal with
    | |- context [generate_loop env base_url n (urls ++ [?u])%list ?w1] =>
        destruct (IH (urls ++ [u])%list w1) as (w' & new & Hrun & Hlen & Hrec & Htr);
        exists w', (u :: new);
        assert (Hu : recognised base_url u)
    end.
    { match goal with
      | |- recognised _ (nth ?i [_ ++ _ ++ ?c ++ _ ++ (?p ++ PyStr.of_int ?a) ++ _ ++ PyStr.of_int ?b ++ _; _; _] "") =>
          destruct (of_int_three_digits a) as [Ha1 Ha2];
          [apply randint_range|];
          destruct (of_int_three_digits b) as [Hb1 Hb2];
          [apply randint_range|];
          assert (Hc : In c categories) by (apply nth_below_In; discriminate);
          assert (Hp : In p jp_product_ids) by (apply nth_below_In; discriminate);
          assert (Hin : In (nth i (url_patterns base_url c (p ++ PyStr.of_int a)
                                     (PyStr.of_int b)) "")
                           (url_patterns base_url c (p ++ PyStr.of_int a) (PyStr.of_int b)))
            by (apply nth_In; apply Nat.mod_upper_bound; discriminate);
          exists c, p, (PyStr.of_int a), (PyStr.of_int b);
          split; [exact Hc|]; split; [exact Hp|];
          split; [split; [exact Ha1 | now apply digits_listed]|];
          split; [split; [exact Hb1 | now apply digits_listed]|];
          split; [exact Hin|];
          apply (generated_extracted base_url c p (PyStr.of_int a) (PyStr.of_int b));
          assumption
      end. }
    rewrite Hrun, <- app_assoc. cbn [app length]. split; [reflexivity|].
    split; [now rewrite Hlen|]. split; [now constructor | exact Htr].
Qed.

(** X16: the extractor recognises every URL the generator makes.  For a
    base URL that holds no [/jp], [generate_test_urls] returns [count] URLs
    without touching the trace.  Each of them is made, under the base URL
    without its last slash, in one of the three shapes, of a category of the
    list of ten, a product id that is one of the twenty prefixes followed by
    three digits, and a colour code of three digits; and in each of them
    [_extract_product_info_from_url] finds just the category, the product id
    and the colour code the URL was made of. *)
Theorem generated_urls_are_recognised env base_url count w :
  PyStr.contains "/jp" base_url = false ->
  exists w' urls base,
    generate_test_urls env base_url count w = (w', Py.Ok urls)
    /\ length urls = Z.to_nat count
    /\ (base_url = (base ++ "/")%string
        \/ (base_url = base /\ PyStr.endswith base_url "/" = false))
    /\ Forall (recognised base) urls
    /\ trace w' = trace w.
Proof.
  intros Hbase. unfold generate_test_urls.
  match goal with
  | |- context [generate_loop env ?b ?n [] w] =>
      destruct (generate_loop_recognised env b) with (count := n) (urls := @nil string) (w := w)
        as (w' & new & Hrun & Hlen & Hrec & Htr)
  end.
  - destruct (PyStr.endswith base_url "/"); [now apply contains_take | exact Hbase].
  - cbn [app] in Hrun. eexists w', new, _. split; [exact Hrun|]. split; [exact Hlen|].
    split; [|split; [exact Hrec | exact Htr]].
    destruct (PyStr.endswith base_url "/") eqn:E.
    + left. now apply endswith_slash.
    + right. split; reflexivity.
Qed.

(** Three rounds in which the draws go through the choices in turn: one URL
    of each shape, and what the extractor finds in each. *)
Lemma generated_urls_are_recognised_witness :
  let u1 := "https://www.asics.com/jp/ja-jp/running/products/1011B102-103.html" in
  let u2 := "https://www.asics.com/jp/ja-jp/track-and-field/p/1071B107-108.html" in
  let u3 := "https://www.asics.com/jp/ja-jp/sale/running/p/1081B112-113.html" in
  exists w',
    generate_test_urls Scenario.turning_env "https://www.asics.com/" 3 Scenario.world0
    = (w', Py.Ok [u1; u2; u3])
    /\ Forall (recognised "https://www.asics.com") [u1; u2; u3]
    /\ map (_extract_product_info_from_url) [u1; u2; u3]
       = [[("category", "running"); ("product_id", "1011B102"); ("color", "103")];
          [("category", "track-and-field"); ("product_id", "1071B107"); ("color", "108")];
          [("category", "running"); ("product_id", "1081B112"); ("color", "113")]].
Proof.
  intros u1 u2 u3.
  destruct (generated_urls_are_recognised Scenario.turning_env "https://www.asics.com/" 3
              Scenario.world0)
    as (w' & urls & base & Hrun & _ & Hbase & Hrec & _); [reflexivity|].
  assert (Hb : base = "https://www.asics.com").
  { destruct Hbase as [H|[_ H]]; [|discriminate H].
    change "https://www.asics.com/" with ("https://www.asics.com" ++ "/")%string in H.
    clear -H. revert H. generalize "https://www.asics.com". intros s H.
    revert base H. induction s as [|c s IH]; intros [|c' base] H; try reflexivity.
    - destruct base; discriminate.
    - destruct s; discriminate.
    - injection H as -> H. f_equal. now apply IH. }
  subst base.
  assert (Hurls : urls = [u1; u2; u3]).
  { pose proof Hrun as Hv. vm_compute in Hv. injection Hv as _ <-. reflexivity. }
  subst urls.
  exists w'. split; [exact Hrun|]. split; [exact Hrec|]. vm_compute. reflexivity.
Defined.

(** ** An empty list of URLs *)

(** X17: [scrape_urls] has no answer for an empty list.  Nothing is
    fetched; the table the instance holds is saved when there is an output
    file; and then the tally fails: with [KeyError] when the instance has no
    record, as a new one has, because the table has no [status] column, and
    with [ZeroDivisionError] when it has records from an earlier call. *)
Theorem an_empty_list_ends_in_an_error
    lower env output_file delay_range timeout max_retries w self :
  exists w' e,
    scrape_urls lower env output_file delay_range timeout max_retries [] (w, self)
    = Some ((w', self), Py.Raise e)
    /\ Py.cls e = match results self with
                  | [] => Py.KeyError
                  | _ => Py.ZeroDivisionError
                  end
    /\ trace w' = (trace w ++ match output_path output_file with
                              | Some path => [ToCsv path (results self)]
                              | None => []
                              end)%list.
Proof.
  unfold scrape_urls. cbn [for_urls]. unfold summarise, Py.bind, Py.zoom, Py.read.
  cbn [fst snd].
  destruct (output_path output_file) as [path|].
  - unfold _save_results. cbn [fst snd].
    destruct (results self); (eexists _, _; split; [reflexivity|]; split; reflexivity).
  - cbn. destruct (results self);
      (eexists _, _; split; [reflexivity|]; split; [reflexivity | now rewrite app_nil_r]).
Qed.

(** ** A pause before every fetch *)

Lemma polite_weaken lo hi tr : forall prev, polite lo hi None tr -> polite lo hi prev tr.
Proof.
  destruct tr as [|e tr]; intros prev H; [exact I|].
  destruct H as [He Htr]. split; [|exact Htr].
  intros Hf. destruct (He Hf) as (d & Hd & _). discriminate.
Qed.

Lemma polite_app lo hi : forall a prev b,
  polite lo hi prev a -> polite lo hi None b -> polite lo hi prev (a ++ b).
Proof.
  induction a as [|e a IH]; intros prev b Ha Hb; cbn [app].
  - now apply polite_weaken.
  - destruct Ha as [He Ha]. split; [exact He | now apply IH].
Qed.

Lemma polite_no_fetch lo hi : forall tr prev,
  fetched tr = [] -> polite lo hi prev tr.
Proof.
  induction tr as [|e tr IH]; intros prev H; [exact I|].
  unfold fetched in H. cbn [flat_map] in H. apply app_eq_nil in H as [He Htr].
  split; [|now apply IH].
  destruct e; cbn in He |- *; solve [discriminate].
Qed.

Lemma paused_refl lo hi w : paused lo hi w w.
Proof. exists []. split; [now rewrite app_nil_r | exact I]. Qed.

Lemma paused_trans lo hi a b c : paused lo hi a b -> paused lo hi b c -> paused lo hi a c.
Proof.
  intros (e1 & H1 & P1) (e2 & H2 & P2). exists (e1 ++ e2)%list.
  split; [rewrite H2, H1; now rewrite app_assoc | now apply polite_app].
Qed.

(** Events that hold no fetch keep every fetch behind its pause. *)
Lemma paused_no_fetch lo hi w w' evs :
  trace w' = (trace w ++ evs)%list -> fetched evs = [] -> paused lo hi w w'.
Proof. intros Htr Hf. exists evs. split; [exact Htr | now apply polite_no_fetch]. Qed.

Lemma emit_paused lo hi e w : is_fetch e = false -> paused lo hi w (emit e w).
Proof.
  intros He. exists [e]. split; [reflexivity|]. split; [|exact I].
  rewrite He. discriminate.
Qed.

Lemma step_same_fetches_paused lo hi url timeout s s' :
  step_ok url timeout s s' -> same_fetches s s' -> paused lo hi (fst s) (fst s').
Proof.
  intros [[evs [Htr _]] _] Hf. apply (paused_no_fetch lo hi _ _ evs Htr).
  unfold same_fetches in Hf. rewrite Htr, fetched_app in Hf.
  apply (app_inv_head (fetched (trace (fst s)))). now rewrite app_nil_r.
Qed.

Lemma attempt_paused lower env delay_range timeout self url :
  (0 <= fst delay_range)%Q -> (fst delay_range <= snd delay_range)%Q ->
  preserves (fun s s' => paused (fst delay_range) (snd delay_range) (fst s) (fst s'))
    (attempt lower env delay_range timeout self url).
Proof.
  intros _ Hle [w r] s' o H.
  destruct (random_uniform_spec env (fst delay_range) (snd delay_range) w Hle)
    as (d & Hu & Hlo & Hhi).
  unfold attempt, Py.bind in H. unfold in_world at 1 2, Py.zoom in H.
  cbn [fst snd] in H. rewrite Hu in H. cbn [fst snd] in H.
  set (w1 := World (S (clock w))
               (trace w ++ [Uniform (fst delay_range) (snd delay_range) d])) in *.
  destruct (time_sleep_cases d w1) as [E|[e E]]; rewrite E in H.
  - assert (Hf : one_fetch_at_most url (emit (Sleep d) w1, r) s').
    { destruct (String.eqb (method self) "selenium");
        [eapply scrape_with_selenium_one_fetch | eapply scrape_with_requests_one_fetch];
        eauto. }
    destruct Hf as [Hw|(e & He & _ & Hw)]; rewrite Hw; cbn [fst].
    + exists [Uniform (fst delay_range) (snd delay_range) d; Sleep d].
      unfold emit, w1. cbn [trace]. rewrite <- app_assoc.
      split; [reflexivity|]. cbn [polite is_fetch].
      split; [discriminate|]. split; [discriminate | exact I].
    + exists [Uniform (fst delay_range) (snd delay_range) d; Sleep d; e].
      unfold emit, tick, w1. cbn [trace clock]. rewrite <- !app_assoc.
      split; [reflexivity|]. cbn [app polite is_fetch].
      split; [discriminate|]. split; [discriminate|]. split; [|exact I].
      intros _. exists d. auto.
  - injection H as <- _. cbn [fst].
    exists [Uniform (fst delay_range) (snd delay_range) d].
    split; [reflexivity|]. cbn [polite is_fetch]. split; [discriminate | exact I].
Qed.

Lemma on_exception_paused lo hi env (timeout : Z) max_retries retry_count e :
  preserves (fun s s' => paused lo hi (fst s) (fst s'))
    (on_exception env max_retries retry_count e).
Proof.
  intros s s' o H.
  destruct (on_exception_ok env timeout max_retries "" retry_count e s)
    as (s1 & brk & rc & Hrun & Hstep & _).
  assert (Hsame := on_exception_same_fetches env max_retries retry_count e _ _ _ H).
  rewrite H in Hrun. injection Hrun as <- _.
  eapply step_same_fetches_paused; eauto.
Qed.

Lemma scrape_url_paused lower env output_file delay_range timeout max_retries url s s' o :
  (0 <= fst delay_range)%Q -> (fst delay_range <= snd delay_range)%Q ->
  scrape_url lower env output_file delay_range timeout max_retries url s = Some (s', o) ->
  paused (fst delay_range) (snd delay_range) (fst s) (fst s').
Proof.
  intros H0 Hle. destruct s as [w self]. unfold scrape_url.
  destruct (retry_loop lower env delay_range timeout max_retries (Z.to_nat max_retries) self
              (absolute_url url) false 0
              (tick w, prepared_result self url (now env (clock w))))
    as [[[w1 r1] o1]|] eqn:Hloop; [|discriminate].
  assert (Hp : paused (fst delay_range) (snd delay_range) w w1).
  { apply (retry_loop_invariant lower env delay_range timeout max_retries self
             (absolute_url url)
             (fun s s' => paused (fst delay_range) (snd delay_range) (fst s) (fst s'))) in Hloop.
    - destruct Hloop as (evs & Htr & Hev). exists evs. auto.
    - intros. apply paused_refl.
    - intros a b c. apply paused_trans.
    - now apply attempt_paused.
    - intros. apply (on_exception_paused _ _ _ timeout). }
  destruct o1 as [[]|e]; [|intros [= <- _]; exact Hp].
  destruct (output_path output_file) as [path|]; [|intros [= <- _]; exact Hp].
  match goal with |- context [if ?b then _ else _] => destruct b end;
    [|intros [= <- _]; exact Hp].
  unfold _save_results. cbn [fst snd]. intros [= <- _]. cbn [fst].
  eapply paused_trans; [exact Hp|]. eapply paused_no_fetch; reflexivity.
Qed.

Lemma for_urls_paused lower env output_file delay_range timeout max_retries :
  (0 <= fst delay_range)%Q -> (fst delay_range <= snd delay_range)%Q ->
  forall urls s s' o,
    for_urls lower env output_file delay_range timeout max_retries urls s = Some (s', o) ->
    paused (fst delay_range) (snd delay_range) (fst s) (fst s').
Proof.
  intros H0 Hle. induction urls as [|url urls IH]; intros s s' o H; cbn [for_urls] in H.
  - injection H as <- _. apply paused_refl.
  - destruct (scrape_url lower env output_file delay_range timeout max_retries url s)
      as [[s1 [[]|e]]|] eqn:Hs; [| |discriminate].
    + eapply paused_trans; [eapply scrape_url_paused; eauto | eapply IH; eauto].
    + injection H as <- _. eapply scrape_url_paused; eauto.
Qed.

(** X18: no fetch without its pause.  In a run with a delay window that is
    not negative, every request and every page load comes directly after a
    [time.sleep] whose length lies in the window, so two fetches are never
    closer than the lower end of the window, retries included. *)
Theorem every_fetch_follows_its_pause
    lower env output_file delay_range timeout max_retries urls w self :
  (0 <= fst delay_range)%Q -> (fst delay_range <= snd delay_range)%Q ->
  urls <> [] ->
  exists w' self' df evs,
    scrape_urls lower env output_file delay_range timeout max_retries urls (w, self)
    = Some ((w', self'), Py.Ok df)
    /\ trace w' = (trace w ++ evs)%list
    /\ polite (fst delay_range) (snd delay_range) None evs.
Proof.
  intros H0 Hle Hne.
  destruct (scrape_urls_ok lower env output_file delay_range timeout max_retries
              urls w self Hne) as (w' & recs & evs & Hrun & _ & _ & _).
  exists w', (set_results (results self ++ recs) self), (results self ++ recs)%list.
  assert (Hp : paused (fst delay_range) (snd delay_range) w w').
  { revert Hrun. unfold scrape_urls.
    destruct (for_urls lower env output_file delay_range timeout max_retries urls (w, self))
      as [[s1 [[]|e]]|] eqn:Hfor; [|discriminate|discriminate].
    apply for_urls_paused in Hfor; [|assumption..]. cbn [fst] in Hfor.
    intros Hsum. eapply paused_trans; [exact Hfor|].
    injection Hsum as Hsum. revert Hsum.
    unfold summarise, Py.bind, Py.zoom, Py.read, _save_results, Py.raise, Py.ret, Py.modify.
    cbn [fst snd].
    destruct (output_path output_file); cbn [fst snd];
      destruct (results (snd s1)); try discriminate;
      destruct (Z.of_nat (length urls) =? 0); try discriminate;
      cbn [fst snd]; intros [= <- _];
      repeat (first [ apply paused_refl
                    | eapply paused_trans; [|apply emit_paused; reflexivity] ]). }
  destruct Hp as (evs' & Htr' & Hpol). exists evs'. auto.
Qed.

Lemma every_fetch_follows_its_pause_witness :
  let e := Scenario.env (GetRaises Scenario.timed_out)
                        (LoadRaises Scenario.page_load_timed_out) in
  let urls := ["/relative/path"; "https://www.asics.com/jp/ja-jp/running/p/1011A100-200.html"] in
  exists w' self' df evs,
    scrape_urls Scenario.lower e (Some "out.csv") (3 # 2, 4 # 1)%Q 30 3 urls
      (Scenario.world0, Scenario.scraper "selenium")
    = Some ((w', self'), Py.Ok df)
    /\ trace w' = (trace Scenario.world0 ++ evs)%list
    /\ polite (3 # 2) (4 # 1) None evs.
Proof.
  intros e urls.
  apply (every_fetch_follows_its_pause Scenario.lower e (Some "out.csv") (3 # 2, 4 # 1)%Q
           30 3 urls Scenario.world0 (Scenario.scraper "selenium")).
  - unfold Qle. cbn. lia.
  - unfold Qle. cbn. lia.
  - discriminate.
Defined.

(** ** Pages that load *)









(** ** A retry that succeeds *)





(** ** The tally *)

(** The percentages of a tally are rounded twice, so the two of a tally
    need not add up to 100: those of 1 and 2 out of 3 fall short of it. *)
Lemma percentages_are_rounded :
  (percent 1 3 + percent 2 3 <? 100)%float = true.
Proof. reflexivity. Qed.

(** X22: the tally of a new instance.  On an instance without earlier
    records, the run over a list that is not empty ends by a tally over the
    length of the list: its count of successes is the number of records with
    the success status of the mode and lies between zero and that length, so
    that the count of failures is the number of the other records; and the
    two percentages are the binary64 values of [count / len(urls) * 100] for
    these two counts. *)
Theorem the_tally_of_a_new_instance_adds_up
    lower env output_file delay_range timeout max_retries urls w self :
  results self = [] ->
  urls <> [] ->
  exists w' self' df,
    let total := Z.of_nat (length urls) in
    let success_value := if String.eqb (method self) "requests" then "成功" else "SUCCESS" in
    let success_count :=
      Z.of_nat (length (filter (fun r => String.eqb (Result.status r) success_value) df)) in
    let failure_count :=
      Z.of_nat (length (filter (fun r => negb (String.eqb (Result.status r) success_value))
                          df)) in
    scrape_urls lower env output_file delay_range timeout max_retries urls (w, self)
    = Some ((w', self'), Py.Ok df)
    /\ length df = length urls
    /\ 0 <= success_count <= total
    /\ success_count + failure_count = total
    /\ tally (trace w')
       = Some (total, success_count,
               (of_uint63 (Uint63.of_Z success_count) / of_uint63 (Uint63.of_Z total)
                * 100)%float,
               (of_uint63 (Uint63.of_Z failure_count) / of_uint63 (Uint63.of_Z total)
                * 100)%float).
Proof.
  intros Hfresh Hne.
  destruct (scrape_urls_ok lower env output_file delay_range timeout max_retries
              urls w self Hne) as (w' & recs & evs & Hrun & Hmap & Htr & _).
  rewrite Hfresh in *. cbn [app] in *.
  assert (Hlen : length recs = length urls) by (rewrite <- Hmap; now rewrite length_map).
  set (sv := if String.eqb (method self) "requests" then "成功" else "SUCCESS").
  assert (Hpart : (length (filter (fun r => String.eqb (Result.status r) sv) recs)
                   + length (filter (fun r => negb (String.eqb (Result.status r) sv)) recs)
                   = length recs)%nat).
  { clear. induction recs as [|r recs IH]; [reflexivity|]. cbn [filter].
    destruct (String.eqb (Result.status r) sv); cbn [negb length]; lia. }
  exists w', (set_results recs self), recs. cbv zeta. fold sv.
  split; [exact Hrun|]. split; [exact Hlen|].
  split; [lia|]. split; [lia|].
  unfold tally. rewrite Htr. unfold closing_events. rewrite !app_assoc, last_last.
  unfold success_value, count_status, percent, float_of_int. fold sv.
  set (sc := Z.of_nat (length (filter (fun r => String.eqb (Result.status r) sv) recs))).
  set (fc := Z.of_nat (length (filter (fun r => negb (String.eqb (Result.status r) sv))
                                 recs))).
  replace (Z.of_nat (length urls) - sc) with fc by lia.
  assert (H100 : (100 <? 0) = false) by reflexivity.
  assert (Hsc : (sc <? 0) = false) by (apply Z.ltb_ge; lia).
  assert (Hfc : (fc <? 0) = false) by (apply Z.ltb_ge; lia).
  assert (Htot : (Z.of_nat (length urls) <? 0) = false) by (apply Z.ltb_ge; lia).
  rewrite Hsc, Hfc, Htot. reflexivity.
Qed.

(** Four URLs of which one is the product page that is there: 1 success of
    4, 25 per cent, and 75 per cent of failures. *)
Lemma the_tally_of_a_new_instance_adds_up_witness :
  let urls := ["/jp/ja-jp/running/p/1011A100-200.html"; "/jp/ja-jp/a"; "/jp/ja-jp/b";
               "/jp/ja-jp/c"] in
  let self := Scenario.scraper "requests" in
  exists w' self' df,
    scrape_urls Scenario.lower Scenario.one_product_env None (3 # 2, 4 # 1)%Q 30 3 urls
      (Scenario.world0, self)
    = Some ((w', self'), Py.Ok df)
    /\ map Result.status df = ["成功"; "エラー"; "エラー"; "エラー"]
    /\ tally (trace w') = Some (4, 1, 25%float, 75%float).
Proof.
  intros urls self.
  destruct (the_tally_of_a_new_instance_adds_up Scenario.lower Scenario.one_product_env None
              (3 # 2, 4 # 1)%Q 30 3 urls Scenario.world0 self)
    as (w' & self' & df & Hrun & _ & _ & _ & Ht); [reflexivity | discriminate |].
  exists w', self', df. split; [exact Hrun|].
  pose proof Hrun as Hv. vm_compute in Hv. injection Hv as _ _ <-.
  split; [reflexivity|]. rewrite Ht. reflexivity.
Defined.
